(** * Harmonic-drive profile generators: a shallow embedding

    The geometry layer of [drawings/generate_dxf.py] and
    [drawings/solidworks/generate_step_files.py], written as Rocq functions,
    with the drawings and coordinate files the first script writes, the tooth
    placements of the second, and the converter
    [drawings/solidworks/convert_to_step.py].

    Python floats are kept abstract: every generator is written once over an
    interface [PyNum] of the float operations the scripts use, so structural
    facts (lengths, closure, which exception is raised) hold for any
    arithmetic, binary64 included.  Facts about the shape of the curves are
    proved in the instance of exact real numbers; where the rounding of
    binary64 shows in a value, the value is computed in the instance of
    doubles. *)

From Stdlib Require Import String Ascii DecimalString.
From Stdlib Require Import Floats.
From Stdlib Require Import ZArith List Bool Lia.
From Stdlib Require Import Reals Lra.
Import ListNotations.

Set Implicit Arguments.
Set Warnings "-inexact-float".

(** ** Exceptions and the result of a call *)

Inductive exn : Type :=
| ZeroDivisionError
| IndexError.

Inductive result (A : Type) : Type :=
| Ok (a : A)
| Raise (e : exn).

Arguments Ok {A} a.
Arguments Raise {A} e.

Definition bind {A B} (r : result A) (k : A -> result B) : result B :=
  match r with
  | Ok a => k a
  | Raise e => Raise e
  end.

Declare Scope py_scope.
Delimit Scope py_scope with py.

Notation "x <- c ;; k" := (bind c (fun x => k))
  (at level 61, c at next level, right associativity) : py_scope.

Local Open Scope py_scope.

(** [range(n)] on Python ints: empty when [n <= 0]. *)
Definition range (n : Z) : list Z :=
  map Z.of_nat (seq 0 (Z.to_nat n)).

(** A [for] loop whose body appends to the list [points]: the lists emitted
    by the iterations are concatenated in order, and the first exception
    aborts the loop. *)
Fixpoint for_each {A B} (xs : list A) (body : A -> result (list B))
  : result (list B) :=
  match xs with
  | [] => Ok []
  | x :: xs' =>
      ys <- body x ;;
      zs <- for_each xs' body ;;
      Ok (ys ++ zs)
  end.

(** [points[0]] *)
Definition first_item {A} (points : list A) : result A :=
  match points with
  | [] => Raise IndexError
  | p :: _ => Ok p
  end.

(** ** The float interface *)

Class PyNum (F : Type) : Type := {
  of_int : Z -> F;
  fadd : F -> F -> F;
  fsub : F -> F -> F;
  fmul : F -> F -> F;
  fdiv : F -> F -> F;
  fneg : F -> F;
  flt : F -> F -> bool;
  fle : F -> F -> bool;
  is_zero : F -> bool;
  fcos : F -> F;
  fsin : F -> F;
  fpi : F
}.

Notation "x + y" := (fadd x y) : py_scope.
Notation "x - y" := (fsub x y) : py_scope.
Notation "x * y" := (fmul x y) : py_scope.
Notation "x / y" := (fdiv x y) : py_scope.
Notation "- x" := (fneg x) : py_scope.

Section Division.
Context {F : Type} `{PyNum F}.

(** A decimal literal [n/d] with small [n] and [d]: the quotient of two
    exactly represented integers is the correctly rounded value of the
    literal. *)
Definition lit (n d : Z) : F := of_int n / of_int d.

(** [i / n] on two ints (true division). *)
Definition int_truediv (i n : Z) : result F :=
  if (n =? 0)%Z then Raise ZeroDivisionError
  else Ok (of_int i / of_int n).

(** [x / n] with a float [x] and an int [n]. *)
Definition float_div_int (x : F) (n : Z) : result F :=
  if (n =? 0)%Z then Raise ZeroDivisionError
  else Ok (x / of_int n).

(** [x / y] on two floats. *)
Definition float_div (x y : F) : result F :=
  if is_zero y then Raise ZeroDivisionError
  else Ok (x / y).
End Division.

(** ** Instances *)

(** Exact real arithmetic. *)
#[export] Instance RNum : PyNum R := {
  of_int := IZR;
  fadd := Rplus;
  fsub := Rminus;
  fmul := Rmult;
  fdiv := Rdiv;
  fneg := Ropp;
  flt := fun x y => if Rlt_dec x y then true else false;
  fle := fun x y => if Rle_dec x y then true else false;
  is_zero := fun x => if Req_dec_T x 0%R then true else false;
  fcos := cos;
  fsin := sin;
  fpi := PI
}.

(** IEEE-754 binary64, as CPython's [float]; the kernel has no cosine or
    sine on floats, so they are arguments of the instance.  An int of any
    size is converted to the nearest double, ties to even, as CPython does
    when an int meets a float.  CPython raises [OverflowError] for an int
    beyond the largest double (about [1.8e308]); the conversion here gives
    an infinity there, so statements that depend on it bound the ints. *)
Definition float_of_int (z : Z) : float :=
  SF2Prim (SpecFloat.binary_normalize prec emax z 0 false).

Definition Binary64 (c s : float -> float) (p : float) : PyNum float := {|
  of_int := float_of_int;
  fadd := PrimFloat.add;
  fsub := PrimFloat.sub;
  fmul := PrimFloat.mul;
  fdiv := PrimFloat.div;
  fneg := PrimFloat.opp;
  flt := PrimFloat.ltb;
  fle := PrimFloat.leb;
  is_zero := fun x => PrimFloat.eqb x PrimFloat.zero;
  fcos := c;
  fsin := s;
  fpi := p
|}.

(** [math.pi], the double nearest to pi. *)
Definition math_pi : float := 0x1.921fb54442d18p+1%float.

(** ** Files written by a script *)

(** What the DXF script hands to [ezdxf]: the calls
    [msp.add_lwpolyline(points, close=..., dxfattribs={'layer': ...})] and
    [msp.add_circle(center, radius, dxfattribs={'layer': ...})], in the
    order they are made. *)
Inductive entity (F : Type) : Type :=
| Lwpolyline (points : list (F * F)) (close : bool) (layer : string)
| Circle (center : F * F) (radius : F) (layer : string).

Arguments Lwpolyline {F} points close layer.
Arguments Circle {F} center radius layer.

(** A file once written: a drawing saved with [doc.saveas(name)], or a
    text file as the list of its lines. *)
Inductive file (F : Type) : Type :=
| DxfFile (name : string) (msp : list (entity F))
| TextFile (name : string) (lines : list string).

Arguments DxfFile {F} name msp.
Arguments TextFile {F} name lines.

(** A script threads the files written so far; an exception stops it and
    leaves what was written. *)
Definition script (F A : Type) : Type :=
  list (file F) -> list (file F) * result A.

Definition script_bind {F A B} (c : script F A) (k : A -> script F B)
  : script F B :=
  fun files =>
    match c files with
    | (files', Ok a) => k a files'
    | (files', Raise e) => (files', Raise e)
    end.

Definition lift {F A} (r : result A) : script F A :=
  fun files => (files, r).

Definition write_file {F} (f : file F) : script F unit :=
  fun files => ((files ++ [f])%list, Ok tt).

Notation "x <~ c ;; k" := (script_bind c (fun x => k))
  (at level 61, c at next level, right associativity) : py_scope.

(** [str] of an int. *)
Definition str_int (z : Z) : string := NilZero.string_of_int (Z.to_int z).

(** ** drawings/generate_dxf.py *)

Module GenerateDxf.

Section Design.
Context {F : Type} `{PyNum F}.

(** The input parameters of the script; the module-level code below is
    the derivation the script runs at import time. *)
Variables GEAR_RATIO TOOTH_DIFFERENCE : Z.
Variable MODULE : F.

Definition Z_FLEX : Z := (GEAR_RATIO * TOOTH_DIFFERENCE)%Z.
Definition Z_CIRC : Z := (Z_FLEX + TOOTH_DIFFERENCE)%Z.

Definition D_PITCH_FLEX : F := of_int Z_FLEX * MODULE.
Definition D_PITCH_CIRC : F := of_int Z_CIRC * MODULE.

Definition ADDENDUM : F := lit 8 10 * MODULE.
Definition DEDENDUM : F := lit 1 1 * MODULE.
Definition TOOTH_HEIGHT : F := ADDENDUM + DEDENDUM.

Definition D_OUTER_FLEX : F := D_PITCH_FLEX + (of_int 2 * ADDENDUM).
Definition T_WALL : F := lit 1 100 * D_PITCH_FLEX.
Definition D_INNER_FLEX : F := D_OUTER_FLEX - (of_int 2 * T_WALL).

Definition D_INNER_CIRC : F := D_PITCH_CIRC - (of_int 2 * ADDENDUM).

(** The remaining module-level dimensions. *)
Definition CUP_DEPTH : F := lit 30 100 * D_PITCH_FLEX.
Definition BASE_THICKNESS : F := lit 3 1 * T_WALL.
Definition FILLET_RADIUS : F := lit 25 10 * T_WALL.
Definition TOOTH_ZONE_WIDTH : F := lit 12 100 * D_PITCH_FLEX.

Definition D_OUTER_CIRC : F := lit 100 1.
Definition RING_HEIGHT : F := TOOTH_ZONE_WIDTH + of_int 4.
Definition BOLT_CIRCLE : F := lit 94 1.
Definition BOLT_HOLES : Z := 6.
Definition BOLT_HOLE_DIA : F := lit 42 10.

Definition RADIAL_DEFLECTION : F := lit 225 100 * MODULE.
Definition ELLIPSE_MAJOR : F := D_INNER_FLEX + (of_int 2 * RADIAL_DEFLECTION).
Definition ELLIPSE_MINOR : F := D_INNER_FLEX - lit 1 10.
Definition BEARING_OD : F := lit 42 1.
Definition BEARING_ID : F := lit 30 1.
Definition HUB_BORE : F := lit 10 1.

(** The body of the loop of [generate_tooth_profile], at parameter [t]. *)
Definition tooth_profile_point (t : F) : F * F :=
  let circular_pitch := fpi * MODULE in
  let x := (t - lit 5 10) * circular_pitch in
  let y :=
    if flt t (lit 5 10) then
      let angle := fpi * (t / lit 5 10) in
      - DEDENDUM + (DEDENDUM + ADDENDUM) * (of_int 1 - fcos angle) / of_int 2
    else
      let angle := fpi * ((t - lit 5 10) / lit 5 10) in
      ADDENDUM - (DEDENDUM + ADDENDUM) * (of_int 1 - fcos angle) / of_int 2
  in (x, y).

(** [generate_tooth_profile(num_points=20)] *)
Definition generate_tooth_profile (num_points : Z) : result (list (F * F)) :=
  for_each (range (num_points + 1)) (fun i =>
    t <- int_truediv i num_points ;;
    Ok [tooth_profile_point t]).

(** [generate_flex_spline_teeth(num_teeth=None, num_points_per_tooth=20)] *)
Definition generate_flex_spline_teeth (num_teeth : option Z)
    (num_points_per_tooth : Z) : result (list (F * F)) :=
  let num_teeth := match num_teeth with None => Z_FLEX | Some z => z end in
  let radius := D_PITCH_FLEX / of_int 2 in
  tooth_profile <- generate_tooth_profile num_points_per_tooth ;;
  for_each (range num_teeth) (fun tooth =>
    angle_offset <- float_div_int ((of_int 2 * fpi) * of_int tooth) num_teeth ;;
    for_each tooth_profile (fun p =>
      let '(px, py) := p in
      tooth_angle <- float_div px radius ;;
      let total_angle := angle_offset + tooth_angle in
      let r := radius + py in
      let x := r * fcos total_angle in
      let y := r * fsin total_angle in
      Ok [(x, y)])).

(** [generate_circular_spline_teeth(num_teeth=None,
    num_points_per_tooth=20)] *)
Definition generate_circular_spline_teeth (num_teeth : option Z)
    (num_points_per_tooth : Z) : result (list (F * F)) :=
  let num_teeth := match num_teeth with None => Z_CIRC | Some z => z end in
  let radius := D_PITCH_CIRC / of_int 2 in
  tooth_profile <- generate_tooth_profile num_points_per_tooth ;;
  for_each (range num_teeth) (fun tooth =>
    angle_offset <- float_div_int ((of_int 2 * fpi) * of_int tooth) num_teeth ;;
    for_each tooth_profile (fun p =>
      let '(px, py) := p in
      tooth_angle <- float_div px radius ;;
      let total_angle := angle_offset + tooth_angle in
      let r := radius - py in
      let x := r * fcos total_angle in
      let y := r * fsin total_angle in
      Ok [(x, y)])).

Definition generate_ellipse (major_axis minor_axis : F) (num_points : Z)
  : result (list (F * F)) :=
  let a := major_axis / of_int 2 in
  let b := minor_axis / of_int 2 in
  points <- for_each (range num_points) (fun i =>
    angle <- float_div_int ((of_int 2 * fpi) * of_int i) num_points ;;
    let x := a * fcos angle in
    let y := b * fsin angle in
    Ok [(x, y)]) ;;
  p0 <- first_item points ;;
  Ok (points ++ [p0]).

Definition generate_circle (diameter : F) (num_points : Z)
  : result (list (F * F)) :=
  let r := diameter / of_int 2 in
  points <- for_each (range num_points) (fun i =>
    angle <- float_div_int ((of_int 2 * fpi) * of_int i) num_points ;;
    let x := r * fcos angle in
    let y := r * fsin angle in
    Ok [(x, y)]) ;;
  p0 <- first_item points ;;
  Ok (points ++ [p0]).
(** The formatting of a float by an f-string: [f"{x}"] and
    [f"{x:.6f}"]. *)
Variables str_float format_6f : F -> string.

(** [save_coordinates(filename, points, description)]; the [print] is left
    out. *)
Definition save_coordinates (filename : string) (points : list (F * F))
    (description : string) : script F unit :=
  write_file (TextFile filename
    (("# " ++ description)%string
     :: ("# " ++ str_int (Z.of_nat (length points)) ++ " points")%string
     :: "# X, Y"%string
     :: map (fun p => let '(x, y) := p in
                      (format_6f x ++ ", " ++ format_6f y)%string) points)).

(** [create_coordinate_files()] *)
Definition create_coordinate_files : script F unit :=
  teeth_points <~ lift (generate_flex_spline_teeth None 10) ;;
  _ <~ save_coordinates "flex_spline_teeth.csv" teeth_points
         ("Flex Spline External Teeth - " ++ str_int Z_FLEX
          ++ " teeth, m=" ++ str_float MODULE)%string ;;
  teeth_points <~ lift (generate_circular_spline_teeth None 10) ;;
  _ <~ save_coordinates "circular_spline_teeth.csv" teeth_points
         ("Circular Spline Internal Teeth - " ++ str_int Z_CIRC
          ++ " teeth, m=" ++ str_float MODULE)%string ;;
  ellipse_points <~ lift (generate_ellipse ELLIPSE_MAJOR ELLIPSE_MINOR 360) ;;
  _ <~ save_coordinates "wave_generator_ellipse.csv" ellipse_points
         ("Wave Generator Ellipse - Major=" ++ str_float ELLIPSE_MAJOR
          ++ ", Minor=" ++ str_float ELLIPSE_MINOR)%string ;;
  tooth_points <~ lift (generate_tooth_profile 50) ;;
  save_coordinates "single_tooth_profile.csv" tooth_points
    ("Single Tooth S-Curve Profile - m=" ++ str_float MODULE)%string.

(** [create_dxf_files()], with the flag [HAS_EZDXF] the import sets. *)
Definition create_dxf_files (HAS_EZDXF : bool) : script F unit :=
  if negb HAS_EZDXF then create_coordinate_files
  else
    (* Flex Spline *)
    teeth_points <~ lift (generate_flex_spline_teeth None 20) ;;
    let msp :=
      [ Lwpolyline teeth_points true "TEETH";
        Circle (of_int 0, of_int 0) (D_INNER_FLEX / of_int 2) "INNER" ] in
    _ <~ write_file (DxfFile "flex_spline.dxf" msp) ;;
    (* Circular Spline *)
    let msp := [ Circle (of_int 0, of_int 0) (D_OUTER_CIRC / of_int 2) "OUTER" ] in
    teeth_points <~ lift (generate_circular_spline_teeth None 20) ;;
    let msp := (msp ++ [ Lwpolyline teeth_points true "TEETH" ])%list in
    holes <~ lift (for_each (range BOLT_HOLES) (fun i =>
      angle <- float_div_int ((of_int 2 * fpi) * of_int i) BOLT_HOLES ;;
      let x := (BOLT_CIRCLE / of_int 2) * fcos angle in
      let y := (BOLT_CIRCLE / of_int 2) * fsin angle in
      Ok [ Circle (x, y) (BOLT_HOLE_DIA / of_int 2) "HOLES" ])) ;;
    let msp := (msp ++ holes)%list in
    _ <~ write_file (DxfFile "circular_spline.dxf" msp) ;;
    (* Wave Generator *)
    ellipse_points <~ lift (generate_ellipse ELLIPSE_MAJOR ELLIPSE_MINOR 360) ;;
    let msp :=
      [ Lwpolyline ellipse_points true "CAM";
        Circle (of_int 0, of_int 0) (BEARING_OD / of_int 2) "BEARING";
        Circle (of_int 0, of_int 0) (BEARING_ID / of_int 2) "HUB";
        Circle (of_int 0, of_int 0) (HUB_BORE / of_int 2) "BORE" ] in
    write_file (DxfFile "wave_generator.dxf" msp).
End Design.

(** The values the script is shipped with. *)
Definition GEAR_RATIO : Z := 100.
Definition TOOTH_DIFFERENCE : Z := 2.
Definition MODULE {F : Type} `{PyNum F} : F := lit 4 10.

End GenerateDxf.

(** ** drawings/solidworks/generate_step_files.py *)

Module GenerateStepFiles.

Section Design.
Context {F : Type} `{PyNum F}.

Variables GEAR_RATIO TOOTH_DIFFERENCE : Z.
Variable MODULE_MM : F.

Definition Z_FLEX : Z := (GEAR_RATIO * TOOTH_DIFFERENCE)%Z.
Definition Z_CIRC : Z := (Z_FLEX + TOOTH_DIFFERENCE)%Z.

Definition ADDENDUM_MM : F := lit 8 10 * MODULE_MM.
Definition DEDENDUM_MM : F := lit 1 1 * MODULE_MM.
Definition TOOTH_HEIGHT_MM : F := ADDENDUM_MM + DEDENDUM_MM.

Definition PITCH_DIA_FLEX_MM : F := of_int Z_FLEX * MODULE_MM.
Definition PITCH_DIA_CIRC_MM : F := of_int Z_CIRC * MODULE_MM.

Definition FLEX_OUTER_DIA : F := PITCH_DIA_FLEX_MM + (of_int 2 * ADDENDUM_MM).
Definition FLEX_WALL : F := lit 1 100 * PITCH_DIA_FLEX_MM.
Definition FLEX_INNER_DIA : F := FLEX_OUTER_DIA - (of_int 2 * FLEX_WALL).

(** The remaining module-level dimensions. *)
Definition FLEX_CUP_DEPTH : F := lit 30 100 * PITCH_DIA_FLEX_MM.
Definition FLEX_BASE_THICK : F := lit 3 1 * FLEX_WALL.
Definition FLEX_FILLET : F := lit 2 1.
Definition FLEX_TOOTH_ZONE : F := lit 12 100 * PITCH_DIA_FLEX_MM.

Definition CIRC_INNER_DIA : F := PITCH_DIA_CIRC_MM - (of_int 2 * ADDENDUM_MM).
Definition CIRC_OUTER_DIA : F := lit 100 1.
Definition CIRC_HEIGHT : F := lit 136 10.
Definition BOLT_CIRCLE : F := lit 94 1.
Definition NUM_BOLTS : Z := 6.
Definition BOLT_HOLE_DIA : F := lit 42 10.

Definition WAVE_DEFLECTION : F := lit 225 100 * MODULE_MM.
Definition WAVE_MAJOR : F := FLEX_INNER_DIA + (of_int 2 * WAVE_DEFLECTION).
Definition WAVE_MINOR : F := FLEX_INNER_DIA - lit 1 10.
Definition WAVE_WIDTH : F := FLEX_TOOTH_ZONE.

(** [math.radians] and [math.degrees], as CPython computes them: a product
    by the constants [pi / 180.0] and [180.0 / pi]. *)
Definition radians (x : F) : F := x * (fpi / lit 180 1).
Definition degrees (x : F) : F := x * (lit 180 1 / fpi).

(** One [Rectangle] of the loops that cut the tooth slots: the rotation
    of its sketch plane in degrees, the radial position of its centre, and
    its radial and tangential sizes. *)
Record slot : Type := {
  slot_angle : F;
  slot_position : F;
  slot_depth : F;
  slot_width : F
}.

(** The slots [create_flex_spline_simple] cuts:
    [Plane.XY.rotated((0, 0, angle))],
    [Locations((tooth_tip_radius - slot_depth/2, 0))],
    [Rectangle(slot_depth, slot_width)], for [i] in [range(Z_FLEX)]. *)
Definition flex_spline_simple_slots : result (list slot) :=
  let tooth_tip_radius :=
    (PITCH_DIA_FLEX_MM + of_int 2 * ADDENDUM_MM) / of_int 2 in
  for_each (range Z_FLEX) (fun i =>
    angle <- float_div_int (of_int i * lit 360 1) Z_FLEX ;;
    let width := fpi * MODULE_MM * lit 4 10 in
    let depth := TOOTH_HEIGHT_MM in
    Ok [ {| slot_angle := angle;
            slot_position := tooth_tip_radius - depth / of_int 2;
            slot_depth := depth;
            slot_width := width |} ]).

(** The slots [create_circular_spline] cuts, for [i] in [range(Z_CIRC)],
    centred on [tooth_root_radius - slot_depth/2]. *)
Definition circular_spline_slots : result (list slot) :=
  let tooth_root_radius :=
    (PITCH_DIA_CIRC_MM + of_int 2 * DEDENDUM_MM) / of_int 2 in
  for_each (range Z_CIRC) (fun i =>
    angle <- float_div_int (of_int i * lit 360 1) Z_CIRC ;;
    let width := fpi * MODULE_MM * lit 4 10 in
    let depth := TOOTH_HEIGHT_MM in
    Ok [ {| slot_angle := angle;
            slot_position := tooth_root_radius - depth / of_int 2;
            slot_depth := depth;
            slot_width := width |} ]).
End Design.

(** [generate_s_curve_tooth_points(module, num_points=20, is_internal=False,
    profile_shift=0)].  The function also computes [half_points =
    num_points // 2] and [r_tip], and reads neither. *)
Section Tooth.
Context {F : Type} `{PyNum F}.

Variable module : F.
Variable profile_shift : F.

Definition pitch : F := fpi * module.
Definition addendum : F := lit 8 10 * module + profile_shift.
Definition dedendum : F := lit 1 1 * module - profile_shift.
Definition tooth_width : F := pitch / of_int 2.
Definition r_tip : F := lit 8 10 * module.
Definition r_root : F := lit 12 10 * module.

(** Loop body of the [is_internal] branch. *)
Definition internal_point (t : F) : F * F :=
  if fle t (lit 5 10) then
    let angle := fpi * (of_int 1 - of_int 2 * t) in
    let x := - tooth_width / of_int 4 + r_root * fcos angle * lit 5 10 in
    let y := - dedendum + (addendum + dedendum) * (of_int 2 * t) in
    (x, y)
  else
    let angle := fpi * (of_int 2 * t - of_int 1) in
    let x := tooth_width / of_int 4 - r_root * fcos angle * lit 5 10 in
    let y := addendum - (addendum + dedendum) * (of_int 2 * (t - lit 5 10)) in
    (x, y).

(** Loop body of the external branch. *)
Definition external_point (t : F) : F * F :=
  if fle t (lit 5 10) then
    let progress := of_int 2 * t in
    let angle := fpi * progress / of_int 2 in
    let x := - tooth_width / of_int 3 * (of_int 1 - progress) in
    let y := - dedendum + (addendum + dedendum) * fsin angle in
    (x, y)
  else
    let progress := of_int 2 * (t - lit 5 10) in
    let angle := fpi * (of_int 1 - progress) / of_int 2 in
    let x := tooth_width / of_int 3 * progress in
    let y := - dedendum + (addendum + dedendum) * fsin angle in
    (x, y).

Definition generate_s_curve_tooth_points (num_points : Z) (is_internal : bool)
  : result (list (F * F)) :=
  if is_internal then
    for_each (range num_points) (fun i =>
      t <- int_truediv i (num_points - 1) ;;
      Ok [internal_point t])
  else
    for_each (range num_points) (fun i =>
      t <- int_truediv i (num_points - 1) ;;
      Ok [external_point t]).
End Tooth.

(** The solid of one tooth in [create_flex_spline]: where its sketch is
    placed ([Locations((center_x, center_y, tooth_start_z))]), the rotation
    of the sketch plane in degrees ([Plane.XY.rotated((0, 0, ...))]), the
    closed [Polyline] and the [extrude] amount. *)
Record tooth_solid (F : Type) : Type := {
  tooth_location : F * F * F;
  tooth_rotation : F;
  tooth_outline : list (F * F);
  tooth_extrusion : F
}.

Arguments tooth_location {F} t.
Arguments tooth_rotation {F} t.
Arguments tooth_outline {F} t.
Arguments tooth_extrusion {F} t.

Section FlexSplineTeeth.
Context {F : Type} `{PyNum F}.

Variables GEAR_RATIO TOOTH_DIFFERENCE : Z.
Variable MODULE_MM : F.

Definition PROFILE_SHIFT_FLEX_MM : F := lit 2 10.
Definition PROFILE_SHIFT_CIRC_MM : F := - lit 2 10.

(** The teeth [create_flex_spline] adds to the cup; the cup itself, built
    by the CAD kernel, is left out. *)
Definition create_flex_spline_teeth : result (list (tooth_solid F)) :=
  let pitch_radius :=
    PITCH_DIA_FLEX_MM GEAR_RATIO TOOTH_DIFFERENCE MODULE_MM / of_int 2 in
  tooth_angle <-
    float_div_int (lit 360 1) (Z_FLEX GEAR_RATIO TOOTH_DIFFERENCE) ;;
  tooth_points <-
    generate_s_curve_tooth_points MODULE_MM PROFILE_SHIFT_FLEX_MM 16 false ;;
  let tooth_start_z :=
    FLEX_CUP_DEPTH GEAR_RATIO TOOTH_DIFFERENCE MODULE_MM
    - FLEX_TOOTH_ZONE GEAR_RATIO TOOTH_DIFFERENCE MODULE_MM in
  for_each (range (Z_FLEX GEAR_RATIO TOOTH_DIFFERENCE)) (fun i =>
    let angle_rad := radians (of_int i * tooth_angle) in
    let center_x := pitch_radius * fcos angle_rad in
    let center_y := pitch_radius * fsin angle_rad in
    let pts := map (fun p => let '(x, y) := p in (y, x)) tooth_points in
    Ok [ {| tooth_location := (center_x, center_y, tooth_start_z);
            tooth_rotation := degrees angle_rad;
            tooth_outline := pts;
            tooth_extrusion :=
              FLEX_TOOTH_ZONE GEAR_RATIO TOOTH_DIFFERENCE MODULE_MM |} ]).
End FlexSplineTeeth.

Definition GEAR_RATIO : Z := 100.
Definition TOOTH_DIFFERENCE : Z := 2.
Definition MODULE_MM {F : Type} `{PyNum F} : F := lit 4 10.

End GenerateStepFiles.

(** ** drawings/solidworks/convert_to_step.py *)

Module ConvertToStep.

Local Open Scope string_scope.

Definition newline : string := String "010"%char EmptyString.
Definition quote : string := String "034"%char EmptyString.

(** [s.replace(old, new)] for a non-empty [old]: the occurrences of [old]
    are found from the left, without overlap; [skip] counts the characters
    of an occurrence still to be passed over. *)
Fixpoint replace_from (skip : nat) (old new s : string) : string :=
  match s with
  | EmptyString => EmptyString
  | String c rest =>
      match skip with
      | S k => replace_from k old new rest
      | O =>
          if prefix old s
          then new ++ replace_from (String.length old - 1) old new rest
          else String c (replace_from 0 old new rest)
      end
  end.

(** With an empty [old], [new] goes before every character and at the
    end. *)
Fixpoint interleave (new s : string) : string :=
  match s with
  | EmptyString => EmptyString
  | String c rest => String c (new ++ interleave new rest)
  end.

Definition replace (old new s : string) : string :=
  match old with
  | EmptyString => new ++ interleave new s
  | _ => replace_from 0 old new s
  end.

(** The disk: the content of each path that exists.  [open(path, 'w')]
    followed by [write] binds the path to the text; both are taken to
    succeed. *)
Definition disk : Type := string -> option string.

Definition exists_path (d : disk) (path : string) : bool :=
  match d path with Some _ => true | None => false end.

Definition write_text (path text : string) (d : disk) : disk :=
  fun q => if String.eqb q path then Some text else d q.

Record world : Type := {
  files_on_disk : disk;
  printed : list string
}.

Definition print (line : string) (w : world) : world :=
  {| files_on_disk := files_on_disk w;
     printed := (printed w ++ [line])%list |}.

Section Gmsh.
(** [subprocess.run(cmd, capture_output=True, text=True)]: what the command
    does to the disk and what it writes on its standard error; [None] when
    [subprocess.run] raises because the program cannot be started. *)
Variable run : list string -> disk -> option (disk * string).

(** [stl_to_step_gmsh(stl_file, step_file)]; [None] is the exception of
    [subprocess.run], which nothing catches. *)
Definition stl_to_step_gmsh (stl_file step_file : string) (w : world)
  : world * option bool :=
  let geo_content :=
    newline ++ "Merge " ++ quote ++ stl_file ++ quote ++ ";" ++ newline
    ++ "Surface Loop(1) = {1};" ++ newline
    ++ "Volume(1) = {1};" ++ newline in
  let geo_file := replace ".stl" ".geo" stl_file in
  let d := write_text geo_file geo_content (files_on_disk w) in
  let cmd := ["gmsh"; "-3"; "-format"; "step"; "-o"; step_file; geo_file] in
  match run cmd d with
  | None => ({| files_on_disk := d; printed := printed w |}, None)
  | Some (d', stderr) =>
      let w' := {| files_on_disk := d'; printed := printed w |} in
      if exists_path d' step_file
      then (print ("  Created: " ++ step_file) w', Some true)
      else (print ("  Failed: " ++ stl_file ++ " - " ++ substring 0 100 stderr)
              w', Some false)
  end.

Definition files : list (string * string) :=
  [ ("flex_spline.stl", "flex_spline.step");
    ("circular_spline.stl", "circular_spline.step");
    ("wave_generator.stl", "wave_generator.step");
    ("harmonic_drive_assembly.stl", "harmonic_drive_assembly.step") ].

(** The loop [for stl, step in files]. *)
Fixpoint convert_each (fs : list (string * string)) (w : world)
  : world * option unit :=
  match fs with
  | [] => (w, Some tt)
  | (stl, step) :: rest =>
      if exists_path (files_on_disk w) stl
      then
        match stl_to_step_gmsh stl step w with
        | (w', Some _) => convert_each rest w'
        | (w', None) => (w', None)
        end
      else convert_each rest (print ("  Not found: " ++ stl) w)
  end.

(** The module-level statements of the script. *)
Definition main (w : world) : world * option unit :=
  match convert_each files (print "Converting STL to STEP..." w) with
  | (w', Some _) => (print (newline ++ "Done!") w', Some tt)
  | (w', None) => (w', None)
  end.
End Gmsh.

End ConvertToStep.

(** ** Vocabulary of the statements *)

Section Statements.
Context {F : Type} `{PyNum F}.

(** The point the loop of [generate_ellipse] appends at index [i]. *)
Definition ellipse_point (major_axis minor_axis : F) (n i : Z) : F * F :=
  let angle := ((of_int 2 * fpi) * of_int i) / of_int n in
  ((major_axis / of_int 2) * fcos angle, (minor_axis / of_int 2) * fsin angle).

(** What [generate_tooth_profile] returns when it returns. *)
Definition dxf_profile (MODULE : F) (n : Z) : list (F * F) :=
  map (fun i => GenerateDxf.tooth_profile_point MODULE (of_int i / of_int n))
      (range (n + 1)).

(** What [generate_s_curve_tooth_points] returns when it returns. *)
Definition step_profile (module profile_shift : F) (n : Z)
    (is_internal : bool) : list (F * F) :=
  map (fun i =>
         let t := of_int i / of_int (n - 1) in
         if is_internal
         then GenerateStepFiles.internal_point module profile_shift t
         else GenerateStepFiles.external_point module profile_shift t)
      (range n).

(** The projector as the design document words it: tooth [k] of [nz], local
    point [(px, py)], pitch radius [r]; [internal] selects [r - py]. *)
Definition project_point (internal : bool) (r : F) (nz k : Z) (p : F * F)
  : F * F :=
  let theta := ((of_int 2 * fpi) * of_int k) / of_int nz + fst p / r in
  let r_total := if internal then r - snd p else r + snd p in
  (r_total * fcos theta, r_total * fsin theta).

Definition radial_array (internal : bool) (r : F) (nz : Z)
    (profile : list (F * F)) : list (F * F) :=
  flat_map (fun k => map (project_point internal r nz k) profile) (range nz).

Definition teeth_or (default : Z) (num_teeth : option Z) : Z :=
  match num_teeth with None => default | Some z => z end.

(** Slot [i] of the flex spline and of the circular spline. *)
Definition flex_slot (gr td : Z) (m : F) (i : Z)
  : GenerateStepFiles.slot (F := F) :=
  {| GenerateStepFiles.slot_angle := (of_int i * lit 360 1) / of_int (GenerateStepFiles.Z_FLEX gr td);
     GenerateStepFiles.slot_position :=
       (GenerateStepFiles.PITCH_DIA_FLEX_MM gr td m + of_int 2 * GenerateStepFiles.ADDENDUM_MM m) / of_int 2
       - GenerateStepFiles.TOOTH_HEIGHT_MM m / of_int 2;
     GenerateStepFiles.slot_depth := GenerateStepFiles.TOOTH_HEIGHT_MM m;
     GenerateStepFiles.slot_width := fpi * m * lit 4 10 |}.

Definition circular_slot (gr td : Z) (m : F) (i : Z)
  : GenerateStepFiles.slot (F := F) :=
  {| GenerateStepFiles.slot_angle := (of_int i * lit 360 1) / of_int (GenerateStepFiles.Z_CIRC gr td);
     GenerateStepFiles.slot_position :=
       (GenerateStepFiles.PITCH_DIA_CIRC_MM gr td m + of_int 2 * GenerateStepFiles.DEDENDUM_MM m) / of_int 2
       - GenerateStepFiles.TOOTH_HEIGHT_MM m / of_int 2;
     GenerateStepFiles.slot_depth := GenerateStepFiles.TOOTH_HEIGHT_MM m;
     GenerateStepFiles.slot_width := fpi * m * lit 4 10 |}.

(** The lines of a coordinate file: three comment lines, then one line per
    point. *)
Definition coordinate_lines (format_6f : F -> string) (description : string)
    (points : list (F * F)) : list string :=
  [ ("# " ++ description)%string;
    ("# " ++ str_int (Z.of_nat (length points)) ++ " points")%string;
    "# X, Y"%string ]
  ++ map (fun p => (format_6f (fst p) ++ ", " ++ format_6f (snd p))%string)
       points.
End Statements.

(** [old in s]: some suffix of [s] starts with [old]. *)
Fixpoint occurs (old s : string) : bool :=
  match s with
  | EmptyString => prefix old s
  | String _ rest => prefix old s || occurs old rest
  end.

(** No character of [s] is a dot. *)
Fixpoint no_dot (s : string) : bool :=
  match s with
  | EmptyString => true
  | String c rest => negb (Ascii.eqb c "."%char) && no_dot rest
  end.

(** The text [stl_to_step_gmsh] writes in its [.geo] file. *)
Definition geo_script (stl_file : string) : string :=
  (ConvertToStep.newline ++ "Merge " ++ ConvertToStep.quote ++ stl_file
   ++ ConvertToStep.quote ++ ";" ++ ConvertToStep.newline
   ++ "Surface Loop(1) = {1};" ++ ConvertToStep.newline
   ++ "Volume(1) = {1};" ++ ConvertToStep.newline)%string.

(** The angle of sample [i] out of [n], as the loops of [generate_ellipse]
    and [generate_circle] compute it, in exact arithmetic. *)
Definition sample_angle (n i : Z) : R := (2 * PI * IZR i / IZR n)%R.

(** The formula of the design document for the height of the external
    tooth, applied with the [progress] of either half. *)
Definition claimed_external_y (m shift progress : R) : R :=
  (- GenerateStepFiles.dedendum m shift
   + (GenerateStepFiles.addendum m shift + GenerateStepFiles.dedendum m shift)
     * sin (PI * progress / 2))%R.

(** Reflection in the midline of the tooth. *)
Definition mirror (p : R * R) : R * R := ((- fst p)%R, snd p).

(** Rotation of the plane about the origin, counter-clockwise. *)
Definition rotate (phi : R) (p : R * R) : R * R :=
  (fst p * cos phi - snd p * sin phi, fst p * sin phi + snd p * cos phi)%R.

(** Distance to the origin. *)
Definition radius_of (p : R * R) : R :=
  sqrt (fst p * fst p + snd p * snd p).

(** * Properties *)

(** ** Loops and ranges *)

Lemma range_length (n : Z) : length (range n) = Z.to_nat n.
Proof. unfold range. now rewrite length_map, length_seq. Qed.

Lemma range_nonpos (n : Z) : (n <= 0)%Z -> range n = [].
Proof.
  intros Hn. unfold range.
  replace (Z.to_nat n) with 0%nat by lia. reflexivity.
Qed.

Lemma range_In (n i : Z) : In i (range n) <-> (0 <= i < n)%Z.
Proof.
  unfold range. rewrite in_map_iff. split.
  - intros (k & <- & Hk). apply in_seq in Hk. lia.
  - intros Hi. exists (Z.to_nat i). split; [lia|]. apply in_seq. lia.
Qed.

Lemma range_nth_error (n : Z) (k : nat) :
  (k < Z.to_nat n)%nat -> nth_error (range n) k = Some (Z.of_nat k).
Proof.
  intros Hk. unfold range.
  rewrite nth_error_map, nth_error_nth' with (d := 0%nat)
    by now rewrite length_seq.
  now rewrite seq_nth.
Qed.

Lemma range_pos_head (n : Z) :
  (1 <= n)%Z -> exists tl, range n = 0%Z :: tl.
Proof.
  intros Hn. unfold range.
  destruct (Z.to_nat n) as [|k] eqn:E; [lia|].
  simpl. eauto.
Qed.

(** A loop whose body never raises on the items it meets returns the
    concatenation of what the iterations emit. *)
Lemma for_each_ok {A B} (xs : list A) (body : A -> result (list B))
    (g : A -> list B) :
  (forall x, In x xs -> body x = Ok (g x)) ->
  for_each xs body = Ok (flat_map g xs).
Proof.
  induction xs as [|x xs IH]; intros Hb; simpl.
  - reflexivity.
  - rewrite (Hb x) by now left. simpl.
    rewrite IH by (intros y Hy; apply Hb; now right).
    reflexivity.
Qed.

Lemma flat_map_singleton {A B} (f : A -> B) (xs : list A) :
  flat_map (fun x => [f x]) xs = map f xs.
Proof. induction xs as [|x xs IH]; simpl; congruence. Qed.

(** The usual case: one [append] per iteration. *)
Lemma for_each_map {A B} (xs : list A) (body : A -> result (list B))
    (f : A -> B) :
  (forall x, In x xs -> body x = Ok [f x]) ->
  for_each xs body = Ok (map f xs).
Proof.
  intros Hb. rewrite (for_each_ok xs body (fun x => [f x]) Hb).
  now rewrite flat_map_singleton.
Qed.

(** A loop that raises in its first iteration raises. *)
Lemma for_each_raise_head {A B} (x : A) (xs : list A)
    (body : A -> result (list B)) (e : exn) :
  body x = Raise e -> for_each (x :: xs) body = Raise e.
Proof. intros Hb. simpl. now rewrite Hb. Qed.

Lemma flat_map_const_length {A B} (g : A -> list B) (xs : list A) (m : nat) :
  (forall x, In x xs -> length (g x) = m) ->
  length (flat_map g xs) = (length xs * m)%nat.
Proof.
  induction xs as [|x xs IH]; intros Hg; simpl.
  - reflexivity.
  - rewrite length_app, Hg by now left.
    rewrite IH by (intros y Hy; apply Hg; now right). reflexivity.
Qed.

(** Position [k * m + j] of a concatenation of blocks of length [m]. *)
Lemma flat_map_nth_error {A B} (g : A -> list B) (xs : list A) (m : nat) :
  (forall x, In x xs -> length (g x) = m) ->
  forall k j x, nth_error xs k = Some x -> (j < m)%nat ->
  nth_error (flat_map g xs) (k * m + j) = nth_error (g x) j.
Proof.
  induction xs as [|x0 xs IH]; intros Hg k j x Hk Hj.
  - destruct k; discriminate.
  - destruct k as [|k]; simpl in *.
    + injection Hk as ->. rewrite nth_error_app1; [reflexivity|].
      rewrite Hg by now left. exact Hj.
    + rewrite nth_error_app2 by (rewrite Hg by (now left); lia).
      rewrite Hg by now left.
      replace (m + k * m + j - m)%nat with (k * m + j)%nat by lia.
      apply IH; auto.
Qed.

(** ** Division helpers *)

Section DivisionFacts.
Context {F : Type} `{PyNum F}.

Lemma int_truediv_ok (i n : Z) :
  n <> 0%Z -> int_truediv i n = Ok (of_int i / of_int n).
Proof.
  intros Hn. unfold int_truediv.
  destruct (Z.eqb_spec n 0); [contradiction|reflexivity].
Qed.

Lemma int_truediv_zero (i : Z) : int_truediv i 0 = Raise ZeroDivisionError.
Proof. reflexivity. Qed.

Lemma float_div_int_ok (x : F) (n : Z) :
  n <> 0%Z -> float_div_int x n = Ok (x / of_int n).
Proof.
  intros Hn. unfold float_div_int.
  destruct (Z.eqb_spec n 0); [contradiction|reflexivity].
Qed.

Lemma float_div_ok (x y : F) :
  is_zero y = false -> float_div x y = Ok (x / y).
Proof. intros Hy. unfold float_div. now rewrite Hy. Qed.
End DivisionFacts.

(** ** Conic generators, in any arithmetic *)

Section Conics.
Context {F : Type} `{PyNum F}.
Import GenerateDxf.

Lemma generate_ellipse_ok (a b : F) (n : Z) :
  (1 <= n)%Z ->
  generate_ellipse a b n =
    Ok (map (ellipse_point a b n) (range n) ++ [ellipse_point a b n 0]).
Proof.
  intros Hn. unfold generate_ellipse.
  rewrite for_each_map with (f := ellipse_point a b n).
  - destruct (range_pos_head Hn) as [tl ->]. reflexivity.
  - intros i Hi. rewrite float_div_int_ok by lia. reflexivity.
Qed.

Lemma generate_ellipse_empty (a b : F) (n : Z) :
  (n <= 0)%Z -> generate_ellipse a b n = Raise IndexError.
Proof.
  intros Hn. unfold generate_ellipse. now rewrite range_nonpos.
Qed.

(** [generate_circle] runs the statements of [generate_ellipse] with both
    semi-axes equal to the radius. *)
Lemma generate_circle_ellipse (d : F) (n : Z) :
  generate_circle d n = generate_ellipse d d n.
Proof. reflexivity. Qed.

Lemma closed_sequence_shape {A} (pts : list A) (p0 : A) (m : nat) :
  length pts = m -> nth_error pts 0 = Some p0 ->
  length (pts ++ [p0]) = (m + 1)%nat /\
  nth_error (pts ++ [p0]) 0 = Some p0 /\
  nth_error (pts ++ [p0]) m = Some p0.
Proof.
  intros Hl H0. split; [|split].
  - rewrite length_app. simpl. lia.
  - destruct pts; [discriminate|]. exact H0.
  - rewrite nth_error_app2 by lia.
    replace (m - length pts)%nat with 0%nat by lia. reflexivity.
Qed.

(** Closure of the ellipse: [n + 1] points, the last one the first one. *)
Lemma generate_ellipse_closed (a b : F) (n : Z) :
  (1 <= n)%Z ->
  exists pts p0,
    generate_ellipse a b n = Ok pts /\
    length pts = (Z.to_nat n + 1)%nat /\
    nth_error pts 0 = Some p0 /\
    nth_error pts (Z.to_nat n) = Some p0.
Proof.
  intros Hn. rewrite generate_ellipse_ok by assumption.
  eexists _, _. split; [reflexivity|].
  apply closed_sequence_shape.
  - now rewrite length_map, range_length.
  - destruct (range_pos_head Hn) as [tl ->]. reflexivity.
Qed.

End Conics.

(** ** Tooth profiles, in any arithmetic *)

Section ToothProfiles.
Context {F : Type} `{PyNum F}.

Section Dxf.
Import GenerateDxf.
Variable MODULE : F.

Lemma generate_tooth_profile_ok (n : Z) :
  n <> 0%Z -> generate_tooth_profile MODULE n = Ok (dxf_profile MODULE n).
Proof.
  intros Hn. unfold generate_tooth_profile, dxf_profile.
  apply for_each_map. intros i _.
  now rewrite int_truediv_ok.
Qed.

Lemma generate_tooth_profile_zero :
  generate_tooth_profile MODULE 0 = Raise ZeroDivisionError.
Proof. reflexivity. Qed.

Lemma dxf_profile_length (n : Z) :
  length (dxf_profile MODULE n) = Z.to_nat (n + 1).
Proof. unfold dxf_profile. now rewrite length_map, range_length. Qed.

Lemma dxf_profile_nth (n i : Z) :
  (0 <= i <= n)%Z ->
  nth_error (dxf_profile MODULE n) (Z.to_nat i) =
    Some (tooth_profile_point MODULE (of_int i / of_int n)).
Proof.
  intros Hi. unfold dxf_profile.
  rewrite nth_error_map, range_nth_error by lia.
  simpl. now rewrite Z2Nat.id by lia.
Qed.
End Dxf.

Section Step.
Import GenerateStepFiles.
Variables module profile_shift : F.

Lemma generate_s_curve_tooth_points_ok (n : Z) (is_internal : bool) :
  n <> 1%Z ->
  generate_s_curve_tooth_points module profile_shift n is_internal =
    Ok (step_profile module profile_shift n is_internal).
Proof.
  intros Hn. unfold generate_s_curve_tooth_points, step_profile.
  destruct is_internal; apply for_each_map; intros i _;
    now rewrite int_truediv_ok by lia.
Qed.

Lemma generate_s_curve_tooth_points_one (is_internal : bool) :
  generate_s_curve_tooth_points module profile_shift 1 is_internal =
    Raise ZeroDivisionError.
Proof. now destruct is_internal. Qed.

Lemma step_profile_length (n : Z) (is_internal : bool) :
  length (step_profile module profile_shift n is_internal) = Z.to_nat n.
Proof. unfold step_profile. now rewrite length_map, range_length. Qed.

Lemma step_profile_nth (n i : Z) (is_internal : bool) :
  (0 <= i < n)%Z ->
  nth_error (step_profile module profile_shift n is_internal) (Z.to_nat i) =
    Some (let t := of_int i / of_int (n - 1) in
          if is_internal then internal_point module profile_shift t
          else external_point module profile_shift t).
Proof.
  intros Hi. unfold step_profile.
  rewrite nth_error_map, range_nth_error by lia.
  simpl. now rewrite Z2Nat.id by lia.
Qed.
End Step.
End ToothProfiles.

(** ** The radial array, in any arithmetic *)

Section RadialArray.
Context {F : Type} `{PyNum F}.
Import GenerateDxf.

Lemma radial_array_length internal r nz profile :
  length (radial_array internal r nz profile) =
    (Z.to_nat nz * length profile)%nat.
Proof.
  unfold radial_array.
  rewrite flat_map_const_length with (m := length profile).
  - now rewrite range_length.
  - intros. apply length_map.
Qed.

Lemma radial_array_nth internal r nz profile (k : Z) (j : nat) p :
  (0 <= k < nz)%Z -> nth_error profile j = Some p ->
  nth_error (radial_array internal r nz profile)
            (Z.to_nat k * length profile + j) =
    Some (project_point internal r nz k p).
Proof.
  intros Hk Hj. unfold radial_array.
  rewrite flat_map_nth_error
    with (m := length profile) (x := k).
  - now rewrite nth_error_map, Hj.
  - intros. apply length_map.
  - rewrite range_nth_error by lia. f_equal. lia.
  - apply nth_error_Some. congruence.
Qed.

Variables GEAR_RATIO TOOTH_DIFFERENCE : Z.
Variable MODULE : F.

Lemma projection_loop (internal : bool) (r : F) (nz : Z)
    (profile : list (F * F)) :
  is_zero r = false ->
  for_each (range nz) (fun tooth =>
    angle_offset <- float_div_int ((of_int 2 * fpi) * of_int tooth) nz ;;
    for_each profile (fun p =>
      let '(px, py) := p in
      tooth_angle <- float_div px r ;;
      let total_angle := angle_offset + tooth_angle in
      let r_total := if internal then r - py else r + py in
      let x := r_total * fcos total_angle in
      let y := r_total * fsin total_angle in
      Ok [(x, y)]))
  = Ok (radial_array internal r nz profile).
Proof.
  intros Hr. unfold radial_array. apply for_each_ok.
  intros k Hk. apply range_In in Hk.
  rewrite float_div_int_ok by lia. simpl.
  apply for_each_map. intros [px py] _.
  now rewrite float_div_ok.
Qed.

Lemma generate_flex_spline_teeth_ok num_teeth n profile :
  generate_tooth_profile MODULE n = Ok profile ->
  is_zero (D_PITCH_FLEX GEAR_RATIO TOOTH_DIFFERENCE MODULE / of_int 2) = false ->
  generate_flex_spline_teeth GEAR_RATIO TOOTH_DIFFERENCE MODULE num_teeth n =
    Ok (radial_array false
          (D_PITCH_FLEX GEAR_RATIO TOOTH_DIFFERENCE MODULE / of_int 2)
          (teeth_or (Z_FLEX GEAR_RATIO TOOTH_DIFFERENCE) num_teeth) profile).
Proof.
  intros Hp Hr. unfold generate_flex_spline_teeth. rewrite Hp. simpl.
  rewrite <- (@projection_loop false _ _ _ Hr). reflexivity.
Qed.

Lemma generate_circular_spline_teeth_ok num_teeth n profile :
  generate_tooth_profile MODULE n = Ok profile ->
  is_zero (D_PITCH_CIRC GEAR_RATIO TOOTH_DIFFERENCE MODULE / of_int 2) = false ->
  generate_circular_spline_teeth GEAR_RATIO TOOTH_DIFFERENCE MODULE num_teeth n =
    Ok (radial_array true
          (D_PITCH_CIRC GEAR_RATIO TOOTH_DIFFERENCE MODULE / of_int 2)
          (teeth_or (Z_CIRC GEAR_RATIO TOOTH_DIFFERENCE) num_teeth) profile).
Proof.
  intros Hp Hr. unfold generate_circular_spline_teeth. rewrite Hp. simpl.
  rewrite <- (@projection_loop true _ _ _ Hr). reflexivity.
Qed.

(** With no tooth to place the inner loop never runs, whatever the
    radius. *)
Lemma generate_flex_spline_teeth_no_teeth num_teeth n profile :
  generate_tooth_profile MODULE n = Ok profile ->
  (teeth_or (Z_FLEX GEAR_RATIO TOOTH_DIFFERENCE) num_teeth <= 0)%Z ->
  generate_flex_spline_teeth GEAR_RATIO TOOTH_DIFFERENCE MODULE num_teeth n =
    Ok [].
Proof.
  intros Hp Hz. unfold generate_flex_spline_teeth. rewrite Hp. simpl.
  unfold teeth_or in Hz. now rewrite range_nonpos.
Qed.
End RadialArray.

(** ** Exact real arithmetic *)

Section RealFacts.
Local Open Scope R_scope.

Lemma lit_R (n d : Z) : lit n d = IZR n / IZR d.
Proof. reflexivity. Qed.

Lemma flt_R_true (x y : R) : x < y -> flt x y = true.
Proof. intros Hxy. simpl. destruct (Rlt_dec x y); [reflexivity|lra]. Qed.

Lemma flt_R_false (x y : R) : y <= x -> flt x y = false.
Proof. intros Hxy. simpl. destruct (Rlt_dec x y); [lra|reflexivity]. Qed.

Lemma fle_R_true (x y : R) : x <= y -> fle x y = true.
Proof. intros Hxy. simpl. destruct (Rle_dec x y); [reflexivity|lra]. Qed.

Lemma fle_R_false (x y : R) : y < x -> fle x y = false.
Proof. intros Hxy. simpl. destruct (Rle_dec x y); [lra|reflexivity]. Qed.

Lemma is_zero_R_false (x : R) : x <> 0 -> is_zero x = false.
Proof.
  intros Hx. simpl. destruct (Req_dec_T x 0); [contradiction|reflexivity].
Qed.

Lemma is_zero_R_true : is_zero 0 = true.
Proof. simpl. destruct (Req_dec_T 0 0); [reflexivity|lra]. Qed.
End RealFacts.

(** ** Parameter derivation *)

(** The relations of the derivation, for every input and in any
    arithmetic, in both scripts. *)
Lemma parameter_relations (F : Type) (N : PyNum F)
    (gear_ratio tooth_difference : Z) (m : F) :
  GenerateDxf.Z_FLEX gear_ratio tooth_difference
    = (gear_ratio * tooth_difference)%Z /\
  GenerateDxf.Z_CIRC gear_ratio tooth_difference
    = (GenerateDxf.Z_FLEX gear_ratio tooth_difference + tooth_difference)%Z /\
  GenerateDxf.D_PITCH_FLEX gear_ratio tooth_difference m
    = of_int (GenerateDxf.Z_FLEX gear_ratio tooth_difference) * m /\
  GenerateDxf.D_PITCH_CIRC gear_ratio tooth_difference m
    = of_int (GenerateDxf.Z_CIRC gear_ratio tooth_difference) * m /\
  GenerateStepFiles.Z_CIRC gear_ratio tooth_difference
    = (GenerateStepFiles.Z_FLEX gear_ratio tooth_difference
       + tooth_difference)%Z /\
  GenerateStepFiles.PITCH_DIA_FLEX_MM gear_ratio tooth_difference m
    = of_int (GenerateStepFiles.Z_FLEX gear_ratio tooth_difference) * m /\
  GenerateStepFiles.PITCH_DIA_CIRC_MM gear_ratio tooth_difference m
    = of_int (GenerateStepFiles.Z_CIRC gear_ratio tooth_difference) * m.
Proof. repeat split. Qed.

(** The shipped values in exact arithmetic. *)
Lemma parameter_values_exact :
  (let gr := GenerateDxf.GEAR_RATIO in
   let td := GenerateDxf.TOOTH_DIFFERENCE in
   let m : R := GenerateDxf.MODULE in
   m = 0.4%R /\
   GenerateDxf.Z_FLEX gr td = 200%Z /\
   GenerateDxf.Z_CIRC gr td = 202%Z /\
   GenerateDxf.D_PITCH_FLEX gr td m = 80%R /\
   GenerateDxf.D_PITCH_CIRC gr td m = 80.8%R /\
   GenerateDxf.ADDENDUM m = 0.32%R /\
   GenerateDxf.D_OUTER_FLEX gr td m
     = (GenerateDxf.D_PITCH_FLEX gr td m + 2 * GenerateDxf.ADDENDUM m)%R /\
   GenerateDxf.D_OUTER_FLEX gr td m = 80.64%R)
  /\ (let gr := GenerateStepFiles.GEAR_RATIO in
      let td := GenerateStepFiles.TOOTH_DIFFERENCE in
      let m : R := GenerateStepFiles.MODULE_MM in
      m = 0.4%R /\
      GenerateStepFiles.Z_FLEX gr td = 200%Z /\
      GenerateStepFiles.Z_CIRC gr td = 202%Z /\
      GenerateStepFiles.PITCH_DIA_FLEX_MM gr td m = 80%R /\
      GenerateStepFiles.PITCH_DIA_CIRC_MM gr td m = 80.8%R /\
      GenerateStepFiles.ADDENDUM_MM m = 0.32%R /\
      GenerateStepFiles.FLEX_OUTER_DIA gr td m
        = (GenerateStepFiles.PITCH_DIA_FLEX_MM gr td m
           + 2 * GenerateStepFiles.ADDENDUM_MM m)%R /\
      GenerateStepFiles.FLEX_OUTER_DIA gr td m = 80.64%R).
Proof.
  split.
  - cbv zeta.
    unfold GenerateDxf.D_OUTER_FLEX, GenerateDxf.D_PITCH_FLEX,
      GenerateDxf.D_PITCH_CIRC, GenerateDxf.ADDENDUM, GenerateDxf.MODULE.
    change (GenerateDxf.Z_CIRC _ _) with 202%Z.
    change (GenerateDxf.Z_FLEX _ _) with 200%Z.
    rewrite !lit_R. cbn [of_int fadd fmul RNum].
    repeat split; lra.
  - cbv zeta.
    unfold GenerateStepFiles.FLEX_OUTER_DIA, GenerateStepFiles.PITCH_DIA_FLEX_MM,
      GenerateStepFiles.PITCH_DIA_CIRC_MM, GenerateStepFiles.ADDENDUM_MM,
      GenerateStepFiles.MODULE_MM.
    change (GenerateStepFiles.Z_CIRC _ _) with 202%Z.
    change (GenerateStepFiles.Z_FLEX _ _) with 200%Z.
    rewrite !lit_R. cbn [of_int fadd fmul RNum].
    repeat split; lra.
Qed.

(** What CPython's binary64 makes of the same derivation, whatever the
    cosine, the sine and the value of [math.pi]: the literals [0.4], [80.8],
    [0.32] and [80.64] are the doubles [lit 4 10], [lit 808 10],
    [lit 32 100] and [lit 8064 100]; the flex pitch diameter and the outer
    diameter are the doubles of 80 and 80.64; the product [202 * 0.4] and
    the product [0.8 * 0.4] round one unit in the last place above the
    doubles of 80.8 and 0.32. *)
Lemma parameter_values_binary64 (c s : float -> float) (p : float) :
  let N := Binary64 c s p in
  (let gr := GenerateDxf.GEAR_RATIO in
   let td := GenerateDxf.TOOTH_DIFFERENCE in
   let m : float := GenerateDxf.MODULE in
   m = 0.4%float /\
   lit 808 10 = 80.8%float /\
   lit 32 100 = 0.32%float /\
   lit 8064 100 = 80.64%float /\
   GenerateDxf.D_PITCH_FLEX gr td m = 80%float /\
   GenerateDxf.D_PITCH_CIRC gr td m = PrimFloat.next_up 80.8%float /\
   GenerateDxf.ADDENDUM m = PrimFloat.next_up 0.32%float /\
   GenerateDxf.D_OUTER_FLEX gr td m = 80.64%float)
  /\ (let gr := GenerateStepFiles.GEAR_RATIO in
      let td := GenerateStepFiles.TOOTH_DIFFERENCE in
      let m : float := GenerateStepFiles.MODULE_MM in
      m = 0.4%float /\
      GenerateStepFiles.PITCH_DIA_FLEX_MM gr td m = 80%float /\
      GenerateStepFiles.PITCH_DIA_CIRC_MM gr td m
        = PrimFloat.next_up 80.8%float /\
      GenerateStepFiles.ADDENDUM_MM m = PrimFloat.next_up 0.32%float /\
      GenerateStepFiles.FLEX_OUTER_DIA gr td m = 80.64%float).
Proof. repeat split; vm_compute; reflexivity. Qed.

(** The derivation in binary64 is not exact: with the shipped inputs, and
    whatever the cosine, the sine and the value of [math.pi], the pitch
    diameter of the circular spline is not the double [80.8] and the
    addendum is not the double [0.32], in either script. *)
Lemma binary64_derivation_is_rounded :
  (forall (c s : float -> float) (p : float),
      let N := Binary64 c s p in
      GenerateDxf.D_PITCH_CIRC
        GenerateDxf.GEAR_RATIO GenerateDxf.TOOTH_DIFFERENCE GenerateDxf.MODULE
        <> 80.8%float) /\
  (forall (c s : float -> float) (p : float),
      let N := Binary64 c s p in
      GenerateDxf.ADDENDUM GenerateDxf.MODULE <> 0.32%float) /\
  (forall (c s : float -> float) (p : float),
      let N := Binary64 c s p in
      GenerateStepFiles.PITCH_DIA_CIRC_MM
        GenerateStepFiles.GEAR_RATIO GenerateStepFiles.TOOTH_DIFFERENCE
        GenerateStepFiles.MODULE_MM
        <> 80.8%float) /\
  (forall (c s : float -> float) (p : float),
      let N := Binary64 c s p in
      GenerateStepFiles.ADDENDUM_MM GenerateStepFiles.MODULE_MM
        <> 0.32%float).
Proof.
  repeat split; intros c s p N Heq.
  - apply (f_equal (fun x => PrimFloat.eqb x 80.8%float)) in Heq.
    vm_compute in Heq. discriminate.
  - apply (f_equal (fun x => PrimFloat.eqb x 0.32%float)) in Heq.
    vm_compute in Heq. discriminate.
  - apply (f_equal (fun x => PrimFloat.eqb x 80.8%float)) in Heq.
    vm_compute in Heq. discriminate.
  - apply (f_equal (fun x => PrimFloat.eqb x 0.32%float)) in Heq.
    vm_compute in Heq. discriminate.
Qed.

(** C1.  Whatever the arithmetic and the inputs, [Z_CIRC] is
    [Z_FLEX + TOOTH_DIFFERENCE] and each pitch diameter is the tooth count
    times the module, in both scripts.  For gear ratio 100, tooth difference
    2 and module 0.4 the tooth counts are 200 and 202; in exact arithmetic
    the pitch diameters are 80 and 80.8, the addendum 0.32 and the outer
    diameter of the flex spline, pitch diameter plus twice the addendum,
    80.64; in binary64 the flex pitch diameter is the double 80.0 and the
    outer diameter the double 80.64, while the pitch diameter of the
    circular spline and the addendum are the doubles next above 80.8 and
    0.32. *)
Theorem parameter_derivation :
  (forall (F : Type) (N : PyNum F) (gear_ratio tooth_difference : Z) (m : F),
      GenerateDxf.Z_FLEX gear_ratio tooth_difference
        = (gear_ratio * tooth_difference)%Z /\
      GenerateDxf.Z_CIRC gear_ratio tooth_difference
        = (GenerateDxf.Z_FLEX gear_ratio tooth_difference + tooth_difference)%Z /\
      GenerateDxf.D_PITCH_FLEX gear_ratio tooth_difference m
        = of_int (GenerateDxf.Z_FLEX gear_ratio tooth_difference) * m /\
      GenerateDxf.D_PITCH_CIRC gear_ratio tooth_difference m
        = of_int (GenerateDxf.Z_CIRC gear_ratio tooth_difference) * m /\
      GenerateStepFiles.Z_CIRC gear_ratio tooth_difference
        = (GenerateStepFiles.Z_FLEX gear_ratio tooth_difference
           + tooth_difference)%Z /\
      GenerateStepFiles.PITCH_DIA_FLEX_MM gear_ratio tooth_difference m
        = of_int (GenerateStepFiles.Z_FLEX gear_ratio tooth_difference) * m /\
      GenerateStepFiles.PITCH_DIA_CIRC_MM gear_ratio tooth_difference m
        = of_int (GenerateStepFiles.Z_CIRC gear_ratio tooth_difference) * m)
  /\ (let gr := GenerateDxf.GEAR_RATIO in
      let td := GenerateDxf.TOOTH_DIFFERENCE in
      let m : R := GenerateDxf.MODULE in
      m = 0.4%R /\
      GenerateDxf.Z_FLEX gr td = 200%Z /\
      GenerateDxf.Z_CIRC gr td = 202%Z /\
      GenerateDxf.D_PITCH_FLEX gr td m = 80%R /\
      GenerateDxf.D_PITCH_CIRC gr td m = 80.8%R /\
      GenerateDxf.ADDENDUM m = 0.32%R /\
      GenerateDxf.D_OUTER_FLEX gr td m
        = (GenerateDxf.D_PITCH_FLEX gr td m + 2 * GenerateDxf.ADDENDUM m)%R /\
      GenerateDxf.D_OUTER_FLEX gr td m = 80.64%R)
  /\ (let gr := GenerateStepFiles.GEAR_RATIO in
      let td := GenerateStepFiles.TOOTH_DIFFERENCE in
      let m : R := GenerateStepFiles.MODULE_MM in
      m = 0.4%R /\
      GenerateStepFiles.Z_FLEX gr td = 200%Z /\
      GenerateStepFiles.Z_CIRC gr td = 202%Z /\
      GenerateStepFiles.PITCH_DIA_FLEX_MM gr td m = 80%R /\
      GenerateStepFiles.PITCH_DIA_CIRC_MM gr td m = 80.8%R /\
      GenerateStepFiles.ADDENDUM_MM m = 0.32%R /\
      GenerateStepFiles.FLEX_OUTER_DIA gr td m
        = (GenerateStepFiles.PITCH_DIA_FLEX_MM gr td m
           + 2 * GenerateStepFiles.ADDENDUM_MM m)%R /\
      GenerateStepFiles.FLEX_OUTER_DIA gr td m = 80.64%R)
  /\ (forall (c s : float -> float) (p : float),
      let N := Binary64 c s p in
      (let gr := GenerateDxf.GEAR_RATIO in
       let td := GenerateDxf.TOOTH_DIFFERENCE in
       let m : float := GenerateDxf.MODULE in
       m = 0.4%float /\
       GenerateDxf.D_PITCH_FLEX gr td m = 80%float /\
       GenerateDxf.D_PITCH_CIRC gr td m = PrimFloat.next_up 80.8%float /\
       GenerateDxf.ADDENDUM m = PrimFloat.next_up 0.32%float /\
       GenerateDxf.D_OUTER_FLEX gr td m
         = GenerateDxf.D_PITCH_FLEX gr td m + of_int 2 * GenerateDxf.ADDENDUM m /\
       GenerateDxf.D_OUTER_FLEX gr td m = 80.64%float)
      /\ (let gr := GenerateStepFiles.GEAR_RATIO in
          let td := GenerateStepFiles.TOOTH_DIFFERENCE in
          let m : float := GenerateStepFiles.MODULE_MM in
          m = 0.4%float /\
          GenerateStepFiles.PITCH_DIA_FLEX_MM gr td m = 80%float /\
          GenerateStepFiles.PITCH_DIA_CIRC_MM gr td m
            = PrimFloat.next_up 80.8%float /\
          GenerateStepFiles.ADDENDUM_MM m = PrimFloat.next_up 0.32%float /\
          GenerateStepFiles.FLEX_OUTER_DIA gr td m
            = GenerateStepFiles.PITCH_DIA_FLEX_MM gr td m
              + of_int 2 * GenerateStepFiles.ADDENDUM_MM m /\
          GenerateStepFiles.FLEX_OUTER_DIA gr td m = 80.64%float)).
Proof.
  split; [|split; [|split]].
  - intros. apply parameter_relations.
  - apply parameter_values_exact.
  - apply parameter_values_exact.
  - intros c s p.
    pose proof (parameter_values_binary64 c s p) as Hb. cbv zeta in Hb |- *.
    destruct Hb as
      [(Hm & _ & _ & _ & Hpf & Hpc & Ha & Ho) (Hm' & Hpf' & Hpc' & Ha' & Ho')].
    repeat split; assumption.
Qed.

(** ** Circles and ellipses *)

Lemma ellipse_point_R (a b : R) (n i : Z) :
  ellipse_point a b n i =
    ((a / 2) * cos (sample_angle n i), (b / 2) * sin (sample_angle n i))%R.
Proof. reflexivity. Qed.


Lemma sample_angle_step (n i : Z) :
  (1 <= n)%Z ->
  (sample_angle n (i + 1) - sample_angle n i = 2 * PI / IZR n)%R.
Proof.
  intros Hn. unfold sample_angle. rewrite plus_IZR.
  assert (Hn0 : (IZR n <> 0)%R) by (apply not_0_IZR; lia).
  field. assumption.
Qed.


Lemma on_circle (r t : R) :
  sqrt ((r * cos t) * (r * cos t) + (r * sin t) * (r * sin t)) = Rabs r.
Proof.
  replace ((r * cos t) * (r * cos t) + (r * sin t) * (r * sin t))%R
    with (Rsqr r * (Rsqr (sin t) + Rsqr (cos t)))%R by (unfold Rsqr; ring).
  rewrite sin2_cos2, Rmult_1_r. apply sqrt_Rsqr_abs.
Qed.

(** C9.  For every diameter and every point count [n >= 1], in any
    arithmetic, [generate_circle d n] and [generate_ellipse d d n] return
    the same sequence, of [n + 1] points. *)
Theorem circle_is_ellipse (F : Type) (N : PyNum F) (d : F) (n : Z) :
  (1 <= n)%Z ->
  exists pts,
    GenerateDxf.generate_circle d n = Ok pts /\
    GenerateDxf.generate_ellipse d d n = Ok pts /\
    length pts = (Z.to_nat n + 1)%nat.
Proof.
  intros Hn.
  destruct (generate_ellipse_closed d d Hn) as (pts & p0 & He & Hl & _).
  exists pts. rewrite generate_circle_ellipse. auto.
Qed.

Lemma circle_is_ellipse_witness :
  exists pts,
    GenerateDxf.generate_circle 10%R 3 = Ok pts /\
    GenerateDxf.generate_ellipse 10%R 10%R 3 = Ok pts /\
    length pts = 4%nat.
Proof. apply (@circle_is_ellipse R RNum 10%R 3). lia. Defined.




(** ** The radial array projector *)

(** C2.  Once the tooth profile is generated and the pitch radius [r] is not
    zero, each projector returns, tooth after tooth and point after point,
    [(r_total cos theta, r_total sin theta)] with
    [theta = 2 pi k / Z + px / r]; [r_total] is [r + py] in
    [generate_flex_spline_teeth] and [r - py] in
    [generate_circular_spline_teeth], and nothing else differs. *)
Theorem radial_projection_formula (F : Type) (N : PyNum F)
    (gear_ratio tooth_difference : Z) (m : F)
    (num_teeth : option Z) (n : Z) (profile : list (F * F)) :
  GenerateDxf.generate_tooth_profile m n = Ok profile ->
  let r_flex := GenerateDxf.D_PITCH_FLEX gear_ratio tooth_difference m / of_int 2 in
  let r_circ := GenerateDxf.D_PITCH_CIRC gear_ratio tooth_difference m / of_int 2 in
  let z_flex := teeth_or (GenerateDxf.Z_FLEX gear_ratio tooth_difference) num_teeth in
  let z_circ := teeth_or (GenerateDxf.Z_CIRC gear_ratio tooth_difference) num_teeth in
  (is_zero r_flex = false ->
   exists pts,
     GenerateDxf.generate_flex_spline_teeth gear_ratio tooth_difference m
       num_teeth n = Ok pts /\
     pts = radial_array false r_flex z_flex profile /\
     forall k j px py, (0 <= k < z_flex)%Z ->
       nth_error profile j = Some (px, py) ->
       let theta := ((of_int 2 * fpi) * of_int k) / of_int z_flex + px / r_flex in
       nth_error pts (Z.to_nat k * length profile + j) =
         Some ((r_flex + py) * fcos theta, (r_flex + py) * fsin theta))
  /\
  (is_zero r_circ = false ->
   exists pts,
     GenerateDxf.generate_circular_spline_teeth gear_ratio tooth_difference m
       num_teeth n = Ok pts /\
     pts = radial_array true r_circ z_circ profile /\
     forall k j px py, (0 <= k < z_circ)%Z ->
       nth_error profile j = Some (px, py) ->
       let theta := ((of_int 2 * fpi) * of_int k) / of_int z_circ + px / r_circ in
       nth_error pts (Z.to_nat k * length profile + j) =
         Some ((r_circ - py) * fcos theta, (r_circ - py) * fsin theta)).
Proof.
  intros Hp r_flex r_circ z_flex z_circ. split; intros Hr.
  - exists (radial_array false r_flex z_flex profile).
    split; [apply generate_flex_spline_teeth_ok; [exact Hp | exact Hr]|].
    split; [reflexivity|].
    intros k j px py Hk Hj theta.
    now rewrite (radial_array_nth false r_flex profile j Hk Hj).
  - exists (radial_array true r_circ z_circ profile).
    split; [apply generate_circular_spline_teeth_ok; [exact Hp | exact Hr]|].
    split; [reflexivity|].
    intros k j px py Hk Hj theta.
    now rewrite (radial_array_nth true r_circ profile j Hk Hj).
Qed.

Lemma source_flex_radius :
  GenerateDxf.D_PITCH_FLEX GenerateDxf.GEAR_RATIO GenerateDxf.TOOTH_DIFFERENCE
     (GenerateDxf.MODULE (F := R)) / of_int 2 = 40%R.
Proof.
  cbn [fdiv of_int RNum].
  unfold GenerateDxf.D_PITCH_FLEX, GenerateDxf.MODULE.
  change (GenerateDxf.Z_FLEX _ _) with 200%Z.
  rewrite lit_R. cbn [of_int fmul RNum]. lra.
Qed.

Lemma source_circ_radius :
  GenerateDxf.D_PITCH_CIRC GenerateDxf.GEAR_RATIO GenerateDxf.TOOTH_DIFFERENCE
     (GenerateDxf.MODULE (F := R)) / of_int 2 = 40.4%R.
Proof.
  cbn [fdiv of_int RNum].
  unfold GenerateDxf.D_PITCH_CIRC, GenerateDxf.MODULE.
  change (GenerateDxf.Z_CIRC _ _) with 202%Z.
  rewrite lit_R. cbn [of_int fmul RNum]. lra.
Qed.

Lemma radial_projection_formula_witness :
  exists pts,
    GenerateDxf.generate_flex_spline_teeth (F := R) GenerateDxf.GEAR_RATIO
      GenerateDxf.TOOTH_DIFFERENCE GenerateDxf.MODULE None 2 = Ok pts /\
    pts = radial_array false
            (GenerateDxf.D_PITCH_FLEX GenerateDxf.GEAR_RATIO
               GenerateDxf.TOOTH_DIFFERENCE GenerateDxf.MODULE / of_int 2)
            200 (dxf_profile GenerateDxf.MODULE 2).
Proof.
  assert (Hp : GenerateDxf.generate_tooth_profile (F := R) GenerateDxf.MODULE 2
               = Ok (dxf_profile GenerateDxf.MODULE 2))
    by (apply generate_tooth_profile_ok; lia).
  destruct (proj1 (@radial_projection_formula R RNum GenerateDxf.GEAR_RATIO
                     GenerateDxf.TOOTH_DIFFERENCE GenerateDxf.MODULE None 2 _ Hp))
    as (pts & Hg & Heq & _).
  - apply is_zero_R_false. rewrite source_flex_radius. lra.
  - exists pts. split; [exact Hg | exact Heq].
Defined.

(** ** Sample counts *)

(** C5, as the code has it.  [generate_tooth_profile] (the DXF script's
    external profile) returns [n + 1] samples, at [t = i / n]; and
    [generate_s_curve_tooth_points] returns [n] samples, at
    [t = i / (n - 1)], for its internal and for its external variant alike.
    In exact arithmetic all these [t] lie in [[0, 1]]. *)
Theorem tooth_profile_sample_counts (n : Z) (Hn : (1 <= n)%Z) :
  (forall (F : Type) (N : PyNum F) (m : F),
      exists pts,
        GenerateDxf.generate_tooth_profile m n = Ok pts /\
        length pts = (Z.to_nat n + 1)%nat /\
        forall i, (0 <= i <= n)%Z ->
          nth_error pts (Z.to_nat i) =
            Some (GenerateDxf.tooth_profile_point m (of_int i / of_int n)))
  /\ ((2 <= n)%Z ->
      forall (F : Type) (N : PyNum F) (m shift : F) (is_internal : bool),
      exists pts,
        GenerateStepFiles.generate_s_curve_tooth_points m shift n is_internal
          = Ok pts /\
        length pts = Z.to_nat n /\
        forall i, (0 <= i < n)%Z ->
          nth_error pts (Z.to_nat i) =
            Some (let t := of_int i / of_int (n - 1) in
                  if is_internal
                  then GenerateStepFiles.internal_point m shift t
                  else GenerateStepFiles.external_point m shift t))
  /\ (forall i, (0 <= i <= n)%Z -> (0 <= IZR i / IZR n <= 1)%R)
  /\ ((2 <= n)%Z ->
      forall i, (0 <= i < n)%Z -> (0 <= IZR i / IZR (n - 1) <= 1)%R).
Proof.
  assert (Hfrac : forall i d, (0 <= i <= d)%Z -> (1 <= d)%Z ->
                    (0 <= IZR i / IZR d <= 1)%R).
  { intros i d Hi Hd.
    assert (Hd0 : (0 < IZR d)%R) by (apply IZR_lt; lia).
    assert (Hi0 : (0 <= IZR i)%R) by (apply IZR_le; lia).
    assert (Hid : (IZR i <= IZR d)%R) by (apply IZR_le; lia).
    split.
    - apply Rmult_le_pos; [assumption|]. left. now apply Rinv_0_lt_compat.
    - apply Rmult_le_reg_r with (r := IZR d); [assumption|].
      unfold Rdiv. rewrite Rmult_assoc, Rinv_l by lra. lra. }
  split; [|split; [|split]].
  - intros F N m. exists (dxf_profile m n).
    split; [apply generate_tooth_profile_ok; lia|].
    split; [rewrite dxf_profile_length; lia|].
    intros i Hi. now apply dxf_profile_nth.
  - intros Hn2 F N m shift is_internal.
    exists (step_profile m shift n is_internal).
    split; [apply generate_s_curve_tooth_points_ok; lia|].
    split; [apply step_profile_length|].
    intros i Hi. now apply step_profile_nth.
  - intros i Hi. apply Hfrac; lia.
  - intros Hn2 i Hi. apply Hfrac; lia.
Qed.

Lemma tooth_profile_sample_counts_witness :
  (exists pts,
      GenerateDxf.generate_tooth_profile (GenerateDxf.MODULE (F := R)) 2
        = Ok pts /\
      length pts = 3%nat) /\
  (exists pts,
      GenerateStepFiles.generate_s_curve_tooth_points
        (GenerateStepFiles.MODULE_MM (F := R)) 0%R 2 false = Ok pts /\
      length pts = 2%nat).
Proof.
  assert (H1 : (1 <= 2)%Z) by lia.
  assert (H2 : (2 <= 2)%Z) by lia.
  destruct (tooth_profile_sample_counts H1) as (Hd & Hs & _).
  split.
  - destruct (Hd R RNum GenerateDxf.MODULE) as (pts & Hg & Hl & _).
    exists pts. split; [exact Hg | exact Hl].
  - destruct (Hs H2 R RNum GenerateStepFiles.MODULE_MM 0%R false)
      as (pts & Hg & Hl & _).
    exists pts. split; [exact Hg | exact Hl].
Defined.

(** C5 as worded: the external variant of
    [generate_s_curve_tooth_points], asked for 2 points, does not return
    [2 + 1] samples. *)
Lemma external_variant_has_n_samples :
  ~ (exists pts,
        GenerateStepFiles.generate_s_curve_tooth_points
          (GenerateStepFiles.MODULE_MM (F := R)) 0%R 2 false = Ok pts /\
        length pts = (Z.to_nat 2 + 1)%nat).
Proof.
  rewrite generate_s_curve_tooth_points_ok by lia.
  intros (pts & Hg & Hl). injection Hg as <-.
  rewrite step_profile_length in Hl. simpl in Hl. lia.
Qed.

(** ** The full gear *)

Section FullGear.
Import GenerateDxf.

(** Lengths, in any arithmetic. *)
Lemma flex_teeth_length (F : Type) (N : PyNum F) (gr td : Z) (m : F)
    (num_teeth : option Z) (n : Z) :
  n <> 0%Z ->
  is_zero (D_PITCH_FLEX gr td m / of_int 2) = false ->
  exists pts,
    generate_flex_spline_teeth gr td m num_teeth n = Ok pts /\
    pts = radial_array false (D_PITCH_FLEX gr td m / of_int 2)
            (teeth_or (Z_FLEX gr td) num_teeth) (dxf_profile m n) /\
    length pts =
      (Z.to_nat (teeth_or (Z_FLEX gr td) num_teeth) * Z.to_nat (n + 1))%nat.
Proof.
  intros Hn Hr. eexists. split; [|split; [reflexivity|]].
  - apply generate_flex_spline_teeth_ok; [|exact Hr].
    now apply generate_tooth_profile_ok.
  - now rewrite radial_array_length, dxf_profile_length.
Qed.

Lemma circular_teeth_length (F : Type) (N : PyNum F) (gr td : Z) (m : F)
    (num_teeth : option Z) (n : Z) :
  n <> 0%Z ->
  is_zero (D_PITCH_CIRC gr td m / of_int 2) = false ->
  exists pts,
    generate_circular_spline_teeth gr td m num_teeth n = Ok pts /\
    length pts =
      (Z.to_nat (teeth_or (Z_CIRC gr td) num_teeth) * Z.to_nat (n + 1))%nat.
Proof.
  intros Hn Hr. eexists. split.
  - apply generate_circular_spline_teeth_ok; [|exact Hr].
    now apply generate_tooth_profile_ok.
  - now rewrite radial_array_length, dxf_profile_length.
Qed.

(** The sample at [t = 1/2] is the tip of the tooth, on the midline. *)
Lemma tooth_profile_point_mid (m : R) :
  tooth_profile_point m (1 / 2)%R = (0%R, ADDENDUM m).
Proof.
  unfold tooth_profile_point.
  rewrite flt_R_false by (rewrite lit_R; lra).
  rewrite !lit_R. cbn [fadd fsub fmul fdiv fneg of_int fcos fpi RNum].
  replace (PI * ((1 / 2 - 5 / 10) / (5 / 10)))%R with 0%R by field.
  rewrite cos_0. f_equal; field.
Qed.

Lemma even_half_ratio (n : Z) :
  (1 <= n)%Z -> Z.even n = true -> (IZR (n / 2) / IZR n = 1 / 2)%R.
Proof.
  intros Hn He.
  apply Zeven_bool_iff, Zeven_div2 in He. rewrite Z.div2_div in He.
  assert (Hn0 : (IZR n <> 0)%R) by (apply not_0_IZR; lia).
  assert (Hh : (IZR n = 2 * IZR (n / 2))%R)
    by (rewrite <- mult_IZR; now f_equal).
  apply Rmult_eq_reg_r with (r := IZR n); [|assumption].
  unfold Rdiv. rewrite Rmult_assoc, Rinv_l by assumption. lra.
Qed.

Lemma project_mid_R (r offset a : R) (nz k : Z) :
  sample_angle nz k = offset ->
  project_point false r nz k (0%R, a) =
    ((r + a) * cos offset, (r + a) * sin offset)%R.
Proof.
  intros <-. unfold project_point, sample_angle.
  cbn [fst snd fadd fsub fmul fdiv fneg of_int fcos fsin fpi RNum].
  replace (2 * PI * IZR k / IZR nz + 0 / r)%R
    with (2 * PI * IZR k / IZR nz)%R by (unfold Rdiv; lra).
  reflexivity.
Qed.
End FullGear.

(** C6, as the code has it.  For [Z >= 1] teeth and a requested density
    [n >= 1], with a pitch radius that is not zero, the projected sequence
    has [Z * (n + 1)] points, in any arithmetic: every tooth carries the
    [n + 1] samples of [generate_tooth_profile].  In exact arithmetic the
    angular offsets of successive teeth differ by [2 pi / Z], and for even
    [n] the midpoint sample of tooth [k] lies on the ray of angle
    [2 pi k / Z], at radius [r + ADDENDUM]. *)
Theorem full_gear_projection (z n : Z) (Hz : (1 <= z)%Z) (Hn : (1 <= n)%Z) :
  (forall (F : Type) (N : PyNum F) (gr td : Z) (m : F),
      is_zero (GenerateDxf.D_PITCH_FLEX gr td m / of_int 2) = false ->
      exists pts,
        GenerateDxf.generate_flex_spline_teeth gr td m (Some z) n = Ok pts /\
        length pts = (Z.to_nat z * (Z.to_nat n + 1))%nat)
  /\ (forall k, (sample_angle z (k + 1) - sample_angle z k = 2 * PI / IZR z)%R)
  /\ (forall (gr td : Z) (m : R),
      GenerateDxf.D_PITCH_FLEX gr td m / of_int 2 <> 0%R ->
      Z.even n = true ->
      exists pts,
        GenerateDxf.generate_flex_spline_teeth gr td m (Some z) n = Ok pts /\
        forall k, (0 <= k < z)%Z ->
          let r := (GenerateDxf.D_PITCH_FLEX gr td m / 2)%R in
          nth_error pts (Z.to_nat k * (Z.to_nat n + 1) + Z.to_nat (n / 2)) =
            Some ((r + GenerateDxf.ADDENDUM m) * cos (sample_angle z k),
                  (r + GenerateDxf.ADDENDUM m) * sin (sample_angle z k))%R).
Proof.
  split; [|split].
  - intros F N gr td m Hr.
    destruct (@flex_teeth_length F N gr td m (Some z) n) as (pts & Hg & _ & Hl);
      [lia | exact Hr |].
    exists pts. split; [exact Hg|]. rewrite Hl. simpl. f_equal. lia.
  - intros k. now apply sample_angle_step.
  - intros gr td m Hr He.
    destruct (@flex_teeth_length R RNum gr td m (Some z) n)
      as (pts & Hg & Heq & _); [lia | now apply is_zero_R_false |].
    exists pts. split; [exact Hg|].
    intros k Hk r. subst pts. simpl teeth_or.
    replace (Z.to_nat n + 1)%nat with (length (dxf_profile m n))
      by (rewrite dxf_profile_length; lia).
    assert (Hmid : nth_error (dxf_profile m n) (Z.to_nat (n / 2)) =
                   Some (0%R, GenerateDxf.ADDENDUM m)).
    { assert (Hh : (0 <= n / 2 <= n)%Z)
        by (split; [apply Z.div_pos; lia | apply Z.div_le_upper_bound; lia]).
      rewrite dxf_profile_nth by exact Hh.
      change (of_int (n / 2) / of_int n) with (IZR (n / 2) / IZR n)%R.
      now rewrite even_half_ratio, tooth_profile_point_mid. }
    rewrite (radial_array_nth false _ _ _ Hk Hmid).
    f_equal. now apply project_mid_R.
Qed.

Lemma full_gear_projection_witness :
  exists pts,
    GenerateDxf.generate_flex_spline_teeth (F := R) GenerateDxf.GEAR_RATIO
      GenerateDxf.TOOTH_DIFFERENCE GenerateDxf.MODULE (Some 3%Z) 2 = Ok pts /\
    length pts = 9%nat.
Proof.
  assert (Hz : (1 <= 3)%Z) by lia.
  assert (Hn : (1 <= 2)%Z) by lia.
  apply (proj1 (full_gear_projection Hz Hn) R RNum).
  apply is_zero_R_false. rewrite source_flex_radius. lra.
Defined.

(** C6 as worded: 3 teeth at a requested density of 2 do not make
    [3 * 2] points. *)
Lemma full_gear_is_not_teeth_times_density :
  ~ (exists pts,
        GenerateDxf.generate_flex_spline_teeth (F := R) GenerateDxf.GEAR_RATIO
          GenerateDxf.TOOTH_DIFFERENCE GenerateDxf.MODULE (Some 3%Z) 2 = Ok pts /\
        length pts = (Z.to_nat 3 * Z.to_nat 2)%nat).
Proof.
  destruct (@flex_teeth_length R RNum GenerateDxf.GEAR_RATIO
              GenerateDxf.TOOTH_DIFFERENCE GenerateDxf.MODULE (Some 3%Z) 2)
    as (pts & Hg & _ & Hl).
  - lia.
  - apply is_zero_R_false. rewrite source_flex_radius. lra.
  - intros (pts' & Hg' & Hl'). rewrite Hg in Hg'. injection Hg' as <-.
    rewrite Hl in Hl'. simpl in Hl'. lia.
Qed.

(** ** What the scripts do with inputs the design document rules out *)

(** A pitch radius that compares equal to zero stops the projector at its
    first point, in [px / radius]. *)
Lemma flex_teeth_zero_radius (F : Type) (N : PyNum F) (gr td : Z) (m : F)
    (num_teeth : option Z) (n : Z) :
  (1 <= n)%Z ->
  (1 <= teeth_or (GenerateDxf.Z_FLEX gr td) num_teeth)%Z ->
  is_zero (GenerateDxf.D_PITCH_FLEX gr td m / of_int 2) = true ->
  GenerateDxf.generate_flex_spline_teeth gr td m num_teeth n =
    Raise ZeroDivisionError.
Proof.
  intros Hn Hz Hr. unfold GenerateDxf.generate_flex_spline_teeth.
  rewrite generate_tooth_profile_ok by lia. cbn [bind].
  unfold teeth_or in Hz.
  destruct (range_pos_head Hz) as [tl ->].
  apply for_each_raise_head.
  rewrite float_div_int_ok by lia. cbn [bind].
  unfold dxf_profile.
  assert (Hn1 : (1 <= n + 1)%Z) by lia.
  destruct (range_pos_head Hn1) as [tl' ->]. cbn [map].
  apply for_each_raise_head.
  destruct (GenerateDxf.tooth_profile_point m (of_int 0 / of_int n)) as [px py].
  unfold float_div. now rewrite Hr.
Qed.

Lemma flex_radius_R (gr td : Z) (m : R) :
  GenerateDxf.D_PITCH_FLEX gr td m / of_int 2 = (IZR (gr * td) * m / 2)%R.
Proof. reflexivity. Qed.

(** In exact arithmetic the pitch radius is zero exactly when the tooth
    count or the module is. *)
Lemma flex_radius_zero_exact (gr td : Z) (m : R) :
  is_zero (GenerateDxf.D_PITCH_FLEX gr td m / of_int 2) = true <->
  ((gr * td)%Z = 0%Z \/ m = 0%R).
Proof.
  rewrite flex_radius_R. cbn [is_zero RNum].
  destruct (Req_dec_T (IZR (gr * td) * m / 2) 0) as [Hz | Hz].
  - split; [intros _ | reflexivity].
    assert (Hp : (IZR (gr * td) * m = 0)%R) by lra.
    apply Rmult_integral in Hp. destruct Hp as [Hp | Hp]; [left | now right].
    now apply eq_IZR.
  - split; [discriminate|]. intros [Hc | Hc]; exfalso; apply Hz.
    + rewrite Hc. lra.
    + rewrite Hc. lra.
Qed.

(** In binary64 the pitch radius can compare equal to zero with a module
    that does not: with one tooth and the smallest positive double as
    module, [Z_FLEX * MODULE / 2] rounds to [0.0], and the generator stops on
    [px / radius].  Neither the cosine nor the sine is reached. *)
Lemma tiny_module_binary64 (c s : float -> float) (p : float) :
  let N := Binary64 c s p in
  let m : float := 0x1p-1074%float in
  is_zero m = false /\
  is_zero (GenerateDxf.D_PITCH_FLEX 1 1 m / of_int 2) = true /\
  GenerateDxf.generate_flex_spline_teeth 1 1 m None 20
    = Raise ZeroDivisionError.
Proof.
  intros N m.
  assert (Hr : is_zero (GenerateDxf.D_PITCH_FLEX 1 1 m / of_int 2) = true)
    by (vm_compute; reflexivity).
  split; [vm_compute; reflexivity|]. split; [exact Hr|].
  apply flex_teeth_zero_radius; [lia | simpl; lia | exact Hr].
Qed.

(** A negative module in binary64: the pitch radius is [-40.0], and the
    generator returns all its points, whatever the cosine and the sine. *)
Lemma negative_module_binary64 (c s : float -> float) (p : float) :
  let N := Binary64 c s p in
  let m : float := (- lit 4 10)%py in
  m = (-0.4)%float /\
  GenerateDxf.D_PITCH_FLEX 100 2 m / of_int 2 = (-40)%float /\
  exists pts,
    GenerateDxf.generate_flex_spline_teeth 100 2 m None 20 = Ok pts /\
    length pts = 4200%nat.
Proof.
  intros N m.
  split; [vm_compute; reflexivity|]. split; [vm_compute; reflexivity|].
  destruct (@flex_teeth_length float N 100 2 m None 20)
    as (pts & Hg & _ & Hl).
  - lia.
  - vm_compute. reflexivity.
  - exists pts. split; [exact Hg | exact Hl].
Qed.

(** C7, as the code has it.  Neither script validates its inputs: the
    tooth counts and the pitch diameters are plain assignments, and
    generation runs on whatever was derived.  What decides the outcome of
    [generate_flex_spline_teeth] is the tooth count and whether the pitch
    radius compares equal to zero, not the sign of an input.  In any
    arithmetic, for a density [n >= 1]: with
    [gear_ratio * tooth_difference <= 0] the function returns the empty
    list; with a positive tooth count and a pitch radius that does not
    compare equal to zero it returns
    [gear_ratio * tooth_difference * (n + 1)] points; with a positive tooth
    count and a pitch radius that compares equal to zero it stops on the
    [ZeroDivisionError] of [px / radius].

    The bounds keep the run inside the part of CPython that is embedded:
    an int beyond the largest double stops the derivation with
    [OverflowError], and a module beyond [1e300] can make an angle infinite,
    on which [math.cos] raises [ValueError]. *)
Theorem primary_inputs_unchecked (F : Type) (N : PyNum F) (gr td : Z) (m : F)
    (n : Z)
    (Hn : (1 <= n)%Z)
    (Hflex : (Z.abs (gr * td) < 2 ^ 53)%Z)
    (Hcirc : (Z.abs (gr * td + td) < 2 ^ 53)%Z)
    (Hlow : fle (lit (- 10 ^ 300) 1) m = true)
    (Hhigh : fle m (lit (10 ^ 300) 1) = true) :
  let radius := GenerateDxf.D_PITCH_FLEX gr td m / of_int 2 in
  GenerateDxf.Z_FLEX gr td = (gr * td)%Z /\
  GenerateDxf.Z_CIRC gr td = (gr * td + td)%Z /\
  GenerateDxf.D_PITCH_FLEX gr td m = of_int (gr * td) * m /\
  GenerateStepFiles.Z_FLEX gr td = (gr * td)%Z /\
  GenerateStepFiles.Z_CIRC gr td = (gr * td + td)%Z /\
  GenerateStepFiles.PITCH_DIA_FLEX_MM gr td m = of_int (gr * td) * m /\
  ((gr * td <= 0)%Z ->
   GenerateDxf.generate_flex_spline_teeth gr td m None n = Ok []) /\
  ((1 <= gr * td)%Z -> is_zero radius = false ->
   exists pts,
     GenerateDxf.generate_flex_spline_teeth gr td m None n = Ok pts /\
     length pts = (Z.to_nat (gr * td) * (Z.to_nat n + 1))%nat) /\
  ((1 <= gr * td)%Z -> is_zero radius = true ->
   GenerateDxf.generate_flex_spline_teeth gr td m None n =
     Raise ZeroDivisionError).
Proof.
  intros radius.
  do 6 (split; [reflexivity|]).
  split; [|split].
  - intros Hz.
    apply generate_flex_spline_teeth_no_teeth with (profile := dxf_profile m n).
    + apply generate_tooth_profile_ok; lia.
    + exact Hz.
  - intros Hz Hr.
    destruct (@flex_teeth_length F N gr td m None n)
      as (pts & Hg & _ & Hl); [lia | exact Hr |].
    exists pts. split; [exact Hg|]. rewrite Hl.
    unfold teeth_or, GenerateDxf.Z_FLEX. f_equal. lia.
  - intros Hz Hr. apply flex_teeth_zero_radius; [exact Hn | exact Hz | exact Hr].
Qed.

Lemma primary_inputs_unchecked_witness :
  exists pts,
    GenerateDxf.generate_flex_spline_teeth 100 2 (-0.4)%R None 20 = Ok pts /\
    length pts = 4200%nat.
Proof.
  assert (Hn : (1 <= 20)%Z) by lia.
  assert (Hflex : (Z.abs (100 * 2) < 2 ^ 53)%Z) by (vm_compute; reflexivity).
  assert (Hcirc : (Z.abs (100 * 2 + 2) < 2 ^ 53)%Z) by (vm_compute; reflexivity).
  assert (Hbig : (1 <= IZR (10 ^ 300))%R)
    by (apply IZR_le; vm_compute; discriminate).
  assert (Hlow : fle (lit (- 10 ^ 300) 1) (-0.4)%R = true).
  { apply fle_R_true. rewrite lit_R, opp_IZR. lra. }
  assert (Hhigh : fle (-0.4)%R (lit (10 ^ 300) 1) = true).
  { apply fle_R_true. rewrite lit_R. lra. }
  apply (proj1 (proj2 (proj2 (proj2 (proj2 (proj2 (proj2 (proj2
           (@primary_inputs_unchecked R RNum 100 2 (-0.4)%R 20
              Hn Hflex Hcirc Hlow Hhigh))))))))).
  - lia.
  - apply is_zero_R_false. rewrite flex_radius_R.
    change (100 * 2)%Z with 200%Z. lra.
Defined.

(** C7 as worded: a module of -0.4 is not rejected; the flex spline comes
    out with all its 200 times 21 points, in exact arithmetic and in
    binary64 alike.  A tooth difference of 0 is not rejected either, and
    yields an empty outline. *)
Lemma negative_module_is_accepted :
  (exists pts,
      GenerateDxf.generate_flex_spline_teeth 100 2 (-0.4)%R None 20 = Ok pts /\
      length pts = 4200%nat) /\
  GenerateDxf.generate_flex_spline_teeth 100 0 0.4%R None 20 = Ok [] /\
  (forall (c s : float -> float) (p : float),
      let N := Binary64 c s p in
      exists pts,
        GenerateDxf.generate_flex_spline_teeth 100 2 (-0.4)%float None 20
          = Ok pts /\
        length pts = 4200%nat).
Proof.
  split; [|split].
  - destruct (@flex_teeth_length R RNum 100 2 (-0.4)%R None 20)
      as (pts & Hg & _ & Hl).
    + lia.
    + apply is_zero_R_false. rewrite flex_radius_R.
      change (100 * 2)%Z with 200%Z. lra.
    + exists pts. split; [exact Hg | exact Hl].
  - apply generate_flex_spline_teeth_no_teeth with (profile := dxf_profile 0.4%R 20).
    + apply generate_tooth_profile_ok; lia.
    + simpl. unfold GenerateDxf.Z_FLEX. lia.
  - intros c s p N.
    destruct (negative_module_binary64 c s p) as (Hm & _ & Hpts).
    fold N in Hm, Hpts. rewrite Hm in Hpts. exact Hpts.
Qed.

(** C8, as the code has it.  No generator checks the requested density, in
    any arithmetic.  [generate_circle] and [generate_ellipse] return
    [n + 1] points for every [n >= 1], 1 and 2 included, and raise
    [IndexError] for [n <= 0]; [generate_tooth_profile] returns [n + 1]
    points for [n >= 1], raises [ZeroDivisionError] for [n = 0] and returns
    the empty list for [n < 0]; [generate_s_curve_tooth_points] returns [n]
    points for [n >= 2], raises [ZeroDivisionError] for [n = 1] and returns
    the empty list for [n <= 0]. *)
Theorem point_density_unchecked (F : Type) (N : PyNum F) (n : Z) :
  ((1 <= n)%Z ->
     (forall d, exists pts,
         GenerateDxf.generate_circle d n = Ok pts /\
         length pts = (Z.to_nat n + 1)%nat) /\
     (forall a b, exists pts,
         GenerateDxf.generate_ellipse a b n = Ok pts /\
         length pts = (Z.to_nat n + 1)%nat) /\
     (forall m, exists pts,
         GenerateDxf.generate_tooth_profile m n = Ok pts /\
         length pts = (Z.to_nat n + 1)%nat))
  /\ ((n <= 0)%Z ->
     (forall d, GenerateDxf.generate_circle d n = Raise IndexError) /\
     (forall a b, GenerateDxf.generate_ellipse a b n = Raise IndexError) /\
     (forall m shift is_internal,
         GenerateStepFiles.generate_s_curve_tooth_points m shift n is_internal
           = Ok []))
  /\ ((n = 0)%Z ->
     forall m, GenerateDxf.generate_tooth_profile m n = Raise ZeroDivisionError)
  /\ ((n < 0)%Z ->
     forall m, GenerateDxf.generate_tooth_profile m n = Ok [])
  /\ ((n = 1)%Z ->
     forall m shift is_internal,
       GenerateStepFiles.generate_s_curve_tooth_points m shift n is_internal
         = Raise ZeroDivisionError)
  /\ ((2 <= n)%Z ->
     forall m shift is_internal, exists pts,
       GenerateStepFiles.generate_s_curve_tooth_points m shift n is_internal
         = Ok pts /\
       length pts = Z.to_nat n).
Proof.
  split; [|split; [|split; [|split; [|split]]]].
  - intros Hn. split; [|split].
    + intros d. rewrite generate_circle_ellipse.
      destruct (generate_ellipse_closed d d Hn) as (pts & p0 & He & Hl & _).
      eauto.
    + intros a b.
      destruct (generate_ellipse_closed a b Hn) as (pts & p0 & He & Hl & _).
      eauto.
    + intros m. exists (dxf_profile m n).
      split; [apply generate_tooth_profile_ok; lia|].
      rewrite dxf_profile_length. lia.
  - intros Hn. split; [|split].
    + intros d. rewrite generate_circle_ellipse.
      now apply generate_ellipse_empty.
    + intros a b. now apply generate_ellipse_empty.
    + intros m shift is_internal.
      rewrite generate_s_curve_tooth_points_ok by lia.
      unfold step_profile. now rewrite range_nonpos.
  - intros -> m. apply generate_tooth_profile_zero.
  - intros Hn m. rewrite generate_tooth_profile_ok by lia.
    unfold dxf_profile. now rewrite range_nonpos by lia.
  - intros -> m shift is_internal. apply generate_s_curve_tooth_points_one.
  - intros Hn m shift is_internal.
    exists (step_profile m shift n is_internal).
    split; [apply generate_s_curve_tooth_points_ok; lia|].
    apply step_profile_length.
Qed.

Lemma point_density_unchecked_witness :
  exists pts,
    GenerateDxf.generate_circle 10%R 2 = Ok pts /\ length pts = 3%nat.
Proof.
  assert (Hn : (1 <= 2)%Z) by lia.
  exact (proj1 (proj1 (@point_density_unchecked R RNum 2) Hn) 10%R).
Defined.

(** C8 as worded: a circle asked for with 2 points, an ellipse with 1 and a
    tooth profile with 1 are returned, not rejected. *)
Lemma low_density_is_accepted :
  (exists pts,
      GenerateDxf.generate_circle 10%R 2 = Ok pts /\ length pts = 3%nat) /\
  (exists pts,
      GenerateDxf.generate_ellipse 10%R 8%R 1 = Ok pts /\ length pts = 2%nat) /\
  (exists pts,
      GenerateDxf.generate_tooth_profile 0.4%R 1 = Ok pts /\
      length pts = 2%nat).
Proof.
  split; [|split].
  - assert (Hn : (1 <= 2)%Z) by lia. rewrite generate_circle_ellipse.
    destruct (generate_ellipse_closed 10%R 10%R Hn) as (pts & p0 & He & Hl & _).
    eauto.
  - assert (Hn : (1 <= 1)%Z) by lia.
    destruct (generate_ellipse_closed 10%R 8%R Hn) as (pts & p0 & He & Hl & _).
    eauto.
  - exists (dxf_profile 0.4%R 1).
    split; [apply generate_tooth_profile_ok; lia|].
    now rewrite dxf_profile_length.
Qed.

(** ** The external tooth of the STEP script *)

Section ExternalTooth.
Import GenerateStepFiles.
Local Open Scope R_scope.

Variables m shift : R.

Let w : R := tooth_width m.
Let A : R := addendum m shift.
Let D : R := dedendum m shift.

Lemma tooth_width_R : w = PI * m / 2.
Proof. reflexivity. Qed.

Lemma addendum_R : A = 0.8 * m + shift.
Proof.
  unfold A, addendum. rewrite lit_R. cbn [fadd fmul RNum]. lra.
Qed.

Lemma dedendum_R : D = m - shift.
Proof.
  unfold D, dedendum. rewrite lit_R. cbn [fsub fmul RNum]. lra.
Qed.

Lemma external_point_left (t : R) :
  t <= 1 / 2 ->
  external_point m shift t =
    (- w / 3 * (1 - 2 * t), - D + (A + D) * sin (PI * (2 * t) / 2)).
Proof.
  intros Ht. unfold external_point.
  rewrite fle_R_true by (rewrite lit_R; lra). reflexivity.
Qed.

Lemma external_point_right (t : R) :
  1 / 2 < t ->
  external_point m shift t =
    (w / 3 * (2 * (t - 1 / 2)),
     - D + (A + D) * sin (PI * (1 - 2 * (t - 1 / 2)) / 2)).
Proof.
  intros Ht. unfold external_point.
  rewrite fle_R_false by (rewrite lit_R; lra).
  rewrite !lit_R. cbn [fadd fsub fmul fdiv fneg of_int fsin fpi RNum].
  replace (5 / 10) with (1 / 2) by lra. reflexivity.
Qed.

(** The height alone, with the angle simplified. *)
Lemma external_y_left (t : R) :
  t <= 1 / 2 ->
  snd (external_point m shift t) = - D + (A + D) * sin (PI * t).
Proof.
  intros Ht. rewrite external_point_left by assumption. simpl.
  replace (PI * (2 * t) / 2) with (PI * t) by field. reflexivity.
Qed.

Lemma external_y_right (t : R) :
  1 / 2 <= t ->
  snd (external_point m shift t) = - D + (A + D) * sin (PI * (1 - t)).
Proof.
  intros [Ht | <-].
  - rewrite external_point_right by assumption. simpl.
    replace (PI * (1 - 2 * (t - 1 / 2)) / 2) with (PI * (1 - t)) by field.
    reflexivity.
  - rewrite external_y_left by lra.
    replace (PI * (1 - 1 / 2)) with (PI * (1 / 2)) by field. reflexivity.
Qed.

Lemma quarter_turn (t : R) :
  0 <= t <= 1 / 2 -> - (PI / 2) <= PI * t <= PI / 2.
Proof. intros Ht. assert (Hpi := PI_RGT_0). split; nra. Qed.

Lemma external_y_rises (t1 t2 : R) :
  0 <= A + D -> 0 <= t1 -> t1 <= t2 -> t2 <= 1 / 2 ->
  snd (external_point m shift t1) <= snd (external_point m shift t2).
Proof.
  intros Hh H0 H12 H2. rewrite !external_y_left by lra.
  assert (Hpi := PI_RGT_0).
  assert (Hs : sin (PI * t1) <= sin (PI * t2)).
  { apply sin_incr_1; try (apply quarter_turn; lra). nra. }
  nra.
Qed.

Lemma external_y_falls (t1 t2 : R) :
  0 <= A + D -> 1 / 2 <= t1 -> t1 <= t2 -> t2 <= 1 ->
  snd (external_point m shift t2) <= snd (external_point m shift t1).
Proof.
  intros Hh H1 H12 H2. rewrite !external_y_right by lra.
  assert (Hpi := PI_RGT_0).
  assert (Hs : sin (PI * (1 - t2)) <= sin (PI * (1 - t1))).
  { apply sin_incr_1; try (apply quarter_turn; lra). nra. }
  nra.
Qed.

Lemma external_y_bounds (t : R) :
  0 <= A + D -> 0 <= t <= 1 ->
  - D <= snd (external_point m shift t) <= A.
Proof.
  intros Hh Ht. assert (Hpi := PI_RGT_0).
  destruct (Rle_dec t (1 / 2)) as [Hl | Hr].
  - rewrite external_y_left by assumption.
    assert (H0 : 0 <= sin (PI * t)) by (apply sin_ge_0; nra).
    assert (H1 := SIN_bound (PI * t)). split; nra.
  - rewrite external_y_right by lra.
    assert (H0 : 0 <= sin (PI * (1 - t))) by (apply sin_ge_0; nra).
    assert (H1 := SIN_bound (PI * (1 - t))). split; nra.
Qed.

Lemma external_point_start : external_point m shift 0 = (- (w / 3), - D).
Proof.
  rewrite external_point_left by lra.
  replace (PI * (2 * 0) / 2) with 0 by field. rewrite sin_0.
  f_equal; field.
Qed.

Lemma external_point_tip : external_point m shift (1 / 2) = (0, A).
Proof.
  rewrite external_point_left by lra.
  replace (PI * (2 * (1 / 2)) / 2) with (PI / 2) by field. rewrite sin_PI2.
  f_equal; field.
Qed.

Lemma external_point_end : external_point m shift 1 = (w / 3, - D).
Proof.
  rewrite external_point_right by lra.
  replace (PI * (1 - 2 * (1 - 1 / 2)) / 2) with 0 by field. rewrite sin_0.
  f_equal; field.
Qed.

(** Mirror symmetry of the external branch about the midline. *)
Lemma external_point_mirror (t : R) :
  external_point m shift (1 - t) =
    (- fst (external_point m shift t), snd (external_point m shift t)).
Proof.
  destruct (Rtotal_order t (1 / 2)) as [Hlt | [-> | Hgt]].
  - rewrite (external_point_left (t := t)) by lra.
    rewrite external_point_right by lra. simpl.
    replace (PI * (1 - 2 * (1 - t - 1 / 2)) / 2) with (PI * (2 * t) / 2)
      by field.
    f_equal. field.
  - replace (1 - 1 / 2) with (1 / 2) by field.
    rewrite external_point_tip. simpl. f_equal. lra.
  - rewrite (external_point_right (t := t)) by lra.
    rewrite external_point_left by lra. simpl.
    replace (PI * (2 * (1 - t)) / 2) with (PI * (1 - 2 * (t - 1 / 2)) / 2)
      by field.
    f_equal. field.
Qed.
End ExternalTooth.

(** C3, as the code has it.  With [w = pi m / 2], [progress = 2 t] on the
    first half and [progress = 2 (t - 1/2)] on the second, the external
    branch of [generate_s_curve_tooth_points] puts the sample of parameter
    [t] at [x = -(w/3) (1 - progress)], [y = -dedendum + (addendum +
    dedendum) sin (pi progress / 2)] for [t <= 1/2], and at
    [x = (w/3) progress], [y = -dedendum + (addendum + dedendum)
    sin (pi (1 - progress) / 2)] for [t > 1/2].  So the curve starts at
    [(-w/3, -dedendum)], has its tip [(0, addendum)] at [t = 1/2] and ends
    at [(w/3, -dedendum)]; when the tooth height is not negative the height
    rises on the first half, falls on the second and stays between
    [-dedendum] and [addendum]: one hump.  Sample [i] of [n >= 2] is the
    point of parameter [i / (n - 1)]. *)
Theorem external_tooth_shape (m shift : R) :
  let w := GenerateStepFiles.tooth_width m in
  let A := GenerateStepFiles.addendum m shift in
  let D := GenerateStepFiles.dedendum m shift in
  let point := GenerateStepFiles.external_point m shift in
  (w = PI * m / 2 /\ A = 0.8 * m + shift /\ D = m - shift)%R
  /\ (forall t, (t <= 1 / 2)%R ->
        let progress := (2 * t)%R in
        point t = (- w / 3 * (1 - progress),
                   - D + (A + D) * sin (PI * progress / 2))%R)
  /\ (forall t, (1 / 2 < t)%R ->
        let progress := (2 * (t - 1 / 2))%R in
        point t = (w / 3 * progress,
                   - D + (A + D) * sin (PI * (1 - progress) / 2))%R)
  /\ (point 0 = (- (w / 3), - D) /\
      point (1 / 2) = (0, A) /\
      point 1 = (w / 3, - D))%R
  /\ ((0 <= A + D)%R ->
      (forall t1 t2, (0 <= t1)%R -> (t1 <= t2)%R -> (t2 <= 1 / 2)%R ->
          (snd (point t1) <= snd (point t2))%R) /\
      (forall t1 t2, (1 / 2 <= t1)%R -> (t1 <= t2)%R -> (t2 <= 1)%R ->
          (snd (point t2) <= snd (point t1))%R) /\
      (forall t, (0 <= t <= 1)%R -> (- D <= snd (point t) <= A)%R))
  /\ (forall n i, (2 <= n)%Z -> (0 <= i < n)%Z ->
        exists pts,
          GenerateStepFiles.generate_s_curve_tooth_points m shift n false
            = Ok pts /\
          length pts = Z.to_nat n /\
          nth_error pts (Z.to_nat i) = Some (point (IZR i / IZR (n - 1))%R)).
Proof.
  intros w A D point.
  split; [|split; [|split; [|split; [|split]]]].
  - split; [apply tooth_width_R|].
    split; [apply addendum_R | apply dedendum_R].
  - intros t Ht progress. now apply external_point_left.
  - intros t Ht progress. now apply external_point_right.
  - split; [apply external_point_start|].
    split; [apply external_point_tip | apply external_point_end].
  - intros Hh. split; [|split].
    + intros t1 t2 H0 H12 H2. now apply external_y_rises.
    + intros t1 t2 H1 H12 H2. now apply external_y_falls.
    + intros t Ht. now apply external_y_bounds.
  - intros n i Hn Hi.
    exists (step_profile m shift n false).
    split; [apply generate_s_curve_tooth_points_ok; lia|].
    split; [apply step_profile_length|].
    now rewrite step_profile_nth.
Qed.

Lemma external_tooth_shape_witness :
  (snd (GenerateStepFiles.external_point 0.4 0.2 0)
   <= snd (GenerateStepFiles.external_point 0.4 0.2 (1 / 2)))%R.
Proof.
  assert (Hh : (0 <= GenerateStepFiles.addendum 0.4 0.2
                     + GenerateStepFiles.dedendum 0.4 0.2)%R)
    by (rewrite addendum_R, dedendum_R; lra).
  apply (proj1 (proj1 (proj2 (proj2 (proj2 (proj2
           (external_tooth_shape 0.4 0.2))))) Hh)); lra.
Defined.

(** C3 as worded: at [t = 1] the second half has [progress = 1], and the
    sample is at the root, [-dedendum], not at the tip that the formula
    [-dedendum + (addendum + dedendum) sin (pi progress / 2)] gives. *)
Lemma second_half_is_not_the_first_formula :
  let progress := (2 * (1 - 1 / 2))%R in
  snd (GenerateStepFiles.external_point 0.4%R 0%R 1%R) = (- 0.4)%R /\
  claimed_external_y 0.4%R 0%R progress = 0.32%R /\
  snd (GenerateStepFiles.external_point 0.4%R 0%R 1%R)
    <> claimed_external_y 0.4%R 0%R progress.
Proof.
  intros progress.
  assert (Hcode : snd (GenerateStepFiles.external_point 0.4%R 0%R 1%R) = (- 0.4)%R).
  { rewrite external_point_end. cbn [snd]. rewrite dedendum_R. lra. }
  assert (Hclaim : claimed_external_y 0.4%R 0%R progress = 0.32%R).
  { unfold claimed_external_y, progress.
    replace (PI * (2 * (1 - 1 / 2)) / 2)%R with (PI / 2)%R by field.
    rewrite sin_PI2, addendum_R, dedendum_R. lra. }
  split; [exact Hcode|]. split; [exact Hclaim|].
  rewrite Hcode, Hclaim. lra.
Qed.

(** ** Mirror symmetry of the external tooth *)

(** A sequence whose point [k] mirrors its point [length - 1 - k] is its own
    reversed mirror image. *)
Lemma mirror_sequence (pts : list (R * R)) :
  (forall k p, nth_error pts k = Some p ->
     nth_error pts (length pts - S k) = Some (mirror p)) ->
  map mirror (rev pts) = pts.
Proof.
  intros Hsym. apply nth_error_ext. intros k.
  rewrite nth_error_map, nth_error_rev.
  destruct (Nat.ltb_spec k (length pts)) as [Hk | Hk].
  - destruct (nth_error pts (length pts - S k)) as [q|] eqn:Hq.
    + apply Hsym in Hq.
      replace (length pts - S (length pts - S k))%nat with k in Hq by lia.
      now rewrite Hq.
    + apply nth_error_None in Hq. lia.
  - symmetry. now apply nth_error_None.
Qed.

Lemma mirrored_ratio (n i : Z) :
  n <> 0%Z -> (IZR (n - i) / IZR n = 1 - IZR i / IZR n)%R.
Proof.
  intros Hn. rewrite minus_IZR.
  assert (Hn0 : (IZR n <> 0)%R) by now apply not_0_IZR.
  field. assumption.
Qed.

Section DxfTooth.
Import GenerateDxf.
Local Open Scope R_scope.

Variable m : R.

Lemma ADDENDUM_R : ADDENDUM m = 0.8 * m.
Proof. unfold ADDENDUM. rewrite lit_R. cbn [fmul RNum]. lra. Qed.

Lemma DEDENDUM_R : DEDENDUM m = m.
Proof. unfold DEDENDUM. rewrite lit_R. cbn [fmul RNum]. lra. Qed.

(** Both branches of the [if] trace the same cosine wave. *)
Lemma tooth_profile_point_closed (t : R) :
  tooth_profile_point m t =
    ((t - 1 / 2) * (PI * m),
     (ADDENDUM m - DEDENDUM m) / 2
     - (ADDENDUM m + DEDENDUM m) / 2 * cos (2 * PI * t)).
Proof.
  unfold tooth_profile_point. rewrite !lit_R.
  cbn [fadd fsub fmul fdiv fneg of_int fcos fpi flt RNum].
  f_equal; [field|].
  destruct (Rlt_dec t (5 / 10)) as [Ht | Ht].
  - replace (PI * (t / (5 / 10))) with (2 * PI * t) by field. field.
  - replace (PI * ((t - 5 / 10) / (5 / 10))) with (2 * PI * t - PI) by field.
    rewrite cos_minus, cos_PI, sin_PI. field.
Qed.

Lemma tooth_profile_point_mirror (t : R) :
  tooth_profile_point m (1 - t) = mirror (tooth_profile_point m t).
Proof.
  rewrite !tooth_profile_point_closed. unfold mirror. cbn [fst snd].
  replace (2 * PI * (1 - t)) with (2 * PI - 2 * PI * t) by ring.
  rewrite cos_minus, cos_2PI, sin_2PI. f_equal; field.
Qed.

Lemma tooth_profile_point_start :
  tooth_profile_point m 0 = (- (PI * m / 2), - DEDENDUM m).
Proof.
  rewrite tooth_profile_point_closed.
  replace (2 * PI * 0) with 0 by ring. rewrite cos_0. f_equal; field.
Qed.

Lemma tooth_profile_point_end :
  tooth_profile_point m 1 = (PI * m / 2, - DEDENDUM m).
Proof.
  rewrite tooth_profile_point_closed.
  replace (2 * PI * 1) with (2 * PI) by ring. rewrite cos_2PI.
  f_equal; field.
Qed.

Lemma dxf_profile_symmetric (n : Z) (k : nat) (p : R * R) :
  (1 <= n)%Z ->
  nth_error (dxf_profile m n) k = Some p ->
  nth_error (dxf_profile m n) (length (dxf_profile m n) - S k)
    = Some (mirror p).
Proof.
  intros Hn Hk.
  assert (Hlt : (k < length (dxf_profile m n))%nat)
    by (apply nth_error_Some; congruence).
  rewrite dxf_profile_length in *.
  replace k with (Z.to_nat (Z.of_nat k)) in Hk by lia.
  rewrite dxf_profile_nth in Hk by lia. injection Hk as <-.
  replace (Z.to_nat (n + 1) - S k)%nat with (Z.to_nat (n - Z.of_nat k))
    by lia.
  rewrite dxf_profile_nth by lia.
  change (of_int (n - Z.of_nat k) / of_int n)%py
    with (IZR (n - Z.of_nat k) / IZR n).
  rewrite mirrored_ratio by lia.
  now rewrite tooth_profile_point_mirror.
Qed.
End DxfTooth.

Lemma step_profile_symmetric (m shift : R) (n : Z) (k : nat) (p : R * R) :
  (2 <= n)%Z ->
  nth_error (step_profile m shift n false) k = Some p ->
  nth_error (step_profile m shift n false)
    (length (step_profile m shift n false) - S k) = Some (mirror p).
Proof.
  intros Hn Hk.
  assert (Hlt : (k < length (step_profile m shift n false))%nat)
    by (apply nth_error_Some; congruence).
  rewrite step_profile_length in *.
  replace k with (Z.to_nat (Z.of_nat k)) in Hk by lia.
  rewrite step_profile_nth in Hk by lia. injection Hk as <-.
  replace (Z.to_nat n - S k)%nat with (Z.to_nat (n - 1 - Z.of_nat k))
    by lia.
  rewrite step_profile_nth by lia. cbv zeta.
  change (of_int (n - 1 - Z.of_nat k) / of_int (n - 1))%py
    with (IZR (n - 1 - Z.of_nat k) / IZR (n - 1))%R.
  rewrite mirrored_ratio by lia.
  now rewrite external_point_mirror.
Qed.

(** The tooth of the DXF script, for every density [n >= 1]. *)
Lemma dxf_external_profile_mirror (m : R) (n : Z) :
  (1 <= n)%Z ->
  exists pts,
    GenerateDxf.generate_tooth_profile m n = Ok pts /\
    length pts = (Z.to_nat n + 1)%nat /\
    (forall i x y, (0 <= i <= n)%Z ->
       nth_error pts (Z.to_nat i) = Some (x, y) ->
       nth_error pts (Z.to_nat (n - i)) = Some ((- x)%R, y)) /\
    map (fun p => ((- fst p)%R, snd p)) (rev pts) = pts /\
    (exists x0, nth_error pts 0 = Some (x0, (- GenerateDxf.DEDENDUM m)%R)) /\
    (exists xn,
       nth_error pts (Z.to_nat n) = Some (xn, (- GenerateDxf.DEDENDUM m)%R)).
Proof.
  intros Hn. exists (dxf_profile m n).
  split; [apply generate_tooth_profile_ok; lia|].
  split; [rewrite dxf_profile_length; lia|].
  split; [|split; [|split]].
  - intros i x y Hi Hp.
    apply dxf_profile_symmetric in Hp; [|exact Hn].
    rewrite dxf_profile_length in Hp.
    replace (Z.to_nat (n + 1) - S (Z.to_nat i))%nat
      with (Z.to_nat (n - i)) in Hp by lia.
    exact Hp.
  - apply mirror_sequence.
    intros k p Hk. now apply dxf_profile_symmetric.
  - eexists. change 0%nat with (Z.to_nat 0).
    rewrite dxf_profile_nth by lia.
    change (of_int 0 / of_int n)%py with (0 / IZR n)%R.
    replace (0 / IZR n)%R with 0%R by (unfold Rdiv; ring).
    now rewrite tooth_profile_point_start.
  - eexists. rewrite dxf_profile_nth by lia.
    change (of_int n / of_int n)%py with (IZR n / IZR n)%R.
    replace (IZR n / IZR n)%R with 1%R
      by (field; apply not_0_IZR; lia).
    now rewrite tooth_profile_point_end.
Qed.

(** The external branch of the STEP script has the same symmetry; its
    parameter is [i / (n - 1)], so its densities start at 2. *)
Lemma step_external_profile_mirror (m shift : R) (n : Z) :
  (2 <= n)%Z ->
  exists pts,
    GenerateStepFiles.generate_s_curve_tooth_points m shift n false = Ok pts /\
    length pts = Z.to_nat n /\
    (forall i x y, (0 <= i < n)%Z ->
       nth_error pts (Z.to_nat i) = Some (x, y) ->
       nth_error pts (Z.to_nat (n - 1 - i)) = Some ((- x)%R, y)) /\
    map (fun p => ((- fst p)%R, snd p)) (rev pts) = pts /\
    (exists x0,
       nth_error pts 0
         = Some (x0, (- GenerateStepFiles.dedendum m shift)%R)) /\
    (exists xn,
       nth_error pts (Z.to_nat (n - 1))
         = Some (xn, (- GenerateStepFiles.dedendum m shift)%R)).
Proof.
  intros Hn. exists (step_profile m shift n false).
  split; [apply generate_s_curve_tooth_points_ok; lia|].
  split; [apply step_profile_length|].
  split; [|split; [|split]].
  - intros i x y Hi Hp.
    apply step_profile_symmetric in Hp; [|exact Hn].
    rewrite step_profile_length in Hp.
    replace (Z.to_nat n - S (Z.to_nat i))%nat
      with (Z.to_nat (n - 1 - i)) in Hp by lia.
    exact Hp.
  - apply mirror_sequence.
    intros k p Hk. now apply step_profile_symmetric.
  - eexists. change 0%nat with (Z.to_nat 0).
    rewrite step_profile_nth by lia. cbv zeta.
    change (of_int 0 / of_int (n - 1))%py with (0 / IZR (n - 1))%R.
    replace (0 / IZR (n - 1))%R with 0%R by (unfold Rdiv; ring).
    now rewrite external_point_start.
  - eexists. rewrite step_profile_nth by lia. cbv zeta.
    change (of_int (n - 1) / of_int (n - 1))%py
      with (IZR (n - 1) / IZR (n - 1))%R.
    replace (IZR (n - 1) / IZR (n - 1))%R with 1%R
      by (field; apply not_0_IZR; lia).
    now rewrite external_point_end.
Qed.

(** C10, as the code has it.  In exact arithmetic, for every module and
    profile shift: [generate_tooth_profile], for every density [n >= 1],
    returns [n + 1] points such that point [n - i] is point [i] with its
    abscissa negated; the external branch of
    [generate_s_curve_tooth_points], for every density [n >= 2], returns [n]
    points such that point [n - 1 - i] is point [i] with its abscissa
    negated.  In both the reversed sequence with every abscissa negated is
    the sequence itself, and the first and the last point are at the root
    height, [-DEDENDUM] and [-dedendum].  With [n = 1] the second function
    returns no profile: it stops on the division [i / (num_points - 1)]. *)
Theorem external_profile_mirror (m shift : R) (n : Z) :
  ((1 <= n)%Z ->
   exists pts,
     GenerateDxf.generate_tooth_profile m n = Ok pts /\
     length pts = (Z.to_nat n + 1)%nat /\
     (forall i x y, (0 <= i <= n)%Z ->
        nth_error pts (Z.to_nat i) = Some (x, y) ->
        nth_error pts (Z.to_nat (n - i)) = Some ((- x)%R, y)) /\
     map (fun p => ((- fst p)%R, snd p)) (rev pts) = pts /\
     (exists x0, nth_error pts 0 = Some (x0, (- GenerateDxf.DEDENDUM m)%R)) /\
     (exists xn,
        nth_error pts (Z.to_nat n) = Some (xn, (- GenerateDxf.DEDENDUM m)%R)))
  /\
  ((2 <= n)%Z ->
   exists pts,
     GenerateStepFiles.generate_s_curve_tooth_points m shift n false = Ok pts /\
     length pts = Z.to_nat n /\
     (forall i x y, (0 <= i < n)%Z ->
        nth_error pts (Z.to_nat i) = Some (x, y) ->
        nth_error pts (Z.to_nat (n - 1 - i)) = Some ((- x)%R, y)) /\
     map (fun p => ((- fst p)%R, snd p)) (rev pts) = pts /\
     (exists x0,
        nth_error pts 0
          = Some (x0, (- GenerateStepFiles.dedendum m shift)%R)) /\
     (exists xn,
        nth_error pts (Z.to_nat (n - 1))
          = Some (xn, (- GenerateStepFiles.dedendum m shift)%R)))
  /\
  GenerateStepFiles.generate_s_curve_tooth_points m shift 1 false
    = Raise ZeroDivisionError.
Proof.
  split; [|split].
  - apply dxf_external_profile_mirror.
  - apply step_external_profile_mirror.
  - apply generate_s_curve_tooth_points_one.
Qed.

Lemma external_profile_mirror_witness :
  (exists pts,
     GenerateDxf.generate_tooth_profile 0.4%R 20 = Ok pts /\
     length pts = 21%nat /\
     map (fun p => ((- fst p)%R, snd p)) (rev pts) = pts) /\
  (exists pts,
     GenerateStepFiles.generate_s_curve_tooth_points 0.4%R 0.2%R 16 false
       = Ok pts /\
     length pts = 16%nat /\
     map (fun p => ((- fst p)%R, snd p)) (rev pts) = pts).
Proof.
  split.
  - destruct (proj1 (external_profile_mirror 0.4%R 0.2%R 20))
      as (pts & Hg & Hl & _ & Hm & _); [lia|].
    exists pts. split; [exact Hg|]. split; [exact Hl | exact Hm].
  - destruct (proj1 (proj2 (external_profile_mirror 0.4%R 0.2%R 16)))
      as (pts & Hg & Hl & _ & Hm & _); [lia|].
    exists pts. split; [exact Hg|]. split; [exact Hl | exact Hm].
Defined.

(** C10 as worded: density 1 is inside "every n >= 1", and there the
    external branch of [generate_s_curve_tooth_points] returns no sequence
    to be symmetric: [t = i / (num_points - 1)] divides by zero. *)
Lemma step_external_profile_needs_two_samples :
  GenerateStepFiles.generate_s_curve_tooth_points 0.4%R 0%R 1 false
    = Raise ZeroDivisionError /\
  ~ (exists pts,
       GenerateStepFiles.generate_s_curve_tooth_points 0.4%R 0%R 1 false
         = Ok pts).
Proof.
  split; [apply generate_s_curve_tooth_points_one|].
  intros [pts Hp]. rewrite generate_s_curve_tooth_points_one in Hp.
  discriminate.
Qed.

(** * Further properties of the generators *)

(** ** The ellipse *)

Lemma generate_ellipse_In (F : Type) (N : PyNum F) (a b : F) (n : Z) (p : F * F) :
  In p (map (ellipse_point a b n) (range n) ++ [ellipse_point a b n 0]) ->
  exists i, p = ellipse_point a b n i.
Proof.
  intros Hp. apply in_app_or in Hp. destruct Hp as [Hp | [Hp | []]].
  - apply in_map_iff in Hp. destruct Hp as (i & <- & _). now exists i.
  - now exists 0%Z.
Qed.

(** Every point [generate_ellipse] returns, the closing one included, lies
    on the ellipse of semi-axes [a/2] and [b/2], hence in its bounding
    box. *)
Theorem ellipse_points_on_ellipse (a b : R) (n : Z) :
  (1 <= n)%Z -> a <> 0%R -> b <> 0%R ->
  exists pts,
    GenerateDxf.generate_ellipse a b n = Ok pts /\
    forall x y, In (x, y) pts ->
      (Rsqr (x / (a / 2)) + Rsqr (y / (b / 2)) = 1)%R /\
      (Rabs x <= Rabs a / 2)%R /\ (Rabs y <= Rabs b / 2)%R.
Proof.
  intros Hn Ha Hb. rewrite generate_ellipse_ok by exact Hn.
  eexists. split; [reflexivity|].
  intros x y Hp. apply generate_ellipse_In in Hp. destruct Hp as (i & Hp).
  rewrite ellipse_point_R in Hp. injection Hp as -> ->.
  set (t := sample_angle n i).
  assert (Hc := COS_bound t). assert (Hs := SIN_bound t).
  split; [|split].
  - replace (a / 2 * cos t / (a / 2))%R with (cos t) by (field; assumption).
    replace (b / 2 * sin t / (b / 2))%R with (sin t) by (field; assumption).
    rewrite Rplus_comm. apply sin2_cos2.
  - rewrite Rabs_mult.
    replace (Rabs (a / 2)) with (Rabs a / 2)%R
      by (unfold Rdiv; rewrite Rabs_mult, (Rabs_pos_eq (/ 2)); lra).
    assert (H1 : (Rabs (cos t) <= 1)%R) by (apply Rabs_le; lra).
    assert (H0 := Rabs_pos a). nra.
  - rewrite Rabs_mult.
    replace (Rabs (b / 2)) with (Rabs b / 2)%R
      by (unfold Rdiv; rewrite Rabs_mult, (Rabs_pos_eq (/ 2)); lra).
    assert (H1 : (Rabs (sin t) <= 1)%R) by (apply Rabs_le; lra).
    assert (H0 := Rabs_pos b). nra.
Qed.

Lemma ellipse_points_on_ellipse_witness :
  exists pts,
    GenerateDxf.generate_ellipse 80.84%R 78.94%R 360 = Ok pts /\
    forall x y, In (x, y) pts ->
      (Rsqr (x / (80.84 / 2)) + Rsqr (y / (78.94 / 2)) = 1)%R /\
      (Rabs x <= Rabs 80.84 / 2)%R /\ (Rabs y <= Rabs 78.94 / 2)%R.
Proof. apply (@ellipse_points_on_ellipse 80.84%R 78.94%R 360); [lia | lra | lra]. Defined.

(** ** The tooth profile of the DXF script *)

Lemma dxf_profile_In (F : Type) (N : PyNum F) (m : F) (n : Z) (q : F * F) :
  In q (dxf_profile m n) ->
  exists i, (0 <= i <= n)%Z /\
    q = GenerateDxf.tooth_profile_point m (of_int i / of_int n).
Proof.
  unfold dxf_profile. intros Hq. apply in_map_iff in Hq.
  destruct Hq as (i & <- & Hi). apply range_In in Hi.
  exists i. split; [lia | reflexivity].
Qed.

Lemma tooth_profile_y_bounds (m t : R) :
  (0 <= m)%R ->
  (- GenerateDxf.DEDENDUM m <= snd (GenerateDxf.tooth_profile_point m t)
   <= GenerateDxf.ADDENDUM m)%R.
Proof.
  intros Hm. rewrite tooth_profile_point_closed. cbn [snd].
  rewrite ADDENDUM_R, DEDENDUM_R.
  assert (Hc := COS_bound (2 * PI * t)). split; nra.
Qed.

(** The two branches of [generate_tooth_profile] trace one raised cosine:
    for [n >= 1], sample [i] is at abscissa [(i/n - 1/2) pi m], so the
    samples are [pi m / n] apart and span one circular pitch, and at height
    [-DEDENDUM + (DEDENDUM + ADDENDUM) (1 - cos (2 pi i / n)) / 2], which
    stays between [-DEDENDUM] and [ADDENDUM] when the module is not
    negative. *)
Theorem tooth_profile_raised_cosine (m : R) (n : Z) :
  (1 <= n)%Z ->
  exists pts,
    GenerateDxf.generate_tooth_profile m n = Ok pts /\
    (forall i, (0 <= i <= n)%Z ->
       nth_error pts (Z.to_nat i) =
         Some ((IZR i / IZR n - 1 / 2) * (PI * m),
               - GenerateDxf.DEDENDUM m
               + (GenerateDxf.DEDENDUM m + GenerateDxf.ADDENDUM m)
                 * (1 - cos (2 * PI * (IZR i / IZR n))) / 2)%R) /\
    (forall i x0 y0 x1 y1, (0 <= i < n)%Z ->
       nth_error pts (Z.to_nat i) = Some (x0, y0) ->
       nth_error pts (Z.to_nat (i + 1)) = Some (x1, y1) ->
       (x1 - x0 = PI * m / IZR n)%R) /\
    ((0 <= m)%R -> forall x y, In (x, y) pts ->
       (- GenerateDxf.DEDENDUM m <= y <= GenerateDxf.ADDENDUM m)%R).
Proof.
  intros Hn. exists (dxf_profile m n).
  assert (Hn0 : (IZR n <> 0)%R) by (apply not_0_IZR; lia).
  assert (Hnth : forall i, (0 <= i <= n)%Z ->
            nth_error (dxf_profile m n) (Z.to_nat i) =
              Some ((IZR i / IZR n - 1 / 2) * (PI * m),
                    - GenerateDxf.DEDENDUM m
                    + (GenerateDxf.DEDENDUM m + GenerateDxf.ADDENDUM m)
                      * (1 - cos (2 * PI * (IZR i / IZR n))) / 2)%R).
  { intros i Hi. rewrite dxf_profile_nth by exact Hi.
    change (of_int i / of_int n) with (IZR i / IZR n)%R.
    rewrite tooth_profile_point_closed. do 2 f_equal. field. }
  split; [apply generate_tooth_profile_ok; lia|].
  split; [exact Hnth|]. split.
  - intros i x0 y0 x1 y1 Hi H0 H1.
    rewrite Hnth in H0 by lia. rewrite Hnth in H1 by lia.
    injection H0 as <- _. injection H1 as <- _.
    rewrite plus_IZR. field. exact Hn0.
  - intros Hm x y Hp. apply dxf_profile_In in Hp.
    destruct Hp as (i & _ & Hp).
    change (of_int i / of_int n) with (IZR i / IZR n)%R in Hp.
    assert (Hb := tooth_profile_y_bounds (IZR i / IZR n) Hm).
    rewrite <- Hp in Hb. exact Hb.
Qed.

Lemma tooth_profile_raised_cosine_witness :
  exists pts,
    GenerateDxf.generate_tooth_profile 0.4%R 20 = Ok pts /\
    forall x y, In (x, y) pts ->
      (- GenerateDxf.DEDENDUM 0.4 <= y <= GenerateDxf.ADDENDUM 0.4)%R.
Proof.
  assert (Hn : (1 <= 20)%Z) by lia.
  destruct (@tooth_profile_raised_cosine 0.4%R 20 Hn) as (pts & Hg & _ & _ & Hb).
  exists pts. split; [exact Hg|]. apply Hb. lra.
Defined.

(** ** The gear outlines *)

Lemma radial_array_In (F : Type) (N : PyNum F) (internal : bool) (r : F)
    (nz : Z) (profile : list (F * F)) (p : F * F) :
  In p (radial_array internal r nz profile) ->
  exists k q, (0 <= k < nz)%Z /\ In q profile /\
    p = project_point internal r nz k q.
Proof.
  unfold radial_array. intros Hp. apply in_flat_map in Hp.
  destruct Hp as (k & Hk & Hp). apply range_In in Hk.
  apply in_map_iff in Hp. destruct Hp as (q & <- & Hq).
  exists k, q. auto.
Qed.

Lemma project_point_radius (internal : bool) (r : R) (nz k : Z) (q : R * R) :
  radius_of (project_point internal r nz k q) =
    Rabs (if internal then r - snd q else r + snd q)%R.
Proof.
  unfold radius_of, project_point. cbn [fst snd].
  cbn [fadd fsub fmul fdiv fcos fsin fpi of_int RNum].
  destruct internal; apply on_circle.
Qed.

Lemma flex_radius_bound (gr td : Z) (m : R) :
  (0 < m)%R -> (2 <= GenerateDxf.Z_FLEX gr td)%Z ->
  (m <= GenerateDxf.D_PITCH_FLEX gr td m / 2)%R.
Proof.
  intros Hm Hz. unfold GenerateDxf.D_PITCH_FLEX.
  cbn [fmul of_int RNum].
  assert (H2 : (2 <= IZR (GenerateDxf.Z_FLEX gr td))%R) by now apply IZR_le.
  nra.
Qed.

Lemma circ_radius_bound (gr td : Z) (m : R) :
  (0 < m)%R -> (2 <= GenerateDxf.Z_CIRC gr td)%Z ->
  (m <= GenerateDxf.D_PITCH_CIRC gr td m / 2)%R.
Proof.
  intros Hm Hz. unfold GenerateDxf.D_PITCH_CIRC.
  cbn [fmul of_int RNum].
  assert (H2 : (2 <= IZR (GenerateDxf.Z_CIRC gr td))%R) by now apply IZR_le.
  nra.
Qed.

(** With a positive module and at least two teeth derived, every point of
    the flex spline outline lies between the root circle, of radius
    [D_PITCH_FLEX / 2 - DEDENDUM], and the tip circle, of radius
    [D_OUTER_FLEX / 2]; whatever the number of teeth asked for and the
    density (zero excepted). *)
Theorem flex_outline_between_root_and_tip (gr td : Z) (m : R)
    (num_teeth : option Z) (n : Z) :
  n <> 0%Z -> (0 < m)%R -> (2 <= GenerateDxf.Z_FLEX gr td)%Z ->
  exists pts,
    GenerateDxf.generate_flex_spline_teeth gr td m num_teeth n = Ok pts /\
    forall p, In p pts ->
      (GenerateDxf.D_PITCH_FLEX gr td m / 2 - GenerateDxf.DEDENDUM m
       <= radius_of p <= GenerateDxf.D_OUTER_FLEX gr td m / 2)%R.
Proof.
  intros Hn Hm Hz.
  assert (Hr := flex_radius_bound gr td Hm Hz).
  destruct (@flex_teeth_length R RNum gr td m num_teeth n)
    as (pts & Hg & Heq & _).
  - exact Hn.
  - apply is_zero_R_false. change (of_int 2) with 2%R.
    change (fdiv ?a ?b) with (a / b)%R. lra.
  - exists pts. split; [exact Hg|].
    intros p Hp. subst pts. apply radial_array_In in Hp.
    destruct Hp as (k & q & _ & Hq & ->).
    apply dxf_profile_In in Hq. destruct Hq as (i & _ & ->).
    rewrite project_point_radius.
    change (of_int i / of_int n) with (IZR i / IZR n)%R.
    change (fdiv ?a (of_int 2)) with (a / 2)%R.
    assert (Hm0 : (0 <= m)%R) by lra.
    assert (Hb := tooth_profile_y_bounds (IZR i / IZR n) Hm0).
    set (y := snd (GenerateDxf.tooth_profile_point m (IZR i / IZR n))) in *.
    unfold GenerateDxf.D_OUTER_FLEX.
    cbn [fadd fmul of_int RNum].
    rewrite DEDENDUM_R in *. rewrite ADDENDUM_R in *.
    rewrite Rabs_pos_eq by lra. lra.
Qed.

Lemma flex_outline_between_root_and_tip_witness :
  exists pts,
    GenerateDxf.generate_flex_spline_teeth 100 2 0.4%R None 20 = Ok pts /\
    forall p, In p pts ->
      (GenerateDxf.D_PITCH_FLEX 100 2 0.4 / 2 - GenerateDxf.DEDENDUM 0.4
       <= radius_of p <= GenerateDxf.D_OUTER_FLEX 100 2 0.4 / 2)%R.
Proof.
  apply (@flex_outline_between_root_and_tip 100 2 0.4%R None 20).
  - lia.
  - lra.
  - unfold GenerateDxf.Z_FLEX. lia.
Defined.

(** The circular spline outline, with the same profile subtracted from the
    pitch radius, lies between the tip circle, of radius
    [D_INNER_CIRC / 2], and the root circle, of radius
    [D_PITCH_CIRC / 2 + DEDENDUM]. *)
Theorem circular_outline_between_tip_and_root (gr td : Z) (m : R)
    (num_teeth : option Z) (n : Z) :
  n <> 0%Z -> (0 < m)%R -> (2 <= GenerateDxf.Z_CIRC gr td)%Z ->
  exists pts,
    GenerateDxf.generate_circular_spline_teeth gr td m num_teeth n = Ok pts /\
    forall p, In p pts ->
      (GenerateDxf.D_INNER_CIRC gr td m / 2
       <= radius_of p
       <= GenerateDxf.D_PITCH_CIRC gr td m / 2 + GenerateDxf.DEDENDUM m)%R.
Proof.
  intros Hn Hm Hz.
  assert (Hr := circ_radius_bound gr td Hm Hz).
  exists (radial_array true (GenerateDxf.D_PITCH_CIRC gr td m / of_int 2)
            (teeth_or (GenerateDxf.Z_CIRC gr td) num_teeth) (dxf_profile m n)).
  split.
  - apply generate_circular_spline_teeth_ok.
    + now apply generate_tooth_profile_ok.
    + apply is_zero_R_false. change (of_int 2) with 2%R.
      change (fdiv ?a ?b) with (a / b)%R. lra.
  - intros p Hp. apply radial_array_In in Hp.
    destruct Hp as (k & q & _ & Hq & ->).
    apply dxf_profile_In in Hq. destruct Hq as (i & _ & ->).
    rewrite project_point_radius.
    change (of_int i / of_int n) with (IZR i / IZR n)%R.
    change (fdiv ?a (of_int 2)) with (a / 2)%R.
    assert (Hm0 : (0 <= m)%R) by lra.
    assert (Hb := tooth_profile_y_bounds (IZR i / IZR n) Hm0).
    set (y := snd (GenerateDxf.tooth_profile_point m (IZR i / IZR n))) in *.
    unfold GenerateDxf.D_INNER_CIRC.
    cbn [fsub fmul of_int RNum].
    rewrite DEDENDUM_R in *. rewrite ADDENDUM_R in *.
    rewrite Rabs_pos_eq by lra. lra.
Qed.

Lemma circular_outline_between_tip_and_root_witness :
  exists pts,
    GenerateDxf.generate_circular_spline_teeth 100 2 0.4%R None 20 = Ok pts /\
    forall p, In p pts ->
      (GenerateDxf.D_INNER_CIRC 100 2 0.4 / 2
       <= radius_of p
       <= GenerateDxf.D_PITCH_CIRC 100 2 0.4 / 2 + GenerateDxf.DEDENDUM 0.4)%R.
Proof.
  apply (@circular_outline_between_tip_and_root 100 2 0.4%R None 20).
  - lia.
  - lra.
  - unfold GenerateDxf.Z_CIRC, GenerateDxf.Z_FLEX. lia.
Defined.

(** Tooth [k] is tooth 0 turned by [2 pi k / Z]. *)
Lemma project_point_rotate (internal : bool) (r : R) (nz k : Z) (q : R * R) :
  project_point internal r nz k q =
    rotate (sample_angle nz k) (project_point internal r nz 0 q).
Proof.
  unfold project_point, rotate, sample_angle. cbn [fst snd].
  cbn [fadd fsub fmul fdiv fcos fsin fpi of_int RNum].
  set (rho := if internal then (r - snd q)%R else (r + snd q)%R).
  replace (2 * PI * 0 / IZR nz + fst q / r)%R with (fst q / r)%R
    by (unfold Rdiv; ring).
  set (t0 := (fst q / r)%R). set (phi := (2 * PI * IZR k / IZR nz)%R).
  rewrite (Rplus_comm phi t0), cos_plus, sin_plus.
  f_equal; ring.
Qed.

(** The outline is unchanged by a turn of one tooth: point [j] of tooth
    [k] is point [j] of tooth 0 rotated about the origin by
    [2 pi k / Z]. *)
Theorem flex_outline_rotational_symmetry (gr td : Z) (m : R) (z n : Z) :
  (1 <= n)%Z ->
  GenerateDxf.D_PITCH_FLEX gr td m / of_int 2 <> 0%R ->
  exists pts,
    GenerateDxf.generate_flex_spline_teeth gr td m (Some z) n = Ok pts /\
    forall k j, (0 <= k < z)%Z -> (0 <= j <= n)%Z ->
      exists p0,
        nth_error pts (Z.to_nat j) = Some p0 /\
        nth_error pts (Z.to_nat k * (Z.to_nat n + 1) + Z.to_nat j)
          = Some (rotate (sample_angle z k) p0).
Proof.
  intros Hn Hr.
  destruct (@flex_teeth_length R RNum gr td m (Some z) n)
    as (pts & Hg & Heq & _); [lia | now apply is_zero_R_false |].
  exists pts. split; [exact Hg|].
  intros k j Hk Hj. subst pts. cbn [teeth_or].
  set (r := GenerateDxf.D_PITCH_FLEX gr td m / of_int 2).
  assert (Hq := dxf_profile_nth m (n := n) (i := j) Hj).
  set (q := GenerateDxf.tooth_profile_point m (of_int j / of_int n)) in Hq.
  assert (Hlen : length (dxf_profile m n) = (Z.to_nat n + 1)%nat)
    by (rewrite dxf_profile_length; lia).
  exists (project_point false r z 0 q). split.
  - assert (H0 : (0 <= 0 < z)%Z) by lia.
    assert (Hnth := radial_array_nth false r (dxf_profile m n) (Z.to_nat j) H0 Hq).
    simpl in Hnth. exact Hnth.
  - rewrite <- Hlen.
    rewrite (radial_array_nth false r (dxf_profile m n) (Z.to_nat j) Hk Hq).
    now rewrite project_point_rotate.
Qed.

Lemma flex_outline_rotational_symmetry_witness :
  exists pts,
    GenerateDxf.generate_flex_spline_teeth (F := R) GenerateDxf.GEAR_RATIO
      GenerateDxf.TOOTH_DIFFERENCE GenerateDxf.MODULE (Some 200%Z) 20 = Ok pts /\
    exists p0,
      nth_error pts 10 = Some p0 /\
      nth_error pts (3 * 21 + 10) = Some (rotate (sample_angle 200 3) p0).
Proof.
  destruct (@flex_outline_rotational_symmetry GenerateDxf.GEAR_RATIO
              GenerateDxf.TOOTH_DIFFERENCE GenerateDxf.MODULE 200 20)
    as (pts & Hg & Hrot).
  - lia.
  - rewrite source_flex_radius. lra.
  - exists pts. split; [exact Hg|].
    apply (Hrot 3%Z 10%Z); lia.
Defined.

(** The end of a tooth is the start of the next one, when the teeth are as
    many as the pitch circle was sized for. *)
Lemma tooth_junction (internal : bool) (m : R) (nz k : Z) :
  m <> 0%R -> nz <> 0%Z ->
  project_point internal (IZR nz * m / 2)%R nz k
    (GenerateDxf.tooth_profile_point m 1%R) =
  project_point internal (IZR nz * m / 2)%R nz (k + 1)
    (GenerateDxf.tooth_profile_point m 0%R).
Proof.
  intros Hm Hz.
  assert (Hz0 : (IZR nz <> 0)%R) by now apply not_0_IZR.
  rewrite tooth_profile_point_start, tooth_profile_point_end.
  unfold project_point. cbn [fst snd].
  cbn [fadd fsub fmul fdiv fcos fsin fpi of_int RNum].
  rewrite plus_IZR.
  replace (2 * PI * (IZR k + 1) / IZR nz + - (PI * m / 2) / (IZR nz * m / 2))%R
    with (2 * PI * IZR k / IZR nz + PI * m / 2 / (IZR nz * m / 2))%R
    by (field; split; assumption).
  reflexivity.
Qed.

Lemma tooth_junction_wrap (internal : bool) (m : R) (nz : Z) :
  m <> 0%R -> nz <> 0%Z ->
  project_point internal (IZR nz * m / 2)%R nz (nz - 1)
    (GenerateDxf.tooth_profile_point m 1%R) =
  project_point internal (IZR nz * m / 2)%R nz 0
    (GenerateDxf.tooth_profile_point m 0%R).
Proof.
  intros Hm Hz.
  assert (Hz0 : (IZR nz <> 0)%R) by now apply not_0_IZR.
  rewrite tooth_profile_point_start, tooth_profile_point_end.
  unfold project_point. cbn [fst snd].
  cbn [fadd fsub fmul fdiv fcos fsin fpi of_int RNum].
  rewrite minus_IZR.
  replace (2 * PI * (IZR nz - 1) / IZR nz + PI * m / 2 / (IZR nz * m / 2))%R
    with ((2 * PI * 0 / IZR nz + - (PI * m / 2) / (IZR nz * m / 2)) + 2 * PI)%R
    by (field; split; assumption).
  set (t := (2 * PI * 0 / IZR nz + - (PI * m / 2) / (IZR nz * m / 2))%R).
  rewrite (cos_plus t), (sin_plus t), cos_2PI, sin_2PI.
  f_equal; ring.
Qed.

(** With the default tooth count, a module other than zero and a density
    [n >= 1], consecutive teeth of the flex spline outline share their end
    point: the last sample of tooth [k] is the first sample of tooth
    [k + 1], and the last sample of the last tooth is the first sample of
    the outline.  The polyline therefore holds every junction twice. *)
Theorem flex_teeth_share_end_points (gr td : Z) (m : R) (n : Z) :
  (1 <= n)%Z -> m <> 0%R -> (1 <= GenerateDxf.Z_FLEX gr td)%Z ->
  exists pts,
    GenerateDxf.generate_flex_spline_teeth gr td m None n = Ok pts /\
    (forall k, (0 <= k)%Z -> (k + 1 < GenerateDxf.Z_FLEX gr td)%Z ->
       exists p,
         nth_error pts (Z.to_nat k * (Z.to_nat n + 1) + Z.to_nat n) = Some p /\
         nth_error pts (Z.to_nat (k + 1) * (Z.to_nat n + 1)) = Some p) /\
    (exists p,
       nth_error pts
         (Z.to_nat (GenerateDxf.Z_FLEX gr td - 1) * (Z.to_nat n + 1)
          + Z.to_nat n) = Some p /\
       nth_error pts 0 = Some p).
Proof.
  intros Hn Hm Hz.
  set (nz := GenerateDxf.Z_FLEX gr td) in *.
  assert (Hz0 : (0 < IZR nz)%R) by (apply IZR_lt; lia).
  assert (Hrad : GenerateDxf.D_PITCH_FLEX gr td m / of_int 2
                 = (IZR nz * m / 2)%R) by reflexivity.
  destruct (@flex_teeth_length R RNum gr td m None n)
    as (pts & Hg & Heq & _).
  - lia.
  - apply is_zero_R_false. rewrite Hrad. intros Hc.
    assert (Hp : (IZR nz * m = 0)%R) by lra.
    apply Rmult_integral in Hp. destruct Hp; [lra | contradiction].
  - exists pts. split; [exact Hg|]. subst pts. cbn [teeth_or].
    fold nz. rewrite Hrad.
    set (r := (IZR nz * m / 2)%R).
    assert (Hlen : length (dxf_profile m n) = (Z.to_nat n + 1)%nat)
      by (rewrite dxf_profile_length; lia).
    assert (Hfirst : nth_error (dxf_profile m n) 0
                     = Some (GenerateDxf.tooth_profile_point m 0%R)).
    { change 0%nat with (Z.to_nat 0). rewrite dxf_profile_nth by lia.
      change (of_int 0 / of_int n) with (0 / IZR n)%R.
      now replace (0 / IZR n)%R with 0%R by (unfold Rdiv; ring). }
    assert (Hlast : nth_error (dxf_profile m n) (Z.to_nat n)
                    = Some (GenerateDxf.tooth_profile_point m 1%R)).
    { rewrite dxf_profile_nth by lia.
      change (of_int n / of_int n) with (IZR n / IZR n)%R.
      now replace (IZR n / IZR n)%R with 1%R
        by (field; apply not_0_IZR; lia). }
    rewrite <- Hlen. split.
    + intros k Hk0 Hk1.
      exists (project_point false r nz k (GenerateDxf.tooth_profile_point m 1%R)).
      split.
      * apply radial_array_nth; [lia | exact Hlast].
      * replace (Z.to_nat (k + 1) * length (dxf_profile m n))%nat
          with (Z.to_nat (k + 1) * length (dxf_profile m n) + 0)%nat by lia.
        assert (Hk : (0 <= k + 1 < nz)%Z) by lia.
        rewrite (radial_array_nth false r (dxf_profile m n) 0 Hk Hfirst).
        f_equal. symmetry. apply tooth_junction; [exact Hm | lia].
    + exists (project_point false r nz (nz - 1)
                (GenerateDxf.tooth_profile_point m 1%R)).
      split.
      * apply radial_array_nth; [lia | exact Hlast].
      * assert (H0 : (0 <= 0 < nz)%Z) by lia.
        unfold r. rewrite tooth_junction_wrap by (exact Hm || lia).
        exact (radial_array_nth false _ (dxf_profile m n) 0 H0 Hfirst).
Qed.

Lemma flex_teeth_share_end_points_witness :
  exists pts,
    GenerateDxf.generate_flex_spline_teeth 100 2 0.4%R None 20 = Ok pts /\
    exists p, nth_error pts (199 * 21 + 20) = Some p /\ nth_error pts 0 = Some p.
Proof.
  destruct (@flex_teeth_share_end_points 100 2 0.4%R 20)
    as (pts & Hg & _ & Hwrap).
  - lia.
  - lra.
  - unfold GenerateDxf.Z_FLEX. lia.
  - exists pts. split; [exact Hg | exact Hwrap].
Defined.

(** ** The teeth of the STEP script *)

Section InternalTooth.
Import GenerateStepFiles.
Local Open Scope R_scope.

Variables m shift : R.

Lemma r_root_R : r_root m = 1.2 * m.
Proof. unfold r_root. rewrite lit_R. cbn [fmul RNum]. lra. Qed.

Lemma internal_point_left (t : R) :
  t <= 1 / 2 ->
  internal_point m shift t =
    (- tooth_width m / 4 + r_root m * cos (PI * (1 - 2 * t)) * (1 / 2),
     - dedendum m shift + (addendum m shift + dedendum m shift) * (2 * t)).
Proof.
  intros Ht. unfold internal_point.
  rewrite fle_R_true by (rewrite lit_R; lra).
  rewrite !lit_R. cbn [fadd fsub fmul fdiv fneg of_int fcos fpi RNum].
  replace (5 / 10) with (1 / 2) by lra. reflexivity.
Qed.

Lemma internal_point_right (t : R) :
  1 / 2 < t ->
  internal_point m shift t =
    (tooth_width m / 4 - r_root m * cos (PI * (2 * t - 1)) * (1 / 2),
     addendum m shift
     - (addendum m shift + dedendum m shift) * (2 * (t - 1 / 2))).
Proof.
  intros Ht. unfold internal_point.
  rewrite fle_R_false by (rewrite lit_R; lra).
  rewrite !lit_R. cbn [fadd fsub fmul fdiv fneg of_int fcos fpi RNum].
  replace (5 / 10) with (1 / 2) by lra. reflexivity.
Qed.

Lemma internal_point_start :
  internal_point m shift 0 =
    (- (tooth_width m / 4 + r_root m / 2), - dedendum m shift).
Proof.
  rewrite internal_point_left by lra.
  replace (PI * (1 - 2 * 0)) with PI by ring. rewrite cos_PI.
  f_equal; field.
Qed.

Lemma internal_point_tip :
  internal_point m shift (1 / 2) =
    (r_root m / 2 - tooth_width m / 4, addendum m shift).
Proof.
  rewrite internal_point_left by lra.
  replace (PI * (1 - 2 * (1 / 2))) with 0 by field. rewrite cos_0.
  f_equal; field.
Qed.

Lemma internal_point_end :
  internal_point m shift 1 =
    (tooth_width m / 4 + r_root m / 2, - dedendum m shift).
Proof.
  rewrite internal_point_right by lra.
  replace (PI * (2 * 1 - 1)) with PI by ring. rewrite cos_PI.
  f_equal; field.
Qed.

Lemma internal_tip_abscissa :
  r_root m / 2 - tooth_width m / 4 = m * (0.6 - PI / 8).
Proof.
  rewrite r_root_R, tooth_width_R.
  replace 1.2 with (12 / 10) by lra. replace 0.6 with (6 / 10) by lra.
  field.
Qed.

Lemma internal_tip_off_axis :
  m <> 0 -> fst (internal_point m shift (1 / 2)) <> 0.
Proof.
  intros Hm. rewrite internal_point_tip. cbn [fst].
  rewrite internal_tip_abscissa. assert (Hpi := PI_4).
  intros Hc. apply Rmult_integral in Hc. destruct Hc; [contradiction | lra].
Qed.

Lemma internal_point_mirror (t : R) :
  t <> 1 / 2 ->
  internal_point m shift (1 - t) = mirror (internal_point m shift t).
Proof.
  intros Ht. unfold mirror.
  destruct (Rtotal_order t (1 / 2)) as [Hlt | [Heq | Hgt]];
    [| contradiction |].
  - rewrite (internal_point_left (t := t)) by lra.
    rewrite internal_point_right by lra. cbn [fst snd].
    replace (PI * (2 * (1 - t) - 1)) with (PI * (1 - 2 * t)) by ring.
    f_equal; field.
  - rewrite (internal_point_right (t := t)) by lra.
    rewrite internal_point_left by lra. cbn [fst snd].
    replace (PI * (1 - 2 * (1 - t))) with (PI * (2 * t - 1)) by ring.
    f_equal; field.
Qed.

Lemma internal_y_bounds (t : R) :
  0 <= addendum m shift + dedendum m shift -> 0 <= t <= 1 ->
  - dedendum m shift <= snd (internal_point m shift t) <= addendum m shift.
Proof.
  intros Hh Ht. destruct (Rle_dec t (1 / 2)) as [Hl | Hr].
  - rewrite internal_point_left by assumption. cbn [snd]. split; nra.
  - rewrite internal_point_right by lra. cbn [snd]. split; nra.
Qed.
End InternalTooth.

(** The internal branch of [generate_s_curve_tooth_points]: the height is
    linear on each half, from [-dedendum] at [t = 0] up to [addendum] at
    [t = 1/2] and back to [-dedendum] at [t = 1], and stays between the two
    when the tooth height is not negative; the flanks end at
    [x = -(w/4 + r_root/2)] and [x = w/4 + r_root/2].  The tip sample is not
    on the midline: its abscissa is [module (0.6 - pi / 8)], which is not
    zero unless the module is. *)
Theorem internal_tooth_shape (m shift : R) :
  let w := GenerateStepFiles.tooth_width m in
  let rr := GenerateStepFiles.r_root m in
  let A := GenerateStepFiles.addendum m shift in
  let D := GenerateStepFiles.dedendum m shift in
  let point := GenerateStepFiles.internal_point m shift in
  (forall t, (t <= 1 / 2)%R -> snd (point t) = (- D + (A + D) * (2 * t))%R)
  /\ (forall t, (1 / 2 <= t)%R -> snd (point t) = (A - (A + D) * (2 * t - 1))%R)
  /\ point 0%R = ((- (w / 4 + rr / 2))%R, (- D)%R)
  /\ point (1 / 2)%R = ((m * (0.6 - PI / 8))%R, A)
  /\ point 1%R = ((w / 4 + rr / 2)%R, (- D)%R)
  /\ (m <> 0%R -> fst (point (1 / 2)%R) <> 0%R)
  /\ ((0 <= A + D)%R -> forall t, (0 <= t <= 1)%R ->
        (- D <= snd (point t) <= A)%R).
Proof.
  intros w rr A D point. subst point.
  split; [|split; [|split; [|split; [|split; [|split]]]]].
  - intros t Ht. now rewrite internal_point_left.
  - intros t [Ht | <-].
    + rewrite internal_point_right by exact Ht. cbn [snd]. subst A D. field.
    + rewrite internal_point_left by lra. cbn [snd]. subst A D. field.
  - apply internal_point_start.
  - rewrite internal_point_tip. now rewrite internal_tip_abscissa.
  - apply internal_point_end.
  - apply internal_tip_off_axis.
  - intros Hh t Ht. now apply internal_y_bounds.
Qed.

Lemma internal_tooth_shape_witness :
  fst (GenerateStepFiles.internal_point 0.4%R (-0.2)%R (1 / 2)%R) <> 0%R.
Proof.
  apply (proj1 (proj2 (proj2 (proj2 (proj2 (proj2
           (internal_tooth_shape 0.4%R (-0.2)%R))))))).
  lra.
Defined.

Lemma half_ratio_even (n i : Z) :
  (2 <= n)%Z -> Z.even n = true -> (IZR i / IZR (n - 1) <> 1 / 2)%R.
Proof.
  intros Hn He Hc.
  assert (Hd : (IZR (n - 1) <> 0)%R) by (apply not_0_IZR; lia).
  assert (H2 : (2 * IZR i = IZR (n - 1))%R).
  { apply (f_equal (fun x => (2 * IZR (n - 1) * x)%R)) in Hc.
    field_simplify in Hc; [lra | exact Hd]. }
  rewrite <- mult_IZR in H2. apply eq_IZR in H2.
  apply Zeven_bool_iff in He. destruct (Zeven_ex n He) as [h Hh]. lia.
Qed.

(** In exact arithmetic: asked for an even number of samples, the internal
    branch returns a sequence that is its own mirror image; asked for an odd
    number (3 or more) with a module other than zero it does not, because of
    its middle sample, which is the tip and lies off the midline.  The
    symmetry is one of the formulas, not of their binary64 values: with
    module 0.4, profile shift -0.2 and 16 samples, the mirrored samples 7
    and 8 come out at the heights 0.07200000000000006 and
    0.07200000000000005, whatever the cosine and the value of [math.pi]. *)
Theorem internal_profile_mirror (m shift : R) (n : Z) :
  ((2 <= n)%Z -> Z.even n = true ->
   exists pts,
     GenerateStepFiles.generate_s_curve_tooth_points m shift n true = Ok pts /\
     length pts = Z.to_nat n /\
     map mirror (rev pts) = pts)
  /\ ((3 <= n)%Z -> Z.odd n = true -> m <> 0%R ->
   exists pts,
     GenerateStepFiles.generate_s_curve_tooth_points m shift n true = Ok pts /\
     length pts = Z.to_nat n /\
     map mirror (rev pts) <> pts)
  /\ (forall (c s : float -> float) (p : float),
      let N := Binary64 c s p in
      exists pts x7 x8,
        GenerateStepFiles.generate_s_curve_tooth_points
          (lit 4 10) (- lit 2 10)%py 16 true = Ok pts /\
        length pts = 16%nat /\
        nth_error pts 7 = Some (x7, 0.07200000000000006%float) /\
        nth_error pts 8 = Some (x8, 0.07200000000000005%float)).
Proof.
  split; [|split].
  - intros Hn He. exists (step_profile m shift n true).
    split; [apply generate_s_curve_tooth_points_ok; lia|].
    split; [apply step_profile_length|].
    apply mirror_sequence. intros k p Hk.
    assert (Hlt : (k < length (step_profile m shift n true))%nat)
      by (apply nth_error_Some; congruence).
    rewrite step_profile_length in *.
    replace k with (Z.to_nat (Z.of_nat k)) in Hk by lia.
    rewrite step_profile_nth in Hk by lia. injection Hk as <-.
    replace (Z.to_nat n - S k)%nat with (Z.to_nat (n - 1 - Z.of_nat k))
      by lia.
    rewrite step_profile_nth by lia. cbv zeta.
    change (of_int (n - 1 - Z.of_nat k) / of_int (n - 1))%py
      with (IZR (n - 1 - Z.of_nat k) / IZR (n - 1))%R.
    rewrite mirrored_ratio by lia.
    rewrite internal_point_mirror; [reflexivity|].
    now apply half_ratio_even.
  - intros Hn Ho Hm. exists (step_profile m shift n true).
    split; [apply generate_s_curve_tooth_points_ok; lia|].
    split; [apply step_profile_length|].
    intros Heq.
    apply Zodd_bool_iff in Ho. destruct (Zodd_ex n Ho) as [h Hh].
    assert (Hmid : nth_error (step_profile m shift n true) (Z.to_nat h)
                   = Some (GenerateStepFiles.internal_point m shift (1 / 2)%R)).
    { rewrite step_profile_nth by lia. cbv zeta.
      change (of_int h / of_int (n - 1))%py with (IZR h / IZR (n - 1))%R.
      replace (IZR h / IZR (n - 1))%R with (1 / 2)%R; [reflexivity|].
      replace (n - 1)%Z with (2 * h)%Z by lia. rewrite mult_IZR.
      field. apply not_0_IZR. lia. }
    assert (Hrev : nth_error (map mirror (rev (step_profile m shift n true)))
                     (Z.to_nat h)
                   = Some (mirror (GenerateStepFiles.internal_point m shift
                                     (1 / 2)%R))).
    { rewrite nth_error_map, nth_error_rev, step_profile_length.
      destruct (Nat.ltb_spec (Z.to_nat h) (Z.to_nat n)) as [_ | Hc]; [|lia].
      replace (Z.to_nat n - S (Z.to_nat h))%nat with (Z.to_nat h) by lia.
      now rewrite Hmid. }
    rewrite Heq, Hmid in Hrev. injection Hrev as Hx.
    apply (f_equal fst) in Hx. unfold mirror in Hx. cbn [fst] in Hx.
    apply (internal_tip_off_axis shift Hm). lra.
  - intros c s p N.
    set (pts := step_profile (lit 4 10) (- lit 2 10)%py 16 true).
    exists pts,
      (fst (GenerateStepFiles.internal_point (lit 4 10) (- lit 2 10)%py
              (of_int 7 / of_int 15)%py)),
      (fst (GenerateStepFiles.internal_point (lit 4 10) (- lit 2 10)%py
              (of_int 8 / of_int 15)%py)).
    split; [apply generate_s_curve_tooth_points_ok; lia|].
    split; [apply step_profile_length|].
    split.
    + change 7%nat with (Z.to_nat 7). unfold pts.
      rewrite step_profile_nth by lia. cbv zeta.
      change (16 - 1)%Z with 15%Z.
      rewrite (surjective_pairing (GenerateStepFiles.internal_point _ _ _)) at 1.
      apply f_equal. apply f_equal. vm_compute. reflexivity.
    + change 8%nat with (Z.to_nat 8). unfold pts.
      rewrite step_profile_nth by lia. cbv zeta.
      change (16 - 1)%Z with 15%Z.
      rewrite (surjective_pairing (GenerateStepFiles.internal_point _ _ _)) at 1.
      apply f_equal. apply f_equal. vm_compute. reflexivity.
Qed.

Lemma internal_profile_mirror_witness :
  (exists pts,
     GenerateStepFiles.generate_s_curve_tooth_points 0.4%R (-0.2)%R 16 true
       = Ok pts /\
     length pts = 16%nat /\ map mirror (rev pts) = pts) /\
  (exists pts,
     GenerateStepFiles.generate_s_curve_tooth_points 0.4%R (-0.2)%R 17 true
       = Ok pts /\
     length pts = 17%nat /\ map mirror (rev pts) <> pts).
Proof.
  split.
  - apply (proj1 (internal_profile_mirror 0.4%R (-0.2)%R 16)); [lia | reflexivity].
  - apply (proj1 (proj2 (internal_profile_mirror 0.4%R (-0.2)%R 17)));
      [lia | reflexivity | lra].
Defined.

(** The profile shift moves a tooth radially and changes nothing else: the
    tooth height [addendum + dedendum] is [1.8 module] whatever the shift,
    and every sample of either variant is the sample of the unshifted tooth
    raised by the shift. *)
Theorem profile_shift_translates (m shift t : R) :
  (GenerateStepFiles.addendum m shift + GenerateStepFiles.dedendum m shift
   = 1.8 * m)%R /\
  GenerateStepFiles.external_point m shift t =
    (fst (GenerateStepFiles.external_point m 0%R t),
     (snd (GenerateStepFiles.external_point m 0%R t) + shift)%R) /\
  GenerateStepFiles.internal_point m shift t =
    (fst (GenerateStepFiles.internal_point m 0%R t),
     (snd (GenerateStepFiles.internal_point m 0%R t) + shift)%R).
Proof.
  assert (Hh : forall s, (GenerateStepFiles.addendum m s
                          + GenerateStepFiles.dedendum m s = 1.8 * m)%R)
    by (intros s; rewrite addendum_R, dedendum_R; lra).
  split; [apply Hh|].
  destruct (Rle_dec t (1 / 2)) as [Hl | Hr].
  - rewrite !external_point_left, !internal_point_left by exact Hl.
    cbn [fst snd]. rewrite !Hh, !dedendum_R. split; f_equal; ring.
  - rewrite !external_point_right, !internal_point_right by lra.
    cbn [fst snd]. rewrite !Hh, !dedendum_R, !addendum_R. split; f_equal; ring.
Qed.

(** ** Derived dimensions *)

Section DerivedDimensions.
Import GenerateDxf.
Local Open Scope R_scope.

Variables gr td : Z.
Variable m : R.

Let Zf : R := IZR (Z_FLEX gr td).

Lemma D_PITCH_FLEX_R : D_PITCH_FLEX gr td m = Zf * m.
Proof. reflexivity. Qed.

Lemma D_OUTER_FLEX_R : D_OUTER_FLEX gr td m = Zf * m + 1.6 * m.
Proof.
  unfold D_OUTER_FLEX. rewrite ADDENDUM_R, D_PITCH_FLEX_R.
  cbn [fadd fmul of_int RNum]. lra.
Qed.

Lemma T_WALL_R : T_WALL gr td m = Zf * m / 100.
Proof.
  unfold T_WALL. rewrite lit_R, D_PITCH_FLEX_R. cbn [fmul RNum]. lra.
Qed.

Lemma D_INNER_FLEX_R : D_INNER_FLEX gr td m = 0.98 * (Zf * m) + 1.6 * m.
Proof.
  unfold D_INNER_FLEX. rewrite D_OUTER_FLEX_R, T_WALL_R.
  cbn [fsub fmul of_int RNum]. lra.
Qed.

Lemma ELLIPSE_MAJOR_R :
  ELLIPSE_MAJOR gr td m = D_INNER_FLEX gr td m + 4.5 * m.
Proof.
  unfold ELLIPSE_MAJOR, RADIAL_DEFLECTION. rewrite lit_R.
  cbn [fadd fmul of_int RNum]. lra.
Qed.

Lemma ELLIPSE_MINOR_R :
  ELLIPSE_MINOR gr td m = D_INNER_FLEX gr td m - 0.1.
Proof.
  unfold ELLIPSE_MINOR. rewrite lit_R. cbn [fsub RNum]. lra.
Qed.
End DerivedDimensions.

(** The wall of the flex spline: half the difference of the outer and inner
    diameters is [T_WALL], one hundredth of the pitch diameter; the material
    left between the bore and the root circle of the teeth is
    [(Z_FLEX / 100 - 1.8) module] thick, so with a positive module the bore
    lies inside the root circle exactly when there are more than 180
    teeth. *)
Theorem flex_bore_inside_root_circle (gr td : Z) (m : R) :
  let root_diameter :=
    (GenerateDxf.D_PITCH_FLEX gr td m - 2 * GenerateDxf.DEDENDUM m)%R in
  ((GenerateDxf.D_OUTER_FLEX gr td m - GenerateDxf.D_INNER_FLEX gr td m) / 2
   = GenerateDxf.T_WALL gr td m)%R /\
  (GenerateDxf.T_WALL gr td m = GenerateDxf.D_PITCH_FLEX gr td m / 100)%R /\
  ((root_diameter - GenerateDxf.D_INNER_FLEX gr td m) / 2
   = (IZR (GenerateDxf.Z_FLEX gr td) / 100 - 1.8) * m)%R /\
  ((0 < m)%R ->
   (GenerateDxf.D_INNER_FLEX gr td m < root_diameter)%R
   <-> (180 < GenerateDxf.Z_FLEX gr td)%Z).
Proof.
  intros root_diameter. subst root_diameter.
  rewrite D_INNER_FLEX_R, D_OUTER_FLEX_R, T_WALL_R, D_PITCH_FLEX_R, DEDENDUM_R.
  set (z := IZR (GenerateDxf.Z_FLEX gr td)).
  split; [lra|]. split; [lra|]. split; [lra|].
  intros Hm. split.
  - intros Hlt. apply lt_IZR. fold z. nra.
  - intros Hz. apply IZR_lt in Hz. fold z in Hz. nra.
Qed.

Lemma flex_bore_inside_root_circle_witness :
  (GenerateDxf.D_INNER_FLEX 100 2 0.4
   < GenerateDxf.D_PITCH_FLEX 100 2 0.4 - 2 * GenerateDxf.DEDENDUM 0.4)%R.
Proof.
  assert (Hm : (0 < 0.4)%R) by lra.
  apply (proj2 (proj2 (proj2 (proj2 (flex_bore_inside_root_circle 100 2 0.4%R))) Hm)).
  unfold GenerateDxf.Z_FLEX. lia.
Defined.

(** ** The cam of the wave generator *)

Lemma ellipse_radius_bounds (a b t : R) :
  (0 <= b)%R -> (b <= a)%R ->
  (b <= radius_of (a * cos t, b * sin t) <= a)%R.
Proof.
  intros Hb Hab. unfold radius_of. cbn [fst snd].
  assert (H1 : (Rsqr (sin t) + Rsqr (cos t) = 1)%R) by apply sin2_cos2.
  unfold Rsqr in H1.
  assert (Hc : (0 <= cos t * cos t)%R) by nra.
  assert (Hs : (0 <= sin t * sin t)%R) by nra.
  set (s := (a * cos t * (a * cos t) + b * sin t * (b * sin t))%R).
  set (C := (cos t * cos t)%R) in *.
  assert (Hs' : (s = b * b + (a * a - b * b) * C)%R).
  { unfold s, C.
    replace (b * sin t * (b * sin t))%R with (b * b * (sin t * sin t))%R
      by ring.
    replace (sin t * sin t)%R with (1 - cos t * cos t)%R by (fold C; lra).
    ring. }
  assert (HC1 : (C <= 1)%R) by lra.
  assert (Hab2 : (0 <= a * a - b * b)%R) by nra.
  assert (Hp0 : (0 <= (a * a - b * b) * C)%R)
    by (apply Rmult_le_pos; assumption).
  assert (Hp1 : ((a * a - b * b) * C <= (a * a - b * b) * 1)%R)
    by (apply Rmult_le_compat_l; assumption).
  assert (Hlo : (b * b <= s)%R) by lra.
  assert (Hhi : (s <= a * a)%R) by lra.
  assert (Hbb : (0 <= b * b)%R) by nra.
  split.
  - apply Rle_trans with (sqrt (b * b)).
    + rewrite sqrt_square by exact Hb. lra.
    + apply sqrt_le_1; lra.
  - apply Rle_trans with (sqrt (a * a)).
    + apply sqrt_le_1; lra.
    + rewrite sqrt_square by lra. lra.
Qed.

(** For every input with a module that is not negative and a positive
    minor axis, the cam outline [generate_ellipse(ELLIPSE_MAJOR,
    ELLIPSE_MINOR, n)] starts on the major axis, at the bore radius of the
    flex spline plus [RADIAL_DEFLECTION], and every one of its points lies
    between the bore radius less 0.05 and the bore radius plus
    [RADIAL_DEFLECTION] from the centre. *)
Theorem cam_deflects_the_bore (gr td : Z) (m : R) (n : Z) :
  (1 <= n)%Z -> (0 <= m)%R -> (0 < GenerateDxf.ELLIPSE_MINOR gr td m)%R ->
  let bore := (GenerateDxf.D_INNER_FLEX gr td m / 2)%R in
  exists pts,
    GenerateDxf.generate_ellipse (GenerateDxf.ELLIPSE_MAJOR gr td m)
      (GenerateDxf.ELLIPSE_MINOR gr td m) n = Ok pts /\
    nth_error pts 0
      = Some ((bore + GenerateDxf.RADIAL_DEFLECTION m)%R, 0%R) /\
    forall p, In p pts ->
      (bore - 0.05 <= radius_of p
       <= bore + GenerateDxf.RADIAL_DEFLECTION m)%R.
Proof.
  intros Hn Hm Hminor bore.
  assert (Hdefl : GenerateDxf.RADIAL_DEFLECTION m = (2.25 * m)%R)
    by (unfold GenerateDxf.RADIAL_DEFLECTION; rewrite lit_R;
        cbn [fmul RNum]; lra).
  assert (Hmaj := ELLIPSE_MAJOR_R gr td m).
  assert (Hmin := ELLIPSE_MINOR_R gr td m).
  rewrite generate_ellipse_ok by exact Hn.
  eexists. split; [reflexivity|]. split.
  - destruct (range_pos_head Hn) as [tl ->]. cbn [map app nth_error].
    rewrite ellipse_point_R. unfold sample_angle.
    replace (2 * PI * 0 / IZR n)%R with 0%R by (unfold Rdiv; ring).
    rewrite cos_0, sin_0, Hdefl, Hmaj. subst bore. f_equal. f_equal; lra.
  - intros p Hp. apply generate_ellipse_In in Hp. destruct Hp as (i & ->).
    rewrite ellipse_point_R.
    assert (Hb := @ellipse_radius_bounds
                    (GenerateDxf.ELLIPSE_MAJOR gr td m / 2)
                    (GenerateDxf.ELLIPSE_MINOR gr td m / 2)
                    (sample_angle n i)).
    rewrite Hdefl. subst bore. rewrite Hmaj, Hmin in *. lra.
Qed.

Lemma cam_deflects_the_bore_witness :
  exists pts,
    GenerateDxf.generate_ellipse (GenerateDxf.ELLIPSE_MAJOR 100 2 0.4%R)
      (GenerateDxf.ELLIPSE_MINOR 100 2 0.4%R) 360 = Ok pts /\
    nth_error pts 0
      = Some ((GenerateDxf.D_INNER_FLEX 100 2 0.4 / 2
               + GenerateDxf.RADIAL_DEFLECTION 0.4)%R, 0%R).
Proof.
  destruct (@cam_deflects_the_bore 100 2 0.4%R 360) as (pts & Hg & H0 & _).
  - lia.
  - lra.
  - rewrite ELLIPSE_MINOR_R, D_INNER_FLEX_R.
    change (GenerateDxf.Z_FLEX 100 2) with 200%Z. lra.
  - exists pts. split; [exact Hg | exact H0].
Defined.

(** ** The two scripts side by side *)

(** Given the same inputs the two scripts derive the same dimensions, in
    any arithmetic, where both derive them.  The STEP script however writes
    the fillet radius (2.0) and the ring height (13.6) as literals, where
    the DXF script derives them from the pitch diameter: in exact arithmetic
    each pair agrees exactly when the flex pitch diameter is 80. *)
Theorem scripts_agree_on_dimensions :
  (forall (F : Type) (N : PyNum F) (gr td : Z) (m : F),
      GenerateDxf.ADDENDUM m = GenerateStepFiles.ADDENDUM_MM m /\
      GenerateDxf.DEDENDUM m = GenerateStepFiles.DEDENDUM_MM m /\
      GenerateDxf.TOOTH_HEIGHT m = GenerateStepFiles.TOOTH_HEIGHT_MM m /\
      GenerateDxf.D_OUTER_FLEX gr td m = GenerateStepFiles.FLEX_OUTER_DIA gr td m /\
      GenerateDxf.T_WALL gr td m = GenerateStepFiles.FLEX_WALL gr td m /\
      GenerateDxf.D_INNER_FLEX gr td m = GenerateStepFiles.FLEX_INNER_DIA gr td m /\
      GenerateDxf.CUP_DEPTH gr td m = GenerateStepFiles.FLEX_CUP_DEPTH gr td m /\
      GenerateDxf.BASE_THICKNESS gr td m
        = GenerateStepFiles.FLEX_BASE_THICK gr td m /\
      GenerateDxf.TOOTH_ZONE_WIDTH gr td m
        = GenerateStepFiles.FLEX_TOOTH_ZONE gr td m /\
      GenerateDxf.D_INNER_CIRC gr td m = GenerateStepFiles.CIRC_INNER_DIA gr td m /\
      GenerateDxf.ELLIPSE_MAJOR gr td m = GenerateStepFiles.WAVE_MAJOR gr td m /\
      GenerateDxf.ELLIPSE_MINOR gr td m = GenerateStepFiles.WAVE_MINOR gr td m)
  /\ (forall (gr td : Z) (m : R),
      (GenerateDxf.FILLET_RADIUS gr td m = GenerateStepFiles.FLEX_FILLET
       <-> GenerateDxf.D_PITCH_FLEX gr td m = 80%R) /\
      (GenerateDxf.RING_HEIGHT gr td m = GenerateStepFiles.CIRC_HEIGHT
       <-> GenerateDxf.D_PITCH_FLEX gr td m = 80%R)).
Proof.
  split.
  - intros. repeat split.
  - intros gr td m.
    unfold GenerateDxf.FILLET_RADIUS, GenerateDxf.RING_HEIGHT,
      GenerateDxf.TOOTH_ZONE_WIDTH, GenerateStepFiles.FLEX_FILLET,
      GenerateStepFiles.CIRC_HEIGHT.
    rewrite T_WALL_R, D_PITCH_FLEX_R, !lit_R.
    cbn [fadd fmul of_int RNum].
    set (d := (IZR (GenerateDxf.Z_FLEX gr td) * m)%R).
    split; split; intros Hd; lra.
Qed.

(** ** The tooth slots of the STEP solids *)

Section Slots.
Import GenerateStepFiles.
Context {F : Type} `{PyNum F}.
Variables (gr td : Z) (m : F).

Lemma flex_spline_simple_slots_ok :
  flex_spline_simple_slots gr td m = Ok (map (flex_slot gr td m) (range (Z_FLEX gr td))).
Proof.
  unfold flex_spline_simple_slots. apply for_each_map.
  intros i Hi. apply range_In in Hi.
  now rewrite float_div_int_ok by lia.
Qed.

Lemma circular_spline_slots_ok :
  circular_spline_slots gr td m = Ok (map (circular_slot gr td m) (range (Z_CIRC gr td))).
Proof.
  unfold circular_spline_slots. apply for_each_map.
  intros i Hi. apply range_In in Hi.
  now rewrite float_div_int_ok by lia.
Qed.
End Slots.

(** The slot loops never raise and cut one slot per tooth, [360 / Z]
    degrees apart.  In exact arithmetic every slot of the flex spline
    reaches radially from the root circle [(pitch - 2 dedendum) / 2] to the
    tip circle [FLEX_OUTER_DIA / 2], every slot of the circular spline from
    its tip circle [CIRC_INNER_DIA / 2] to its root circle
    [(pitch + 2 dedendum) / 2], and a slot is 0.4 circular pitch wide. *)
Theorem tooth_slots_span_the_teeth (gr td : Z) (m : R) :
  (exists slots,
      GenerateStepFiles.flex_spline_simple_slots gr td m = Ok slots /\
      length slots = Z.to_nat (GenerateStepFiles.Z_FLEX gr td) /\
      forall i s, (0 <= i < GenerateStepFiles.Z_FLEX gr td)%Z ->
        nth_error slots (Z.to_nat i) = Some s ->
        (GenerateStepFiles.slot_angle s
           = IZR i * 360 / IZR (GenerateStepFiles.Z_FLEX gr td) /\
         GenerateStepFiles.slot_position s - GenerateStepFiles.slot_depth s / 2
           = (GenerateStepFiles.PITCH_DIA_FLEX_MM gr td m
              - 2 * GenerateStepFiles.DEDENDUM_MM m) / 2 /\
         GenerateStepFiles.slot_position s + GenerateStepFiles.slot_depth s / 2
           = GenerateStepFiles.FLEX_OUTER_DIA gr td m / 2 /\
         GenerateStepFiles.slot_width s = 0.4 * (PI * m))%R)
  /\
  (exists slots,
      GenerateStepFiles.circular_spline_slots gr td m = Ok slots /\
      length slots = Z.to_nat (GenerateStepFiles.Z_CIRC gr td) /\
      forall i s, (0 <= i < GenerateStepFiles.Z_CIRC gr td)%Z ->
        nth_error slots (Z.to_nat i) = Some s ->
        (GenerateStepFiles.slot_angle s
           = IZR i * 360 / IZR (GenerateStepFiles.Z_CIRC gr td) /\
         GenerateStepFiles.slot_position s - GenerateStepFiles.slot_depth s / 2
           = GenerateStepFiles.CIRC_INNER_DIA gr td m / 2 /\
         GenerateStepFiles.slot_position s + GenerateStepFiles.slot_depth s / 2
           = (GenerateStepFiles.PITCH_DIA_CIRC_MM gr td m
              + 2 * GenerateStepFiles.DEDENDUM_MM m) / 2 /\
         GenerateStepFiles.slot_width s = 0.4 * (PI * m))%R).
Proof.
  split.
  - rewrite flex_spline_simple_slots_ok. eexists. split; [reflexivity|].
    split; [now rewrite length_map, range_length|].
    intros i s Hi Hs.
    rewrite nth_error_map, range_nth_error in Hs by lia.
    cbn [option_map] in Hs. rewrite Z2Nat.id in Hs by lia.
    injection Hs as <-. cbn [flex_slot GenerateStepFiles.slot_angle
      GenerateStepFiles.slot_position GenerateStepFiles.slot_depth
      GenerateStepFiles.slot_width].
    unfold GenerateStepFiles.FLEX_OUTER_DIA, GenerateStepFiles.TOOTH_HEIGHT_MM,
      GenerateStepFiles.ADDENDUM_MM, GenerateStepFiles.DEDENDUM_MM.
    rewrite !lit_R. cbn [fadd fsub fmul fdiv of_int fpi RNum].
    repeat split; lra.
  - rewrite circular_spline_slots_ok. eexists. split; [reflexivity|].
    split; [now rewrite length_map, range_length|].
    intros i s Hi Hs.
    rewrite nth_error_map, range_nth_error in Hs by lia.
    cbn [option_map] in Hs. rewrite Z2Nat.id in Hs by lia.
    injection Hs as <-. cbn [circular_slot GenerateStepFiles.slot_angle
      GenerateStepFiles.slot_position GenerateStepFiles.slot_depth
      GenerateStepFiles.slot_width].
    unfold GenerateStepFiles.CIRC_INNER_DIA, GenerateStepFiles.TOOTH_HEIGHT_MM,
      GenerateStepFiles.ADDENDUM_MM, GenerateStepFiles.DEDENDUM_MM.
    rewrite !lit_R. cbn [fadd fsub fmul fdiv of_int fpi RNum].
    repeat split; lra.
Qed.

(** ** The drawings *)

Section Drawings.
Import GenerateDxf.
Context {F : Type} `{PyNum F}.
Variables (gr td : Z) (m : F).
Variables str_float format_6f : F -> string.

Lemma script_bind_lift_ok {A B} (a : A) (k : A -> script F B) files :
  script_bind (lift (Ok a)) k files = k a files.
Proof. reflexivity. Qed.

Lemma script_bind_lift_raise {A B} (e : exn) (k : A -> script F B) files :
  script_bind (lift (Raise e)) k files = (files, Raise e).
Proof. reflexivity. Qed.

Lemma script_bind_write {B} (f : file F) (k : unit -> script F B) files :
  script_bind (write_file f) k files = k tt (files ++ [f]).
Proof. reflexivity. Qed.

Lemma bolt_hole_loop :
  for_each (range BOLT_HOLES) (fun i =>
    angle <- float_div_int ((of_int 2 * fpi) * of_int i) BOLT_HOLES ;;
    let x := (BOLT_CIRCLE / of_int 2) * fcos angle in
    let y := (BOLT_CIRCLE / of_int 2) * fsin angle in
    Ok [ Circle (x, y) (BOLT_HOLE_DIA / of_int 2) "HOLES" ])
  = Ok (map (fun i => Circle (ellipse_point BOLT_CIRCLE BOLT_CIRCLE BOLT_HOLES i)
                        (BOLT_HOLE_DIA / of_int 2) "HOLES")
            (range BOLT_HOLES)).
Proof.
  apply for_each_map. intros i _.
  rewrite float_div_int_ok by (unfold BOLT_HOLES; lia). reflexivity.
Qed.

Lemma circular_teeth_zero_radius (num_teeth : option Z) (n : Z) :
  (1 <= n)%Z ->
  (1 <= teeth_or (Z_CIRC gr td) num_teeth)%Z ->
  is_zero (D_PITCH_CIRC gr td m / of_int 2) = true ->
  generate_circular_spline_teeth gr td m num_teeth n = Raise ZeroDivisionError.
Proof.
  intros Hn Hz Hr. unfold generate_circular_spline_teeth.
  rewrite generate_tooth_profile_ok by lia. cbn [bind].
  unfold teeth_or in Hz.
  destruct (range_pos_head Hz) as [tl ->].
  apply for_each_raise_head.
  rewrite float_div_int_ok by lia. cbn [bind].
  unfold dxf_profile.
  assert (Hn1 : (1 <= n + 1)%Z) by lia.
  destruct (range_pos_head Hn1) as [tl' ->]. cbn [map].
  apply for_each_raise_head.
  destruct (tooth_profile_point m (of_int 0 / of_int n)) as [px py].
  unfold float_div. now rewrite Hr.
Qed.

Lemma generate_circular_spline_teeth_no_teeth num_teeth n profile :
  generate_tooth_profile m n = Ok profile ->
  (teeth_or (Z_CIRC gr td) num_teeth <= 0)%Z ->
  generate_circular_spline_teeth gr td m num_teeth n = Ok [].
Proof.
  intros Hp Hz. unfold generate_circular_spline_teeth. rewrite Hp. simpl.
  unfold teeth_or in Hz. now rewrite range_nonpos.
Qed.
End Drawings.

(** With [ezdxf] present and pitch radii that do not compare equal to zero,
    [create_dxf_files] writes three drawings, in this order and complete:
    [flex_spline.dxf] with the closed TEETH polyline of
    [generate_flex_spline_teeth()] ([Z_FLEX * 21] points) and the INNER
    circle; [circular_spline.dxf] with the OUTER circle, the closed TEETH
    polyline of [generate_circular_spline_teeth()] ([Z_CIRC * 21] points) and
    one HOLES circle per bolt, centred on the first [BOLT_HOLES] points of
    [generate_circle(BOLT_CIRCLE, BOLT_HOLES)]; [wave_generator.dxf] with the
    closed CAM polyline of 361 points, whose last point already repeats its
    first, and the BEARING, HUB and BORE circles. *)
Theorem dxf_drawings (F : Type) (N : PyNum F) (gr td : Z) (m : F)
    (str_float format_6f : F -> string) :
  is_zero (GenerateDxf.D_PITCH_FLEX gr td m / of_int 2) = false ->
  is_zero (GenerateDxf.D_PITCH_CIRC gr td m / of_int 2) = false ->
  exists flex_teeth circ_teeth cam centres p0,
    GenerateDxf.generate_flex_spline_teeth gr td m None 20 = Ok flex_teeth /\
    length flex_teeth = (Z.to_nat (GenerateDxf.Z_FLEX gr td) * 21)%nat /\
    GenerateDxf.generate_circular_spline_teeth gr td m None 20 = Ok circ_teeth /\
    length circ_teeth = (Z.to_nat (GenerateDxf.Z_CIRC gr td) * 21)%nat /\
    GenerateDxf.generate_circle GenerateDxf.BOLT_CIRCLE GenerateDxf.BOLT_HOLES
      = Ok (centres ++ [p0]) /\
    length centres = 6%nat /\
    GenerateDxf.generate_ellipse (GenerateDxf.ELLIPSE_MAJOR gr td m)
      (GenerateDxf.ELLIPSE_MINOR gr td m) 360 = Ok cam /\
    length cam = 361%nat /\
    nth_error cam 360 = nth_error cam 0 /\
    GenerateDxf.create_dxf_files gr td m str_float format_6f true [] =
      ([ DxfFile "flex_spline.dxf"
           [ Lwpolyline flex_teeth true "TEETH";
             Circle (of_int 0, of_int 0)
               (GenerateDxf.D_INNER_FLEX gr td m / of_int 2) "INNER" ];
         DxfFile "circular_spline.dxf"
           (Circle (of_int 0, of_int 0)
              (GenerateDxf.D_OUTER_CIRC / of_int 2) "OUTER"
            :: Lwpolyline circ_teeth true "TEETH"
            :: map (fun c => Circle c (GenerateDxf.BOLT_HOLE_DIA / of_int 2)
                               "HOLES") centres);
         DxfFile "wave_generator.dxf"
           [ Lwpolyline cam true "CAM";
             Circle (of_int 0, of_int 0)
               (GenerateDxf.BEARING_OD / of_int 2) "BEARING";
             Circle (of_int 0, of_int 0)
               (GenerateDxf.BEARING_ID / of_int 2) "HUB";
             Circle (of_int 0, of_int 0)
               (GenerateDxf.HUB_BORE / of_int 2) "BORE" ] ],
       Ok tt).
Proof.
  intros Hrf Hrc.
  destruct (@flex_teeth_length F N gr td m None 20)
    as (flex_teeth & Hf & _ & Hfl); [lia | exact Hrf |].
  destruct (@circular_teeth_length F N gr td m None 20)
    as (circ_teeth & Hc & Hcl); [lia | exact Hrc |].
  assert (H360 : (1 <= 360)%Z) by lia.
  destruct (generate_ellipse_closed (GenerateDxf.ELLIPSE_MAJOR gr td m)
              (GenerateDxf.ELLIPSE_MINOR gr td m) H360)
    as (cam & c0 & Hcam & Hcaml & Hcam0 & Hcamn).
  set (a := GenerateDxf.BOLT_CIRCLE (F := F)).
  exists flex_teeth, circ_teeth, cam,
    (map (ellipse_point a a GenerateDxf.BOLT_HOLES)
       (range GenerateDxf.BOLT_HOLES)),
    (ellipse_point a a GenerateDxf.BOLT_HOLES 0).
  split; [exact Hf|]. split; [exact Hfl|].
  split; [exact Hc|]. split; [exact Hcl|].
  split.
  { rewrite generate_circle_ellipse. apply generate_ellipse_ok.
    unfold GenerateDxf.BOLT_HOLES. lia. }
  split; [now rewrite length_map, range_length|].
  split; [exact Hcam|]. split; [exact Hcaml|].
  split; [transitivity (Some c0); [exact Hcamn | symmetry; exact Hcam0]|].
  unfold GenerateDxf.create_dxf_files. cbn [negb].
  rewrite Hf, script_bind_lift_ok, script_bind_write.
  rewrite Hc, script_bind_lift_ok.
  rewrite bolt_hole_loop, script_bind_lift_ok, script_bind_write.
  rewrite Hcam, script_bind_lift_ok.
  unfold write_file. cbn [app]. rewrite map_map. reflexivity.
Qed.

Lemma dxf_drawings_witness :
  exists files,
    GenerateDxf.create_dxf_files (F := R) GenerateDxf.GEAR_RATIO
      GenerateDxf.TOOTH_DIFFERENCE GenerateDxf.MODULE
      (fun _ => EmptyString) (fun _ => EmptyString) true [] = (files, Ok tt) /\
    length files = 3%nat.
Proof.
  destruct (@dxf_drawings R RNum GenerateDxf.GEAR_RATIO
              GenerateDxf.TOOTH_DIFFERENCE GenerateDxf.MODULE
              (fun _ => EmptyString) (fun _ => EmptyString))
    as (ft & ct & cam & cs & p0 & _ & _ & _ & _ & _ & _ & _ & _ & _ & Hrun).
  - apply is_zero_R_false. rewrite source_flex_radius. lra.
  - apply is_zero_R_false. rewrite source_circ_radius. lra.
  - eexists. split; [exact Hrun | reflexivity].
Defined.

(** An exception leaves what was already saved.  When the flex pitch
    radius compares equal to zero and there is at least one tooth,
    [create_dxf_files] stops in the first outline and writes nothing; when
    the flex spline has no tooth but the circular spline stops the same way,
    [flex_spline.dxf] is on disk, with an empty TEETH polyline, and nothing
    else. *)
Theorem dxf_drawings_interrupted (F : Type) (N : PyNum F) (gr td : Z) (m : F)
    (str_float format_6f : F -> string) :
  ((1 <= GenerateDxf.Z_FLEX gr td)%Z ->
   is_zero (GenerateDxf.D_PITCH_FLEX gr td m / of_int 2) = true ->
   GenerateDxf.create_dxf_files gr td m str_float format_6f true []
     = ([], Raise ZeroDivisionError))
  /\
  ((GenerateDxf.Z_FLEX gr td <= 0)%Z ->
   (1 <= GenerateDxf.Z_CIRC gr td)%Z ->
   is_zero (GenerateDxf.D_PITCH_CIRC gr td m / of_int 2) = true ->
   GenerateDxf.create_dxf_files gr td m str_float format_6f true []
     = ([ DxfFile "flex_spline.dxf"
            [ Lwpolyline [] true "TEETH";
              Circle (of_int 0, of_int 0)
                (GenerateDxf.D_INNER_FLEX gr td m / of_int 2) "INNER" ] ],
        Raise ZeroDivisionError)).
Proof.
  split.
  - intros Hz Hr. unfold GenerateDxf.create_dxf_files. cbn [negb].
    rewrite flex_teeth_zero_radius by (lia || exact Hz || exact Hr).
    reflexivity.
  - intros Hzf Hzc Hr. unfold GenerateDxf.create_dxf_files. cbn [negb].
    rewrite generate_flex_spline_teeth_no_teeth
      with (profile := dxf_profile m 20)
      by (exact Hzf || (apply generate_tooth_profile_ok; lia)).
    rewrite script_bind_lift_ok, script_bind_write.
    rewrite circular_teeth_zero_radius by (lia || exact Hzc || exact Hr).
    reflexivity.
Qed.

Lemma dxf_drawings_interrupted_witness :
  GenerateDxf.create_dxf_files (F := R) 100 2 0%R
    (fun _ => EmptyString) (fun _ => EmptyString) true []
    = ([], Raise ZeroDivisionError).
Proof.
  apply (proj1 (@dxf_drawings_interrupted R RNum 100 2 0%R
                  (fun _ => EmptyString) (fun _ => EmptyString))).
  - unfold GenerateDxf.Z_FLEX. lia.
  - rewrite flex_radius_R. replace (IZR (100 * 2) * 0 / 2)%R with 0%R by lra.
    apply is_zero_R_true.
Defined.

Lemma save_coordinates_lines (F : Type)
    (format_6f : F -> string) (filename description : string)
    (points : list (F * F)) (files : list (file F)) :
  GenerateDxf.save_coordinates format_6f filename points description files
    = (files ++ [TextFile filename
                   (coordinate_lines format_6f description points)], Ok tt).
Proof.
  unfold GenerateDxf.save_coordinates, write_file, coordinate_lines.
  cbn [app]. erewrite map_ext; [reflexivity|]. now intros [x y].
Qed.

(** Without [ezdxf], [create_dxf_files] is [create_coordinate_files]: with
    pitch radii that do not compare equal to zero it writes four text files,
    in this order: the flex outline at density 10 ([Z_FLEX * 11] points),
    the circular outline at density 10 ([Z_CIRC * 11] points), the cam
    ellipse (361 points) and one tooth at density 50 (51 points).  Each file
    has three comment lines, the second giving the number of points, and
    then one line per point in generation order. *)
Theorem coordinate_files (F : Type) (N : PyNum F) (gr td : Z) (m : F)
    (str_float format_6f : F -> string) :
  is_zero (GenerateDxf.D_PITCH_FLEX gr td m / of_int 2) = false ->
  is_zero (GenerateDxf.D_PITCH_CIRC gr td m / of_int 2) = false ->
  exists flex circ cam tooth,
    GenerateDxf.generate_flex_spline_teeth gr td m None 10 = Ok flex /\
    length flex = (Z.to_nat (GenerateDxf.Z_FLEX gr td) * 11)%nat /\
    GenerateDxf.generate_circular_spline_teeth gr td m None 10 = Ok circ /\
    length circ = (Z.to_nat (GenerateDxf.Z_CIRC gr td) * 11)%nat /\
    GenerateDxf.generate_ellipse (GenerateDxf.ELLIPSE_MAJOR gr td m)
      (GenerateDxf.ELLIPSE_MINOR gr td m) 360 = Ok cam /\
    length cam = 361%nat /\
    GenerateDxf.generate_tooth_profile m 50 = Ok tooth /\
    length tooth = 51%nat /\
    GenerateDxf.create_dxf_files gr td m str_float format_6f false [] =
      ([ TextFile "flex_spline_teeth.csv" (coordinate_lines format_6f
              ("Flex Spline External Teeth - "
               ++ str_int (GenerateDxf.Z_FLEX gr td)
               ++ " teeth, m=" ++ str_float m)%string flex);
         TextFile "circular_spline_teeth.csv"
           (coordinate_lines format_6f
              ("Circular Spline Internal Teeth - "
               ++ str_int (GenerateDxf.Z_CIRC gr td)
               ++ " teeth, m=" ++ str_float m)%string circ);
         TextFile "wave_generator_ellipse.csv"
           (coordinate_lines format_6f
              ("Wave Generator Ellipse - Major="
               ++ str_float (GenerateDxf.ELLIPSE_MAJOR gr td m)
               ++ ", Minor="
               ++ str_float (GenerateDxf.ELLIPSE_MINOR gr td m))%string cam);
         TextFile "single_tooth_profile.csv"
           (coordinate_lines format_6f
              ("Single Tooth S-Curve Profile - m=" ++ str_float m)%string
              tooth) ],
       Ok tt) /\
    (forall d pts,
       length (coordinate_lines format_6f d pts) = (3 + length pts)%nat /\
       nth_error (coordinate_lines format_6f d pts) 1 =
         Some ("# " ++ str_int (Z.of_nat (length pts)) ++ " points")%string).
Proof.
  intros Hrf Hrc.
  destruct (@flex_teeth_length F N gr td m None 10)
    as (flex & Hf & _ & Hfl); [lia | exact Hrf |].
  destruct (@circular_teeth_length F N gr td m None 10)
    as (circ & Hc & Hcl); [lia | exact Hrc |].
  assert (H360 : (1 <= 360)%Z) by lia.
  destruct (generate_ellipse_closed (GenerateDxf.ELLIPSE_MAJOR gr td m)
              (GenerateDxf.ELLIPSE_MINOR gr td m) H360)
    as (cam & c0 & Hcam & Hcaml & _ & _).
  assert (Ht : GenerateDxf.generate_tooth_profile m 50 = Ok (dxf_profile m 50))
    by (apply generate_tooth_profile_ok; lia).
  exists flex, circ, cam, (dxf_profile m 50).
  split; [exact Hf|]. split; [exact Hfl|].
  split; [exact Hc|]. split; [exact Hcl|].
  split; [exact Hcam|]. split; [exact Hcaml|].
  split; [exact Ht|]. split; [now rewrite dxf_profile_length|].
  split.
  - unfold GenerateDxf.create_dxf_files. cbn [negb].
    unfold GenerateDxf.create_coordinate_files.
    rewrite Hf, script_bind_lift_ok.
    unfold script_bind at 1. rewrite save_coordinates_lines.
    rewrite Hc, script_bind_lift_ok.
    unfold script_bind at 1. rewrite save_coordinates_lines.
    rewrite Hcam, script_bind_lift_ok.
    unfold script_bind at 1. rewrite save_coordinates_lines.
    rewrite Ht, script_bind_lift_ok.
    rewrite save_coordinates_lines. cbn [app]. reflexivity.
  - intros d pts. unfold coordinate_lines. split.
    + rewrite length_app, length_map. reflexivity.
    + reflexivity.
Qed.

Lemma coordinate_files_witness :
  exists files,
    GenerateDxf.create_dxf_files (F := R) GenerateDxf.GEAR_RATIO
      GenerateDxf.TOOTH_DIFFERENCE GenerateDxf.MODULE
      (fun _ => EmptyString) (fun _ => EmptyString) false [] = (files, Ok tt) /\
    length files = 4%nat.
Proof.
  destruct (@coordinate_files R RNum GenerateDxf.GEAR_RATIO
              GenerateDxf.TOOTH_DIFFERENCE GenerateDxf.MODULE
              (fun _ => EmptyString) (fun _ => EmptyString))
    as (a & b & c & d & _ & _ & _ & _ & _ & _ & _ & _ & Hrun & _).
  - apply is_zero_R_false. rewrite source_flex_radius. lra.
  - apply is_zero_R_false. rewrite source_circ_radius. lra.
  - eexists. split; [exact Hrun | reflexivity].
Defined.

(** The run of [create_dxf_files] once its three outlines are known. *)
Lemma create_dxf_files_run (F : Type) (N : PyNum F) (gr td : Z) (m : F)
    (str_float format_6f : F -> string)
    (flex_teeth circ_teeth cam : list (F * F)) :
  GenerateDxf.generate_flex_spline_teeth gr td m None 20 = Ok flex_teeth ->
  GenerateDxf.generate_circular_spline_teeth gr td m None 20 = Ok circ_teeth ->
  GenerateDxf.generate_ellipse (GenerateDxf.ELLIPSE_MAJOR gr td m)
    (GenerateDxf.ELLIPSE_MINOR gr td m) 360 = Ok cam ->
  GenerateDxf.create_dxf_files gr td m str_float format_6f true [] =
    ([ DxfFile "flex_spline.dxf"
         [ Lwpolyline flex_teeth true "TEETH";
           Circle (of_int 0, of_int 0)
             (GenerateDxf.D_INNER_FLEX gr td m / of_int 2) "INNER" ];
       DxfFile "circular_spline.dxf"
         (Circle (of_int 0, of_int 0)
            (GenerateDxf.D_OUTER_CIRC / of_int 2) "OUTER"
          :: Lwpolyline circ_teeth true "TEETH"
          :: map (fun i =>
                    Circle (ellipse_point GenerateDxf.BOLT_CIRCLE
                              GenerateDxf.BOLT_CIRCLE GenerateDxf.BOLT_HOLES i)
                      (GenerateDxf.BOLT_HOLE_DIA / of_int 2) "HOLES")
               (range GenerateDxf.BOLT_HOLES));
       DxfFile "wave_generator.dxf"
         [ Lwpolyline cam true "CAM";
           Circle (of_int 0, of_int 0)
             (GenerateDxf.BEARING_OD / of_int 2) "BEARING";
           Circle (of_int 0, of_int 0)
             (GenerateDxf.BEARING_ID / of_int 2) "HUB";
           Circle (of_int 0, of_int 0)
             (GenerateDxf.HUB_BORE / of_int 2) "BORE" ] ],
     Ok tt).
Proof.
  intros Hf Hc Hcam.
  unfold GenerateDxf.create_dxf_files. cbn [negb].
  rewrite Hf, script_bind_lift_ok, script_bind_write.
  rewrite Hc, script_bind_lift_ok.
  rewrite bolt_hole_loop, script_bind_lift_ok, script_bind_write.
  rewrite Hcam, script_bind_lift_ok.
  unfold write_file. cbn [app]. reflexivity.
Qed.

(** The bolt holes [create_dxf_files] draws.  With [ezdxf] present and
    pitch radii that do not compare equal to zero, the second drawing the
    script saves, [circular_spline.dxf], holds the OUTER circle, the TEETH
    polyline and then six HOLES circles, hole [i] of radius
    [BOLT_HOLE_DIA / 2] about the point of the bolt circle at the angle
    [2 pi i / BOLT_HOLES]; this in any arithmetic.  In exact arithmetic
    that centre is [(47 cos (2 pi i / 6), 47 sin (2 pi i / 6))], at distance
    47 from the centre of the ring, the radius of the hole is 2.1 and that
    of the outer rim 50, so that every hole stays inside the rim. *)
Theorem bolt_holes_on_the_bolt_circle (F : Type) (N : PyNum F) (gr td : Z)
    (m : F) (str_float format_6f : F -> string) :
  is_zero (GenerateDxf.D_PITCH_FLEX gr td m / of_int 2) = false ->
  is_zero (GenerateDxf.D_PITCH_CIRC gr td m / of_int 2) = false ->
  (exists flex teeth holes wave,
     GenerateDxf.create_dxf_files gr td m str_float format_6f true [] =
       ([ flex;
          DxfFile "circular_spline.dxf"
            (Circle (of_int 0, of_int 0)
               (GenerateDxf.D_OUTER_CIRC / of_int 2) "OUTER"
             :: Lwpolyline teeth true "TEETH" :: holes);
          wave ], Ok tt) /\
     length holes = 6%nat /\
     forall i, (0 <= i < 6)%Z ->
       let angle :=
         ((of_int 2 * fpi) * of_int i) / of_int GenerateDxf.BOLT_HOLES in
       nth_error holes (Z.to_nat i) =
         Some (Circle ((GenerateDxf.BOLT_CIRCLE / of_int 2) * fcos angle,
                       (GenerateDxf.BOLT_CIRCLE / of_int 2) * fsin angle)
                 (GenerateDxf.BOLT_HOLE_DIA / of_int 2) "HOLES"))
  /\
  ((GenerateDxf.D_OUTER_CIRC (F := R) / 2 = 50)%R /\
   (GenerateDxf.BOLT_HOLE_DIA (F := R) / 2 = 2.1)%R /\
   forall i : Z,
     let angle := (2 * PI * IZR i / IZR GenerateDxf.BOLT_HOLES)%R in
     let c := ((GenerateDxf.BOLT_CIRCLE / 2) * cos angle,
               (GenerateDxf.BOLT_CIRCLE / 2) * sin angle)%R in
     c = (47 * cos (sample_angle 6 i), 47 * sin (sample_angle 6 i))%R /\
     radius_of c = 47%R /\
     (radius_of c + GenerateDxf.BOLT_HOLE_DIA (F := R) / 2
      < GenerateDxf.D_OUTER_CIRC (F := R) / 2)%R).
Proof.
  intros Hrf Hrc. split.
  - destruct (@flex_teeth_length F N gr td m None 20)
      as (flex_teeth & Hf & _ & _); [lia | exact Hrf |].
    destruct (@circular_teeth_length F N gr td m None 20)
      as (circ_teeth & Hc & _); [lia | exact Hrc |].
    assert (H360 : (1 <= 360)%Z) by lia.
    destruct (generate_ellipse_closed (GenerateDxf.ELLIPSE_MAJOR gr td m)
                (GenerateDxf.ELLIPSE_MINOR gr td m) H360)
      as (cam & c0 & Hcam & _).
    pose proof (@create_dxf_files_run F N gr td m str_float format_6f
                  _ _ _ Hf Hc Hcam) as Hrun.
    eexists _, circ_teeth, _, _.
    split; [exact Hrun|].
    split; [now rewrite length_map, range_length|].
    intros i Hi angle.
    rewrite nth_error_map, range_nth_error
      by (unfold GenerateDxf.BOLT_HOLES; lia).
    cbn [option_map]. rewrite Z2Nat.id by lia. reflexivity.
  - assert (Hrim : (GenerateDxf.D_OUTER_CIRC (F := R) / 2 = 50)%R)
      by (unfold GenerateDxf.D_OUTER_CIRC; rewrite lit_R; lra).
    assert (Hdia : (GenerateDxf.BOLT_HOLE_DIA (F := R) / 2 = 2.1)%R)
      by (unfold GenerateDxf.BOLT_HOLE_DIA; rewrite lit_R; lra).
    split; [exact Hrim|]. split; [exact Hdia|].
    intros i angle c.
    assert (Hc : c = (47 * cos (sample_angle 6 i),
                      47 * sin (sample_angle 6 i))%R).
    { subst c angle. unfold sample_angle, GenerateDxf.BOLT_CIRCLE,
        GenerateDxf.BOLT_HOLES. rewrite lit_R. f_equal; f_equal; lra. }
    assert (Hr : radius_of c = 47%R).
    { rewrite Hc. unfold radius_of. cbn [fst snd].
      rewrite on_circle. apply Rabs_pos_eq. lra. }
    split; [exact Hc|]. split; [exact Hr|].
    rewrite Hr, Hdia, Hrim. lra.
Qed.

Lemma bolt_holes_on_the_bolt_circle_witness :
  exists flex teeth holes wave,
    GenerateDxf.create_dxf_files (F := R) GenerateDxf.GEAR_RATIO
      GenerateDxf.TOOTH_DIFFERENCE GenerateDxf.MODULE
      (fun _ => EmptyString) (fun _ => EmptyString) true [] =
      ([ flex;
         DxfFile "circular_spline.dxf"
           (Circle (of_int 0, of_int 0)
              (GenerateDxf.D_OUTER_CIRC / of_int 2) "OUTER"
            :: Lwpolyline teeth true "TEETH" :: holes);
         wave ], Ok tt) /\
    length holes = 6%nat.
Proof.
  destruct (@bolt_holes_on_the_bolt_circle R RNum GenerateDxf.GEAR_RATIO
              GenerateDxf.TOOTH_DIFFERENCE GenerateDxf.MODULE
              (fun _ => EmptyString) (fun _ => EmptyString))
    as ((flex & teeth & holes & wave & Hrun & Hlen & _) & _).
  - apply is_zero_R_false. rewrite source_flex_radius. lra.
  - apply is_zero_R_false. rewrite source_circ_radius. lra.
  - exists flex, teeth, holes, wave. split; [exact Hrun | exact Hlen].
Defined.

(** ** The teeth of the STEP flex spline *)

Lemma radians_R (x : R) : GenerateStepFiles.radians x = (x * PI / 180)%R.
Proof.
  unfold GenerateStepFiles.radians. rewrite lit_R.
  cbn [fmul fdiv fpi RNum]. field.
Qed.

Lemma degrees_radians_R (x : R) :
  GenerateStepFiles.degrees (GenerateStepFiles.radians x) = x.
Proof.
  unfold GenerateStepFiles.degrees, GenerateStepFiles.radians.
  rewrite lit_R. cbn [fmul fdiv fpi RNum].
  assert (Hpi := PI_neq0). field. exact Hpi.
Qed.

(** The run of [create_flex_spline_teeth], in any arithmetic. *)
Lemma create_flex_spline_teeth_run (F : Type) (N : PyNum F) (gr td : Z)
    (m : F) :
  let nz := GenerateStepFiles.Z_FLEX gr td in
  let pitch_radius :=
    GenerateStepFiles.PITCH_DIA_FLEX_MM gr td m / of_int 2 in
  let tooth_angle := lit 360 1 / of_int nz in
  (nz = 0%Z ->
   GenerateStepFiles.create_flex_spline_teeth gr td m
     = Raise ZeroDivisionError)
  /\ ((nz < 0)%Z ->
   GenerateStepFiles.create_flex_spline_teeth gr td m = Ok [])
  /\ ((1 <= nz)%Z ->
   GenerateStepFiles.create_flex_spline_teeth gr td m
     = Ok (map (fun i =>
            let angle_rad :=
              GenerateStepFiles.radians (of_int i * tooth_angle) in
            {| GenerateStepFiles.tooth_location :=
                 (pitch_radius * fcos angle_rad,
                  pitch_radius * fsin angle_rad,
                  GenerateStepFiles.FLEX_CUP_DEPTH gr td m
                  - GenerateStepFiles.FLEX_TOOTH_ZONE gr td m);
               GenerateStepFiles.tooth_rotation :=
                 GenerateStepFiles.degrees angle_rad;
               GenerateStepFiles.tooth_outline :=
                 map (fun p => (snd p, fst p))
                   (step_profile m GenerateStepFiles.PROFILE_SHIFT_FLEX_MM
                      16 false);
               GenerateStepFiles.tooth_extrusion :=
                 GenerateStepFiles.FLEX_TOOTH_ZONE gr td m |})
          (range nz))).
Proof.
  intros nz pitch_radius tooth_angle. split; [|split].
  - intros Hz. unfold GenerateStepFiles.create_flex_spline_teeth.
    fold nz. rewrite Hz. reflexivity.
  - intros Hz. unfold GenerateStepFiles.create_flex_spline_teeth.
    fold nz. rewrite float_div_int_ok by lia. cbn [bind].
    rewrite generate_s_curve_tooth_points_ok by lia. cbn [bind].
    now rewrite range_nonpos by lia.
  - intros Hz. unfold GenerateStepFiles.create_flex_spline_teeth. fold nz.
    rewrite float_div_int_ok by lia. cbn [bind].
    rewrite generate_s_curve_tooth_points_ok by lia. cbn [bind].
    apply for_each_map. intros i _. do 2 f_equal.
    f_equal. apply map_ext. now intros [x y].
Qed.

(** [create_flex_spline] places one tooth solid per tooth.  In any
    arithmetic: with [Z_FLEX = 0] the function stops on [360.0 / Z_FLEX],
    with a negative [Z_FLEX] it places no tooth, and with [Z_FLEX >= 1] it
    places [Z_FLEX] teeth, each with the 16-sample external profile
    (profile shift 0.2) as outline, coordinates swapped, extruded by
    [FLEX_TOOTH_ZONE], its sketch plane turned by
    [degrees (radians (i * (360.0 / Z_FLEX)))].  In exact arithmetic tooth
    [i] sits on the pitch circle at the angle [2 pi i / Z_FLEX] of the DXF
    outline, at height [0.18 pitch diameter], is turned by
    [i * 360 / Z_FLEX] degrees and reaches the rim of the cup,
    [FLEX_CUP_DEPTH].  In binary64 the turn is only near that value: the
    way through radians and back rounds, and with three teeth tooth 1 is
    turned by 119.99999999999999 degrees and tooth 2 by
    239.99999999999997. *)
Theorem flex_spline_solid_teeth (gr td : Z) :
  let nz := GenerateStepFiles.Z_FLEX gr td in
  (forall (F : Type) (N : PyNum F) (m : F),
     (nz = 0%Z ->
      GenerateStepFiles.create_flex_spline_teeth gr td m
        = Raise ZeroDivisionError)
     /\ ((nz < 0)%Z ->
      GenerateStepFiles.create_flex_spline_teeth gr td m = Ok [])
     /\ ((1 <= nz)%Z ->
      exists teeth profile,
        GenerateStepFiles.create_flex_spline_teeth gr td m = Ok teeth /\
        GenerateStepFiles.generate_s_curve_tooth_points m
          GenerateStepFiles.PROFILE_SHIFT_FLEX_MM 16 false = Ok profile /\
        length profile = 16%nat /\
        length teeth = Z.to_nat nz /\
        forall i t, (0 <= i < nz)%Z ->
          nth_error teeth (Z.to_nat i) = Some t ->
          GenerateStepFiles.tooth_outline t
            = map (fun p => (snd p, fst p)) profile /\
          GenerateStepFiles.tooth_extrusion t
            = GenerateStepFiles.FLEX_TOOTH_ZONE gr td m /\
          GenerateStepFiles.tooth_rotation t
            = GenerateStepFiles.degrees
                (GenerateStepFiles.radians
                   (of_int i * (lit 360 1 / of_int nz)))))
  /\ (forall m : R, (1 <= nz)%Z ->
      let pitch := GenerateStepFiles.PITCH_DIA_FLEX_MM gr td m in
      GenerateStepFiles.PROFILE_SHIFT_FLEX_MM = 0.2%R /\
      exists teeth,
        GenerateStepFiles.create_flex_spline_teeth gr td m = Ok teeth /\
        forall i t, (0 <= i < nz)%Z ->
          nth_error teeth (Z.to_nat i) = Some t ->
          GenerateStepFiles.tooth_location t
            = (pitch / 2 * cos (sample_angle nz i),
               pitch / 2 * sin (sample_angle nz i),
               0.18 * pitch)%R /\
          GenerateStepFiles.tooth_rotation t = (IZR i * 360 / IZR nz)%R /\
          (snd (GenerateStepFiles.tooth_location t)
           + GenerateStepFiles.tooth_extrusion t
           = GenerateStepFiles.FLEX_CUP_DEPTH gr td m)%R)
  /\ (forall (c s : float -> float),
      let N := Binary64 c s math_pi in
      exists teeth t1 t2,
        GenerateStepFiles.create_flex_spline_teeth 3 1 (lit 4 10) = Ok teeth /\
        nth_error teeth 1 = Some t1 /\
        nth_error teeth 2 = Some t2 /\
        GenerateStepFiles.tooth_rotation t1 = 119.99999999999999%float /\
        GenerateStepFiles.tooth_rotation t2 = 239.99999999999997%float).
Proof.
  intros nz. split; [|split].
  - intros F N m.
    destruct (@create_flex_spline_teeth_run F N gr td m) as (H0 & Hneg & Hpos).
    split; [exact H0|]. split; [exact Hneg|].
    intros Hz. specialize (Hpos Hz). fold nz in Hpos.
    eexists _, (step_profile m GenerateStepFiles.PROFILE_SHIFT_FLEX_MM 16 false).
    split; [exact Hpos|].
    split; [apply generate_s_curve_tooth_points_ok; lia|].
    split; [now rewrite step_profile_length|].
    split; [now rewrite length_map, range_length|].
    intros i t Hi Ht.
    rewrite nth_error_map, range_nth_error in Ht by lia.
    cbn [option_map] in Ht. rewrite Z2Nat.id in Ht by lia.
    injection Ht as <-. repeat split.
  - intros m Hz pitch.
    assert (Hshift : GenerateStepFiles.PROFILE_SHIFT_FLEX_MM = 0.2%R)
      by (unfold GenerateStepFiles.PROFILE_SHIFT_FLEX_MM; rewrite lit_R; lra).
    split; [exact Hshift|].
    destruct (@create_flex_spline_teeth_run R RNum gr td m) as (_ & _ & Hpos).
    specialize (Hpos Hz). fold nz in Hpos.
    eexists. split; [exact Hpos|].
    assert (Hnz : (IZR nz <> 0)%R) by (apply not_0_IZR; lia).
    intros i t Hi Ht.
    rewrite nth_error_map, range_nth_error in Ht by lia.
    cbn [option_map] in Ht. rewrite Z2Nat.id in Ht by lia.
    injection Ht as <-.
    cbn [GenerateStepFiles.tooth_location GenerateStepFiles.tooth_rotation
         GenerateStepFiles.tooth_outline GenerateStepFiles.tooth_extrusion snd].
    assert (Hpi := PI_neq0).
    unfold pitch, sample_angle, GenerateStepFiles.FLEX_CUP_DEPTH,
      GenerateStepFiles.PITCH_DIA_FLEX_MM.
    rewrite ?lit_R. cbn [fmul of_int RNum]. fold nz.
    split; [|split].
    + f_equal; [f_equal|].
      * f_equal. f_equal. field. exact Hnz.
      * f_equal. f_equal. field. exact Hnz.
      * lra.
    + field. split; assumption.
    + lra.
  - intros c s N.
    destruct (@create_flex_spline_teeth_run float N 3 1 (lit 4 10))
      as (_ & _ & Hpos).
    assert (Hz : (1 <= GenerateStepFiles.Z_FLEX 3 1)%Z)
      by (unfold GenerateStepFiles.Z_FLEX; lia).
    specialize (Hpos Hz).
    change (GenerateStepFiles.Z_FLEX 3 1) with 3%Z in Hpos.
    change (range 3) with [0%Z; 1%Z; 2%Z] in Hpos. cbn [map] in Hpos.
    eexists _, _, _. split; [exact Hpos|].
    split; [reflexivity|]. split; [reflexivity|].
    cbn [GenerateStepFiles.tooth_rotation].
    split; vm_compute; reflexivity.
Qed.

Lemma flex_spline_solid_teeth_witness :
  exists teeth,
    GenerateStepFiles.create_flex_spline_teeth 100 2 0.4%R = Ok teeth /\
    length teeth = 200%nat.
Proof.
  destruct (flex_spline_solid_teeth 100 2) as (Hany & _).
  destruct (Hany R RNum 0.4%R) as (_ & _ & Hpos).
  destruct Hpos as (teeth & profile & Hrun & _ & _ & Hlen & _).
  - unfold GenerateStepFiles.Z_FLEX. lia.
  - exists teeth. split; [exact Hrun | exact Hlen].
Defined.

(** ** The STL to STEP converter *)

Section Converter.
Import ConvertToStep.
Local Open Scope string_scope.

Lemma replace_from_absent (old new s : string) :
  occurs old s = false -> replace_from 0 old new s = s.
Proof.
  induction s as [|c rest IH]; intros Ho; [reflexivity|].
  cbn [occurs] in Ho. apply orb_false_iff in Ho. destruct Ho as [Hp Ho].
  cbn [replace_from]. rewrite Hp. now rewrite IH.
Qed.

Lemma replace_absent (old new s : string) :
  old <> "" -> occurs old s = false -> replace old new s = s.
Proof.
  intros Hold Ho. destruct old as [|c old]; [contradiction|].
  now apply replace_from_absent.
Qed.

Lemma replace_extension (base : string) :
  no_dot base = true ->
  replace ".stl" ".geo" (base ++ ".stl") = base ++ ".geo".
Proof.
  intros Hb. unfold replace.
  induction base as [|c rest IH]; [reflexivity|].
  cbn [no_dot] in Hb. apply andb_true_iff in Hb. destruct Hb as [Hc Hb].
  apply negb_true_iff in Hc.
  change ((String c rest) ++ ".stl") with (String c (rest ++ ".stl")).
  cbn [replace_from prefix].
  destruct (ascii_dec "."%char c) as [<- | Hne].
  - now rewrite Ascii.eqb_refl in Hc.
  - now rewrite IH.
Qed.

Lemma occurs_no_dot (base : string) :
  no_dot base = true -> occurs ".stl" base = false.
Proof.
  induction base as [|c rest IH]; intros Hb; [reflexivity|].
  cbn [no_dot] in Hb. apply andb_true_iff in Hb. destruct Hb as [Hc Hb].
  apply negb_true_iff in Hc.
  cbn [occurs prefix]. rewrite IH by exact Hb.
  destruct (ascii_dec "."%char c) as [<- | Hne]; [|reflexivity].
  now rewrite Ascii.eqb_refl in Hc.
Qed.

Lemma append_geo_neq_stl (base : string) :
  base ++ ".geo" <> base ++ ".stl".
Proof.
  induction base as [|c rest IH]; [discriminate|].
  cbn [append]. intros Heq. injection Heq as Heq. now apply IH.
Qed.
End Converter.



(** When the name given as [stl_file] does not contain [.stl], and the
    command leaves that path alone, [stl_to_step_gmsh] has replaced the mesh
    by its own [.geo] script when it returns; with a name [base.stl] the
    mesh is untouched and the script is in [base.geo]. *)
Theorem geo_script_overwrites_unrecognised_input
    (run : list string -> ConvertToStep.disk
           -> option (ConvertToStep.disk * string))
    (stl_file step_file : string) (w : ConvertToStep.world) :
  (forall cmd d d' err, run cmd d = Some (d', err) -> d' stl_file = d stl_file) ->
  let after :=
    ConvertToStep.files_on_disk
      (fst (ConvertToStep.stl_to_step_gmsh run stl_file step_file w)) in
  (occurs ".stl" stl_file = false ->
   after stl_file = Some (geo_script stl_file))
  /\ (forall base, no_dot base = true -> stl_file = (base ++ ".stl")%string ->
     after stl_file = ConvertToStep.files_on_disk w stl_file).
Proof.
  intros Hrun after. subst after. unfold ConvertToStep.stl_to_step_gmsh.
  fold (geo_script stl_file). split.
  - intros Ho. rewrite replace_absent by (discriminate || exact Ho).
    set (d := ConvertToStep.write_text stl_file (geo_script stl_file)
                (ConvertToStep.files_on_disk w)).
    assert (Hd : d stl_file = Some (geo_script stl_file))
      by (unfold d, ConvertToStep.write_text; now rewrite String.eqb_refl).
    destruct (run _ d) as [[d' err]|] eqn:Hr; cbn [fst].
    + apply Hrun in Hr.
      destruct (ConvertToStep.exists_path d' step_file);
        cbn [fst ConvertToStep.print ConvertToStep.files_on_disk]; congruence.
    + exact Hd.
  - intros base Hb ->. rewrite replace_extension by exact Hb.
    set (d := ConvertToStep.write_text (base ++ ".geo")
                (geo_script (base ++ ".stl"))
                (ConvertToStep.files_on_disk w)).
    assert (Hd : d (base ++ ".stl")%string
                 = ConvertToStep.files_on_disk w (base ++ ".stl")%string).
    { unfold d, ConvertToStep.write_text.
      destruct (String.eqb_spec (base ++ ".stl") (base ++ ".geo")) as [He|_];
        [|reflexivity].
      symmetry in He. now apply append_geo_neq_stl in He. }
    destruct (run _ d) as [[d' err]|] eqn:Hr; cbn [fst].
    + apply Hrun in Hr.
      destruct (ConvertToStep.exists_path d' step_file);
        cbn [fst ConvertToStep.print ConvertToStep.files_on_disk]; congruence.
    + exact Hd.
Qed.

Lemma geo_script_overwrites_unrecognised_input_witness :
  ConvertToStep.files_on_disk
    (fst (ConvertToStep.stl_to_step_gmsh (fun _ d => Some (d, ""%string))
            "PART.STL" "part.step"
            {| ConvertToStep.files_on_disk :=
                 ConvertToStep.write_text "PART.STL" "solid"
                   (fun _ => None);
               ConvertToStep.printed := [] |})) "PART.STL"%string
  = Some (geo_script "PART.STL").
Proof.
  apply (@geo_script_overwrites_unrecognised_input
           (fun _ d => Some (d, ""%string)) "PART.STL" "part.step").
  - intros cmd d d' err Hr. injection Hr as <- _. reflexivity.
  - reflexivity.
Defined.

(** [stl_to_step_gmsh] judges success by the existence of [step_file]
    after the command, not by what the command did: when it returns, its
    result is [True] exactly when the path exists then.  A STEP file left
    by an earlier run, which the command does not remove, therefore counts
    as a successful conversion, and [Created] is printed. *)
Theorem stale_step_file_counts_as_created
    (run : list string -> ConvertToStep.disk
           -> option (ConvertToStep.disk * string))
    (stl_file step_file : string) (w : ConvertToStep.world) :
  (forall b w',
     ConvertToStep.stl_to_step_gmsh run stl_file step_file w = (w', Some b) ->
     b = ConvertToStep.exists_path (ConvertToStep.files_on_disk w') step_file)
  /\
  (ConvertToStep.exists_path (ConvertToStep.files_on_disk w) step_file = true ->
   (forall cmd d d' err, run cmd d = Some (d', err) ->
      ConvertToStep.exists_path d step_file = true ->
      ConvertToStep.exists_path d' step_file = true) ->
   forall w' r,
     ConvertToStep.stl_to_step_gmsh run stl_file step_file w = (w', Some r) ->
     r = true /\
     ConvertToStep.printed w'
       = ConvertToStep.printed w ++ [("  Created: " ++ step_file)%string]).
Proof.
  unfold ConvertToStep.stl_to_step_gmsh. fold (geo_script stl_file).
  set (geo_file := ConvertToStep.replace ".stl" ".geo" stl_file).
  set (d := ConvertToStep.write_text geo_file (geo_script stl_file)
              (ConvertToStep.files_on_disk w)).
  split.
  - intros b w' Hres.
    destruct (run _ d) as [[d' err]|]; [|discriminate].
    destruct (ConvertToStep.exists_path d' step_file) eqn:He;
      injection Hres as <- <-;
      cbn [ConvertToStep.print ConvertToStep.files_on_disk]; now rewrite He.
  - intros Hex Hrun w' r Hres.
    assert (Hd : ConvertToStep.exists_path d step_file = true).
    { unfold d, ConvertToStep.exists_path, ConvertToStep.write_text in *.
      destruct (String.eqb step_file geo_file); [reflexivity | exact Hex]. }
    destruct (run _ d) as [[d' err]|] eqn:Hr; [|discriminate].
    rewrite (Hrun _ _ _ _ Hr Hd) in Hres.
    injection Hres as <- <-. split; reflexivity.
Qed.

Lemma stale_step_file_counts_as_created_witness :
  snd (ConvertToStep.stl_to_step_gmsh
         (fun _ d => Some (d, "gmsh: cannot mesh"%string))
         "flex_spline.stl" "flex_spline.step"
         {| ConvertToStep.files_on_disk :=
              ConvertToStep.write_text "flex_spline.step" "old"
                (fun _ => None);
            ConvertToStep.printed := [] |}) = Some true.
Proof.
  destruct (ConvertToStep.stl_to_step_gmsh
              (fun _ d => Some (d, "gmsh: cannot mesh"%string))
              "flex_spline.stl" "flex_spline.step"
              {| ConvertToStep.files_on_disk :=
                   ConvertToStep.write_text "flex_spline.step" "old"
                     (fun _ => None);
                 ConvertToStep.printed := [] |}) as [w' [r|]] eqn:Hres.
  - cbn [snd]. f_equal.
    refine (proj1 (proj2 (@stale_step_file_counts_as_created
                            (fun _ d => Some (d, "gmsh: cannot mesh"%string))
                            "flex_spline.stl" "flex_spline.step"
                            {| ConvertToStep.files_on_disk :=
                                 ConvertToStep.write_text "flex_spline.step"
                                   "old" (fun _ => None);
                               ConvertToStep.printed := [] |})
                     _ _ w' r Hres)).
    + reflexivity.
    + intros cmd d d' err Hr Hd. injection Hr as <- _. exact Hd.
  - vm_compute in Hres. discriminate Hres.
Defined.

(** With none of the four STL files on disk the script changes no file and
    starts no command, whatever [subprocess.run] would do: it prints its
    heading, one [Not found] line per file in the order of the list, and
    [Done!]. *)
Theorem nothing_to_convert
    (run : list string -> ConvertToStep.disk
           -> option (ConvertToStep.disk * string))
    (w : ConvertToStep.world) :
  (forall stl step, In (stl, step) ConvertToStep.files ->
     ConvertToStep.exists_path (ConvertToStep.files_on_disk w) stl = false) ->
  ConvertToStep.main run w =
    ({| ConvertToStep.files_on_disk := ConvertToStep.files_on_disk w;
        ConvertToStep.printed :=
          ConvertToStep.printed w ++
          [ "Converting STL to STEP...";
            "  Not found: flex_spline.stl";
            "  Not found: circular_spline.stl";
            "  Not found: wave_generator.stl";
            "  Not found: harmonic_drive_assembly.stl";
            ConvertToStep.newline ++ "Done!" ]%string |},
     Some tt).
Proof.
  intros Hmissing.
  assert (H1 := Hmissing "flex_spline.stl"%string "flex_spline.step"%string).
  assert (H2 := Hmissing "circular_spline.stl"%string
                  "circular_spline.step"%string).
  assert (H3 := Hmissing "wave_generator.stl"%string
                  "wave_generator.step"%string).
  assert (H4 := Hmissing "harmonic_drive_assembly.stl"%string
                  "harmonic_drive_assembly.step"%string).
  unfold ConvertToStep.main, ConvertToStep.files.
  cbn [ConvertToStep.convert_each ConvertToStep.print
       ConvertToStep.files_on_disk ConvertToStep.printed].
  rewrite H1 by (cbn; tauto).
  cbn [ConvertToStep.convert_each ConvertToStep.print
       ConvertToStep.files_on_disk ConvertToStep.printed].
  rewrite H2 by (cbn; tauto).
  cbn [ConvertToStep.convert_each ConvertToStep.print
       ConvertToStep.files_on_disk ConvertToStep.printed].
  rewrite H3 by (cbn; tauto).
  cbn [ConvertToStep.convert_each ConvertToStep.print
       ConvertToStep.files_on_disk ConvertToStep.printed].
  rewrite H4 by (cbn; tauto).
  cbn [ConvertToStep.convert_each ConvertToStep.print
       ConvertToStep.files_on_disk ConvertToStep.printed].
  unfold ConvertToStep.print.
  cbn [ConvertToStep.files_on_disk ConvertToStep.printed String.append].
  rewrite <- !app_assoc. reflexivity.
Qed.

Lemma nothing_to_convert_witness :
  ConvertToStep.printed
    (fst (ConvertToStep.main (fun _ _ => None)
            {| ConvertToStep.files_on_disk := fun _ => None;
               ConvertToStep.printed := [] |}))
  = [ "Converting STL to STEP...";
      "  Not found: flex_spline.stl";
      "  Not found: circular_spline.stl";
      "  Not found: wave_generator.stl";
      "  Not found: harmonic_drive_assembly.stl";
      ConvertToStep.newline ++ "Done!" ]%string.
Proof.
  rewrite (@nothing_to_convert (fun _ _ => None)
             {| ConvertToStep.files_on_disk := fun _ => None;
                ConvertToStep.printed := [] |}).
  - reflexivity.
  - reflexivity.
Defined.

(** ** The external tooth in the two scripts *)

(** At the same module and density [n >= 2] the two scripts do not draw the
    same external tooth: the profile of the DXF script has [n + 1] samples
    and runs from [x = -pi m / 2] to [x = pi m / 2], a whole circular pitch,
    at root height [-m]; the profile of the STEP script has [n] samples and
    runs from [x = -pi m / 6] to [x = pi m / 6], a third of it, at root height
    [-(m - profile_shift)]. *)
Theorem external_teeth_of_the_two_scripts (m shift : R) (n : Z) :
  (2 <= n)%Z ->
  exists dxf step,
    GenerateDxf.generate_tooth_profile m n = Ok dxf /\
    GenerateStepFiles.generate_s_curve_tooth_points m shift n false = Ok step /\
    length dxf = (Z.to_nat n + 1)%nat /\
    length step = Z.to_nat n /\
    nth_error dxf 0 = Some ((- (PI * m / 2))%R, (- m)%R) /\
    nth_error dxf (Z.to_nat n) = Some ((PI * m / 2)%R, (- m)%R) /\
    nth_error step 0 = Some ((- (PI * m / 6))%R, (- (m - shift))%R) /\
    nth_error step (Z.to_nat (n - 1))
      = Some ((PI * m / 6)%R, (- (m - shift))%R).
Proof.
  intros Hn.
  exists (dxf_profile m n), (step_profile m shift n false).
  split; [apply generate_tooth_profile_ok; lia|].
  split; [apply generate_s_curve_tooth_points_ok; lia|].
  split; [rewrite dxf_profile_length; lia|].
  split; [apply step_profile_length|].
  assert (Hn0 : (IZR n <> 0)%R) by (apply not_0_IZR; lia).
  assert (Hn1 : (IZR (n - 1) <> 0)%R) by (apply not_0_IZR; lia).
  split; [|split; [|split]].
  - change 0%nat with (Z.to_nat 0). rewrite dxf_profile_nth by lia.
    change (of_int 0 / of_int n) with (0 / IZR n)%R.
    replace (0 / IZR n)%R with 0%R by (unfold Rdiv; ring).
    now rewrite tooth_profile_point_start, DEDENDUM_R.
  - rewrite dxf_profile_nth by lia.
    change (of_int n / of_int n) with (IZR n / IZR n)%R.
    replace (IZR n / IZR n)%R with 1%R by (field; exact Hn0).
    now rewrite tooth_profile_point_end, DEDENDUM_R.
  - change 0%nat with (Z.to_nat 0). rewrite step_profile_nth by lia. cbv zeta.
    change (of_int 0 / of_int (n - 1)) with (0 / IZR (n - 1))%R.
    replace (0 / IZR (n - 1))%R with 0%R by (unfold Rdiv; ring).
    rewrite external_point_start, tooth_width_R, dedendum_R.
    do 2 f_equal. field.
  - rewrite step_profile_nth by lia. cbv zeta.
    change (of_int (n - 1) / of_int (n - 1))
      with (IZR (n - 1) / IZR (n - 1))%R.
    replace (IZR (n - 1) / IZR (n - 1))%R with 1%R by (field; exact Hn1).
    rewrite external_point_end, tooth_width_R, dedendum_R.
    do 2 f_equal. field.
Qed.

Lemma external_teeth_of_the_two_scripts_witness :
  exists dxf step,
    GenerateDxf.generate_tooth_profile 0.4%R 16 = Ok dxf /\
    GenerateStepFiles.generate_s_curve_tooth_points 0.4%R 0.2%R 16 false
      = Ok step /\
    length dxf = 17%nat /\ length step = 16%nat.
Proof.
  destruct (@external_teeth_of_the_two_scripts 0.4%R 0.2%R 16)
    as (dxf & step & Hd & Hs & Hdl & Hsl & _); [lia|].
  exists dxf, step. auto.
Defined.
